(** * Design Builder: contrib extensions and signal handlers

    A shallow embedding of [design_builder/contrib/ext.py] and
    [nautobot_design_builder/signals.py].

    Python values are an inductive type, dictionaries are association
    lists in insertion order, exceptions are an error result, the ORM is a
    list of rows per model class, and [ModelInstance] objects live on a
    heap of records addressed by position, since the extensions store
    references to them in each other. *)

From Stdlib Require Import ZArith String Ascii List Bool Lia DecimalString.
From stdpp Require Import base list.
Import ListNotations.

Set Warnings "-register-all".
Local Open Scope string_scope.
Local Open Scope Z_scope.

(** ** Python values *)

(** A Django model class, identified by the natural key of its content
    type: [_meta.app_label] and [_meta.model_name]. *)
Record ModelClass := mkModel { app_label : string; model_name : string }.

Definition model_eqb (a b : ModelClass) : bool :=
  String.eqb (app_label a) (app_label b) && String.eqb (model_name a) (model_name b).

(** The values a design hands to an extension.  [VObj] is an ORM object
    (Django compares them by model and primary key), [VContentType] a
    [ContentType] row, [VModelInstance] a reference to a [ModelInstance]
    on the heap. *)
Inductive Value :=
| VNone
| VBool (b : bool)
| VInt (n : Z)
| VStr (s : string)
| VList (xs : list Value)
| VDict (d : list (string * Value))
| VObj (m : ModelClass) (pk : Z)
| VContentType (m : ModelClass)
| VModelInstance (l : nat).

(** A [dict] with string keys, in insertion order. *)
Definition Dict := list (string * Value).

Fixpoint value_eqb (a b : Value) : bool :=
  match a, b with
  | VNone, VNone => true
  | VBool x, VBool y => Bool.eqb x y
  | VInt x, VInt y => Z.eqb x y
  | VStr x, VStr y => String.eqb x y
  | VList xs, VList ys =>
      (fix go (xs ys : list Value) : bool :=
         match xs, ys with
         | [], [] => true
         | x :: xs', y :: ys' => value_eqb x y && go xs' ys'
         | _, _ => false
         end) xs ys
  | VDict xs, VDict ys =>
      (fix go (xs ys : list (string * Value)) : bool :=
         match xs, ys with
         | [], [] => true
         | (k, x) :: xs', (k', y) :: ys' =>
             String.eqb k k' && value_eqb x y && go xs' ys'
         | _, _ => false
         end) xs ys
  | VObj m p, VObj m' p' => model_eqb m m' && Z.eqb p p'
  | VContentType m, VContentType m' => model_eqb m m'
  | VModelInstance l, VModelInstance l' => Nat.eqb l l'
  | _, _ => false
  end.

(** [value is None] *)
Definition is_None (v : Value) : bool :=
  match v with VNone => true | _ => false end.

(** ** Dictionaries *)

Definition dict_get (k : string) (d : Dict) : option Value :=
  match List.find (fun kv => String.eqb k (fst kv)) d with
  | Some kv => Some (snd kv)
  | None => None
  end.

Definition dict_has (k : string) (d : Dict) : bool :=
  existsb (fun kv => String.eqb k (fst kv)) d.

Definition dict_del (k : string) (d : Dict) : Dict :=
  List.filter (fun kv => negb (String.eqb k (fst kv))) d.

(** [d.pop(k, None)]: the value and the dictionary without the key. *)
Definition dict_pop_default (k : string) (d : Dict) : Value * Dict :=
  match dict_get k d with
  | Some v => (v, dict_del k d)
  | None => (VNone, d)
  end.

(** [d[k] = v]: an existing key keeps its position, a new one goes last. *)
Fixpoint dict_set (k : string) (v : Value) (d : Dict) : Dict :=
  match d with
  | [] => [(k, v)]
  | (k', v') :: d' =>
      if String.eqb k k' then (k, v) :: d' else (k', v') :: dict_set k v d'
  end.

Definition dict_keys (d : Dict) : list string := List.map fst d.

(** ** Exceptions *)

(** The text of a [DesignImplementationError].  Messages built with an
    f-string keep the interpolated objects instead of their [repr]. *)
Inductive Message :=
| Text (s : string)
| NoMatching (m : ModelClass) (query : Dict)
| MultipleMatch (m : ModelClass) (query : Dict)
| NoModelClassFor (m : ModelClass)
| NoAvailablePrefixes (parents : list Z).

Inductive Exception :=
| DesignImplementationError (msg : Message)
| ObjectDoesNotExist (m : ModelClass)
| MultipleObjectsReturned (m : ModelClass)
| ContentTypeDoesNotExist
| UnboundLocalError (name : string)
| AttributeError (name : string)
| KeyError (key : string)
| TypeError (why : string)
| ValueError (why : string)
| AddrFormatError (addr : string)
| FieldError (name : string)
| ValidationError (name : string)
| ModelInstanceInitError.

Inductive Result (A : Type) :=
| Ok (a : A)
| Raise (e : Exception).
Arguments Ok {A} a.
Arguments Raise {A} e.

Definition bind {A B} (r : Result A) (k : A -> Result B) : Result B :=
  match r with
  | Ok a => k a
  | Raise e => Raise e
  end.

Declare Scope py_scope.
Delimit Scope py_scope with py.
Notation "x <- c ;; k" := (bind c (fun x => k))
  (at level 100, c at next level, right associativity) : py_scope.

Definition is_design_error {A} (r : Result A) : bool :=
  match r with
  | Raise (DesignImplementationError _) => true
  | _ => false
  end.

(** The statements of a [for] loop that may raise, collected in order. *)
Fixpoint for_each {A B} (f : A -> Result B) (xs : list A) : Result (list B) :=
  match xs with
  | [] => Ok []
  | x :: rest =>
      (y <- f x ;;
       ys <- for_each f rest ;;
       Ok (y :: ys))%py
  end.

(** ** The ORM *)

(** A saved or in-memory model object.  [row_fields] holds the fields of
    the object and, for a path such as [device__name], the value that
    the path reaches from it; a foreign key holds a [VObj]. *)
Record Row := mkRow { row_model : ModelClass; row_pk : Z; row_fields : Dict }.

Definition row_ref (r : Row) : Value := VObj (row_model r) (row_pk r).

Definition Cable : ModelClass := mkModel "dcim" "cable".
Definition Status : ModelClass := mkModel "extras" "status".
Definition Prefix : ModelClass := mkModel "ipam" "prefix".

(** A row of the content-type table; [ct_model_class] is what
    [content_type.model_class()] returns, [None] for a model that is no
    longer installed. *)
Record ContentType := mkContentType {
  ct_app_label : string;
  ct_model : string;
  ct_model_class : option ModelClass
}.

(** An available block reported by [Prefix.get_available_prefixes()]. *)
Record IPNetwork := mkNet { network : string; prefixlen : Z; broadcast : string }.

Definition row_get (r : Row) (path : string) : option Value :=
  if String.eqb path "pk" || String.eqb path "id" then Some (VInt (row_pk r))
  else dict_get path (row_fields r).

(** A keyword argument that asks for the rows holding a value under a
    path. *)
Definition matches_kwarg (r : Row) (kv : string * Value) : bool :=
  match row_get r (fst kv) with
  | Some w => value_eqb w (snd kv)
  | None => false
  end.

Definition matches (query : Dict) (r : Row) : bool :=
  forallb (matches_kwarg r) query.

(** Why Django refuses a keyword argument of [get] or [filter] while it
    builds the query: the name resolves to no field or lookup of the
    model ([FieldError]), or the field cannot prepare the value
    ([ValueError], [TypeError], [ValidationError]). *)
Inductive QueryError := NoSuchLookup | BadValue | BadType | InvalidValue.

Definition query_exception (name : string) (e : QueryError) : Exception :=
  match e with
  | NoSuchLookup => FieldError name
  | BadValue => ValueError name
  | BadType => TypeError name
  | InvalidValue => ValidationError name
  end.

(** What a keyword argument asks of a row, once Django has resolved its
    name and prepared its value. *)
Inductive Condition :=
| Test (holds : Row -> bool)
| Refused (e : QueryError).

(** What the model classes declare, as far as the ORM uses it here. *)
Record Schema := mkSchema {
  (** how [get] and [filter] resolve a keyword argument for a model: the
      name is a path of fields that may end in a lookup such as [__in] or
      [__startswith] *)
  lookups : ModelClass -> string -> Value -> Condition;
  (** [Meta.ordering] of a model: whether a row comes no later than
      another one when a queryset is iterated *)
  ordering : ModelClass -> Row -> Row -> bool;
  (** the foreign keys declared with [on_delete=CASCADE]: model, field *)
  cascades : list (ModelClass * string);
  (** the foreign keys declared with [on_delete=SET_NULL]: model, field *)
  nullifies : list (ModelClass * string)
}.

Record Database := mkDatabase {
  db_rows : list Row;
  db_content_types : list ContentType;
  (** foreign keys of the schema: model, field name, related model *)
  db_related : list (ModelClass * string * ModelClass);
  (** [get_available_prefixes().iter_cidrs()] of the prefix with this key *)
  db_available : Z -> list IPNetwork;
  db_schema : Schema
}.

(** The keyword arguments that the sources themselves spell out:
    [Status.objects.get_or_create(name=status_name)] with a string,
    [Design.objects.get_or_create(job=instance)] with a model object, and
    the [Q] objects of [!next_prefix] with the parts of a parsed network.
    Each names a field and asks for the rows that hold the value. *)
Definition declared_lookup (m : ModelClass) (key : string) (v : Value) : bool :=
  match v with
  | VStr _ =>
      model_eqb m Status && String.eqb key "name"
      || model_eqb m Prefix && (String.eqb key "network" || String.eqb key "broadcast")
  | VInt _ => model_eqb m Prefix && String.eqb key "prefix_length"
  | VObj _ _ => model_eqb m (mkModel "nautobot_design_builder" "design") && String.eqb key "job"
  | _ => false
  end.

(** The condition that a keyword argument puts on the rows of model [m]. *)
Definition condition (d : Database) (m : ModelClass) (key : string) (v : Value) : Condition :=
  if declared_lookup m key v then Test (fun r => matches_kwarg r (key, v))
  else lookups (db_schema d) m key v.

(** A queryset: its model, its rows in table order, how it resolves a
    keyword argument and the order in which it is iterated. *)
Record QuerySet := mkQuerySet {
  qs_model : ModelClass;
  qs_rows : list Row;
  qs_condition : string -> Value -> Condition;
  qs_order : Row -> Row -> bool
}.

(** [model_class.objects] *)
Definition objects (db : Database) (m : ModelClass) : QuerySet :=
  mkQuerySet m (List.filter (fun r => model_eqb (row_model r) m) (db_rows db))
             (condition db m) (ordering (db_schema db) m).

(** [sorted(kwargs.items())]: a [Q] object keeps its keyword arguments
    in the order of their names. *)
Fixpoint insert_item (kv : string * Value) (items : Dict) : Dict :=
  match items with
  | [] => [kv]
  | x :: rest =>
      if String.leb (fst kv) (fst x) then kv :: x :: rest else x :: insert_item kv rest
  end.

Definition sorted_items (kwargs : Dict) : Dict := fold_right insert_item [] kwargs.

(** The condition for one keyword argument, or the error of Django. *)
Definition build_filter (qs : QuerySet) (kv : string * Value) : Result (Row -> bool) :=
  match qs_condition qs (fst kv) (snd kv) with
  | Test holds => Ok holds
  | Refused e => Raise (query_exception (fst kv) e)
  end.

(** The conditions for keyword arguments; the first one that Django
    refuses ends the call. *)
Definition qs_conditions (qs : QuerySet) (kwargs : Dict) : Result (list (Row -> bool)) :=
  for_each (build_filter qs) (sorted_items kwargs).

Definition passes (tests : list (Row -> bool)) (r : Row) : bool :=
  forallb (fun test => test r) tests.

(** The rows of a queryset that keyword arguments select. *)
Definition selected (qs : QuerySet) (kwargs : Dict) : Result (list Row) :=
  (tests <- qs_conditions qs kwargs ;;
   Ok (List.filter (passes tests) (qs_rows qs)))%py.

(** [queryset.get] with the query as keyword arguments *)
Definition qs_get (qs : QuerySet) (query : Dict) : Result Row :=
  (found <- selected qs query ;;
   match found with
   | [] => Raise (ObjectDoesNotExist (qs_model qs))
   | [r] => Ok r
   | _ :: _ :: _ => Raise (MultipleObjectsReturned (qs_model qs))
   end)%py.

(** Stable sorting by a "comes no later than" test: the order of a
    queryset with an [ORDER BY], table order where the test always
    holds. *)
Fixpoint insert_row (leb : Row -> Row -> bool) (r : Row) (rows : list Row) : list Row :=
  match rows with
  | [] => [r]
  | x :: rest => if leb r x then r :: x :: rest else x :: insert_row leb r rest
  end.

Definition order_by (leb : Row -> Row -> bool) (rows : list Row) : list Row :=
  fold_right (insert_row leb) [] rows.

(** [ContentType.objects.get_by_natural_key(app_label, model)]; natural
    keys are unique. *)
Definition get_by_natural_key (db : Database) (app model : string) : Result ContentType :=
  match List.find (fun ct => String.eqb (ct_app_label ct) app && String.eqb (ct_model ct) model)
                  (db_content_types db) with
  | Some ct => Ok ct
  | None => Raise ContentTypeDoesNotExist
  end.

(** ** ModelInstance *)

Inductive Signal := PRE_SAVE | POST_SAVE.

Inductive Handler := BGPPeeringExtension_post_save.

(** Modelled from the spec: the [ModelInstance] class of
    [design_builder.design], which is not part of these sources.  It
    "wraps a to-be-created/updated ORM row, holds unresolved attributes,
    deferred sub-objects, and lifecycle hooks"; the fields are those the
    extensions read and write. *)
Record ModelInstance := mkModelInstance {
  model_class : ModelClass;
  instance : option Row;
  attributes : Dict;
  deferred : list string;
  deferred_attributes : Dict;
  signals : list (Signal * Handler)
}.

Abbreviation Heap := (list ModelInstance).

Record State := mkState { db : Database; heap : Heap }.

(** [value.instance] for a value that has the attribute. *)
Definition instance_value (h : Heap) (l : nat) : Value :=
  match h !! l with
  | Some mi => match instance mi with Some r => row_ref r | None => VNone end
  | None => VNone
  end.

(** ** Strings *)

(** [s.split(sep)] for a one-character separator. *)
Fixpoint split_on (sep : ascii) (s : string) : list string :=
  match s with
  | EmptyString => [EmptyString]
  | String c s' =>
      if Ascii.eqb c sep then EmptyString :: split_on sep s'
      else match split_on sep s' with
           | [] => [String c EmptyString]
           | w :: ws => String c w :: ws
           end
  end.

Definition dquote : string := String (ascii_of_nat 34) EmptyString.

(** * design_builder/contrib/ext.py *)

Module LookupMixin.

(** The loop at the head of [lookup]: a query value that has an
    [instance] attribute is replaced by that instance. *)
Definition resolve_instances (h : Heap) (query : Dict) : Dict :=
  List.map (fun kv =>
         match snd kv with
         | VModelInstance l => (fst kv, instance_value h l)
         | _ => kv
         end) query.

Definition lookup (st : State) (queryset : QuerySet) (query : Dict) : Result Row :=
  let query := resolve_instances (heap st) query in
  match qs_get queryset query with
  | Ok r => Ok r
  | Raise (ObjectDoesNotExist _) =>
      Raise (DesignImplementationError (NoMatching (qs_model queryset) query))
  | Raise (MultipleObjectsReturned _) =>
      Raise (DesignImplementationError (MultipleMatch (qs_model queryset) query))
  | Raise e => Raise e
  end.

(** The locals of [lookup_by_content_type] that its handler can read:
    [None] is a name that has not been assigned yet, [Some v] a name
    bound to [v] ([model_class()] may itself return [None]). *)
Record Locals := mkLocals { local_model_class : option (option ModelClass) }.

(** The [try] block: the exception or the queryset, with the locals as
    they are when the block is left. *)
Definition try_block (d : Database) (app_label model_name : string)
  : Result QuerySet * Locals :=
  match get_by_natural_key d app_label model_name with
  | Raise e => (Raise e, mkLocals None)
  | Ok content_type =>
      let model_class := ct_model_class content_type in
      match model_class with
      | Some m => (Ok (objects d m), mkLocals (Some model_class))
      | None => (Raise (AttributeError "objects"), mkLocals (Some model_class))
      end
  end.

(** Reading a local in an expression. *)
Definition read_model_class (locals : Locals) : Result (option ModelClass) :=
  match local_model_class locals with
  | Some v => Ok v
  | None => Raise (UnboundLocalError "model_class")
  end.

(** The [except ContentType.DoesNotExist] handler: the f-string is
    evaluated first, then the error is raised. *)
Definition handler (locals : Locals) : Exception :=
  match read_model_class locals with
  | Ok (Some m) => DesignImplementationError (NoModelClassFor m)
  | Ok None => DesignImplementationError (Text "Could not find model class for None")
  | Raise e => e
  end.

Definition lookup_by_content_type (st : State) (app_label model_name : string)
  (query : Dict) : Result Row :=
  match try_block (db st) app_label model_name with
  | (Ok queryset, _) => lookup st queryset query
  | (Raise ContentTypeDoesNotExist, locals) => Raise (handler locals)
  | (Raise e, _) => Raise e
  end.

End LookupMixin.

Module LookupExtension.

Definition attribute_tag : string := "lookup".

(** [getattr(model_instance.model_class, attribute).field.related_model] *)
Definition related_model (d : Database) (m : ModelClass) (attribute : string)
  : Result ModelClass :=
  match List.find (fun e => model_eqb (fst (fst e)) m && String.eqb (snd (fst e)) attribute)
                  (db_related d) with
  | Some e => Ok (snd e)
  | None => Raise (AttributeError attribute)
  end.

Definition attribute (st : State) (args : list string) (value : Value)
  (model_instance : ModelInstance) : Result (string * Row) :=
  match args with
  | [] =>
      Raise (DesignImplementationError
               (Text ("No attribute given for the " ++ dquote ++ "!lookup" ++ dquote ++ " tag.")))
  | attribute :: rest =>
      (query <-
         match value with
         | VStr s =>
             match rest with
             | [] => Raise (DesignImplementationError (Text "No query attribute was given"))
             | name :: _ => Ok [(name, VStr s)]
             end
         | VDict d => Ok d
         | _ =>
             Raise (DesignImplementationError
                      (Text "the lookup requires a query attribute and value or a query dictionary."))
         end ;;
       let (content_type, query) := dict_pop_default "content-type" query in
       key <-
         match content_type with
         | VNone =>
             m <- related_model (db st) (model_class model_instance) attribute ;;
             Ok (app_label m, model_name m)
         | VStr s =>
             match split_on "." s with
             | [a; m] => Ok (a, m)
             | _ => Raise (ValueError "unpack")
             end
         | _ => Raise (AttributeError "split")
         end ;;
       found <- LookupMixin.lookup_by_content_type st (fst key) (snd key) query ;;
       Ok (attribute, found))%py
  end.

End LookupExtension.

(** ** Statements that change the state *)

(** An extension runs against the database and the heap of model
    instances; what it changed before an exception stays changed. *)
Definition M (A : Type) : Type := State -> Result A * State.

Definition mret {A} (a : A) : M A := fun st => (Ok a, st).

Definition mraise {A} (e : Exception) : M A := fun st => (Raise e, st).

Definition mbind {A B} (m : M A) (k : A -> M B) : M B :=
  fun st =>
    match m st with
    | (Ok a, st') => k a st'
    | (Raise e, st') => (Raise e, st')
    end.

(** An expression that only reads the state. *)
Definition reads {A} (f : State -> Result A) : M A := fun st => (f st, st).

Notation "x <~ c ;; k" := (mbind c (fun x => k))
  (at level 100, c at next level, right associativity) : py_scope.

Definition get_instance (l : nat) : M ModelInstance :=
  reads (fun st =>
           match heap st !! l with
           | Some mi => Ok mi
           | None => Raise (AttributeError "model_instance")
           end).

(** In-place update of the model instance at [l]. *)
Definition update_instance (l : nat) (f : ModelInstance -> ModelInstance) : M unit :=
  fun st =>
    match heap st !! l with
    | Some mi => (Ok tt, mkState (db st) (<[l := f mi]> (heap st)))
    | None => (Raise (AttributeError "model_instance"), st)
    end.

Definition set_deferred (ds : list string) (mi : ModelInstance) : ModelInstance :=
  mkModelInstance (model_class mi) (instance mi) (attributes mi) ds
                  (deferred_attributes mi) (signals mi).

Definition set_deferred_attributes (d : Dict) (mi : ModelInstance) : ModelInstance :=
  mkModelInstance (model_class mi) (instance mi) (attributes mi) (deferred mi)
                  d (signals mi).

Definition set_attributes (d : Dict) (mi : ModelInstance) : ModelInstance :=
  mkModelInstance (model_class mi) (instance mi) d (deferred mi)
                  (deferred_attributes mi) (signals mi).

Definition set_signals (s : list (Signal * Handler)) (mi : ModelInstance) : ModelInstance :=
  mkModelInstance (model_class mi) (instance mi) (attributes mi) (deferred mi)
                  (deferred_attributes mi) s.

(** Modelled from the spec: the [Builder] of [design_builder.design], the
    "object-creation context" an extension holds as [object_creator].
    Which ORM row a new [ModelInstance] wraps (one loaded from the
    database or a fresh, unsaved one) is decided there; [None] stands for
    the constructor giving up, which raises [ModelInstanceInitError]. *)
Record Builder := mkBuilder {
  load_instance : Database -> ModelClass -> Dict -> option (option Row)
}.

(** Modelled from the spec: the constructor
    [ModelInstance(creator, model_class, attributes)].  It copies the
    attributes, starts with nothing deferred and no hooks, and stores
    the new object at the end of the heap. *)
Definition ModelInstance_init (creator : Builder) (m : ModelClass) (attrs : Value) : M nat :=
  fun st =>
    match attrs with
    | VDict d =>
        match load_instance creator (db st) m d with
        | Some row =>
            (Ok (List.length (heap st)),
             mkState (db st) (heap st ++ [mkModelInstance m row d [] [] []])%list)
        | None => (Raise ModelInstanceInitError, st)
        end
    | _ => (Raise (TypeError "attributes is not a mapping"), st)
    end.

Module CableConnectionExtension.

Definition attribute_tag : string := "connect_cable".

Definition no_status : Exception :=
  DesignImplementationError (Text "No status given for cable connection").

(** The first part of [attribute]: from the copied query to the status
    and what is left of the query. *)
Definition resolve_status (st : State) (query : Dict) : Result (Value * Dict) :=
  let (status, query) := dict_pop_default "status" query in
  match status with
  | VNone =>
      match List.find (String.prefix "status__") (dict_keys query) with
      | Some key =>
          let status_lookup :=
            String.substring 8 (String.length key - 8) key in
          let (v, query) := dict_pop_default key query in
          (found <- qs_get (objects (db st) Status) [(status_lookup, v)] ;;
           Ok (row_ref found, query))%py
      | None => Ok (VNone, query)
      end
  | VDict d =>
      (found <- qs_get (objects (db st) Status) d ;;
       Ok (row_ref found, query))%py
  | VModelInstance l => Ok (instance_value (heap st) l, query)
  | _ => Ok (status, query)
  end.

Definition cable_attributes (status : Value) (model_instance : nat) (remote : Row) : Dict :=
  [ ("status", status);
    ("termination_a", VModelInstance model_instance);
    ("!create_or_update:termination_b_type", VContentType (row_model remote));
    ("!create_or_update:termination_b_id", VInt (row_pk remote)) ].

(** The second part of [attribute]: the remote termination is looked up
    and the cable is left for later. *)
Definition defer_cable (self : Builder) (status : Value) (query : Dict)
  (model_instance : nat) : M Value :=
  (mi <~ get_instance model_instance ;;
   remote_instance <~
     reads (fun st => LookupMixin.lookup st (objects (db st) (model_class mi)) query) ;;
   _ <~ update_instance model_instance
          (fun mi => set_deferred (deferred mi ++ ["cable"])%list mi) ;;
   cable <~ ModelInstance_init self Cable
              (VDict (cable_attributes status model_instance remote_instance)) ;;
   _ <~ update_instance model_instance
          (fun mi => set_deferred_attributes
                       (dict_set "cable" (VList [VModelInstance cable])
                                 (deferred_attributes mi)) mi) ;;
   mret VNone)%py.

Definition attribute (self : Builder) (value : Value) (model_instance : nat) : M Value :=
  match value with
  | VDict query =>
      (resolved <~ reads (fun st => resolve_status st query) ;;
       let (status, query) := (resolved : Value * Dict) in
       if is_None status then mraise no_status
       else defer_cable self status query model_instance)%py
  | _ => mraise (TypeError "value is not a mapping")
  end.

End CableConnectionExtension.

(** [Q] objects: keyword arguments combined with [&] and [|]. *)
Inductive Q :=
| QKwargs (kwargs : Dict)
| QAnd (a b : Q)
| QOr (a b : Q).

(** The condition of a [Q] object on the rows of a queryset; its parts
    are resolved from left to right. *)
Fixpoint q_test (qs : QuerySet) (q : Q) : Result (Row -> bool) :=
  match q with
  | QKwargs kwargs =>
      (tests <- qs_conditions qs kwargs ;;
       Ok (passes tests))%py
  | QAnd a b =>
      (test_a <- q_test qs a ;;
       test_b <- q_test qs b ;;
       Ok (fun r => test_a r && test_b r))%py
  | QOr a b =>
      (test_a <- q_test qs a ;;
       test_b <- q_test qs b ;;
       Ok (fun r => test_a r || test_b r))%py
  end.

(** [queryset.filter(q)] and its iteration: [filter] resolves the names
    at once, the rows come in the order of the model. *)
Definition qs_filter (qs : QuerySet) (q : Q) : Result (list Row) :=
  (test <- q_test qs q ;;
   Ok (order_by (qs_order qs) (List.filter test (qs_rows qs))))%py.

(** [reduce(operator.or_, qs)] without an initial value. *)
Definition reduce_or (qs : list Q) : Result Q :=
  match qs with
  | [] => Raise (TypeError "reduce() of empty sequence with no initial value")
  | q :: rest => Ok (fold_left QOr rest q)
  end.

(** The characters that [str.strip()] removes, those for which
    [str.isspace] holds, each as the bytes of its UTF-8 encoding (a
    string is the UTF-8 encoding of the Python text): U+0009 to U+000D,
    U+001C to U+0020, U+0085, U+00A0, U+1680, U+2000 to U+200A, U+2028,
    U+2029, U+202F, U+205F and U+3000. *)
Definition space_codes : list (list nat) :=
  ([ [9]; [10]; [11]; [12]; [13]; [28]; [29]; [30]; [31]; [32];
     [194; 133]; [194; 160];
     [225; 154; 128];
     [226; 128; 128]; [226; 128; 129]; [226; 128; 130]; [226; 128; 131];
     [226; 128; 132]; [226; 128; 133]; [226; 128; 134]; [226; 128; 135];
     [226; 128; 136]; [226; 128; 137]; [226; 128; 138];
     [226; 128; 168]; [226; 128; 169]; [226; 128; 175];
     [226; 129; 159];
     [227; 128; 128] ])%nat.

(** The string without the leading bytes [code], if it starts with them. *)
Fixpoint drop_bytes (code : list nat) (s : string) : option string :=
  match code with
  | [] => Some s
  | b :: code' =>
      match s with
      | String c s' => if Nat.eqb (nat_of_ascii c) b then drop_bytes code' s' else None
      | EmptyString => None
      end
  end.

(** The string without its first character, if that is one of [codes]. *)
Definition drop_any (codes : list (list nat)) (s : string) : option string :=
  fold_right (fun code found =>
                match drop_bytes code s with
                | Some rest => Some rest
                | None => found
                end) None codes.

Fixpoint strip_front (codes : list (list nat)) (fuel : nat) (s : string) : string :=
  match fuel with
  | O => s
  | S fuel' =>
      match drop_any codes s with
      | Some rest => strip_front codes fuel' rest
      | None => s
      end
  end.

Definition string_rev (s : string) : string :=
  string_of_list_ascii (List.rev (list_ascii_of_string s)).

Definition lstrip (s : string) : string :=
  strip_front space_codes (String.length s) s.

Definition rstrip (s : string) : string :=
  string_rev (strip_front (List.map (@List.rev nat) space_codes) (String.length s)
                          (string_rev s)).

(** [s.strip()] *)
Definition strip (s : string) : string := rstrip (lstrip s).

(** [str(n)] for an [int]. *)
Definition str_of_int (n : Z) : string := NilZero.string_of_int (Z.to_int n).

Module NextPrefixExtension.

Definition attribute_tag : string := "next_prefix".

Section Netaddr.

(** [netaddr.IPNetwork(s)]: the parsed network, or [None] where
    netaddr raises [AddrFormatError]. *)
Variable parse_network : string -> option IPNetwork.

(** [int(s)] for a string: the number, or [None] for [ValueError]. *)
Variable parse_int : string -> option Z.

(** [int(length)] *)
Definition int (length : Value) : Result Z :=
  match length with
  | VInt n => Ok n
  | VBool b => Ok (if b then 1 else 0)
  | VStr s =>
      match parse_int s with
      | Some n => Ok n
      | None => Raise (ValueError "invalid literal for int()")
      end
  | _ => Raise (TypeError "int() argument")
  end.

(** The inner loop of [_get_next] over one parent. *)
Definition first_fit (d : Database) (length : Z) (requested_prefix : Row)
  : option IPNetwork :=
  List.find (fun available_prefix => prefixlen available_prefix <=? length)
            (db_available d (row_pk requested_prefix)).

(** The outer loop of [_get_next]. *)
Fixpoint first_available (d : Database) (length : Z) (prefixes : list Row)
  : option IPNetwork :=
  match prefixes with
  | [] => None
  | requested_prefix :: rest =>
      match first_fit d length requested_prefix with
      | Some available_prefix => Some available_prefix
      | None => first_available d length rest
      end
  end.

Definition _get_next (d : Database) (prefixes : list Row) (length : Value)
  : Result string :=
  (length <- int length ;;
   match first_available d length prefixes with
   | Some available_prefix =>
       Ok (network available_prefix ++ "/" ++ str_of_int length)
   | None =>
       Raise (DesignImplementationError
                (NoAvailablePrefixes (List.map row_pk prefixes)))
   end)%py.

(** The body of the loop over the given prefix strings. *)
Definition prefix_filter (prefix_str : Value) : Result Q :=
  match prefix_str with
  | VStr s =>
      match parse_network (strip s) with
      | Some prefix =>
          Ok (QKwargs [ ("prefix_length", VInt (prefixlen prefix));
                        ("network", VStr (network prefix));
                        ("broadcast", VStr (broadcast prefix)) ])
      | None => Raise (AddrFormatError (strip s))
      end
  | _ => Raise (AttributeError "strip")
  end.

Definition not_a_dictionary : Exception :=
  DesignImplementationError (Text "the next_prefix tag requires a dictionary of arguments").
Definition no_length : Exception :=
  DesignImplementationError (Text "the next_prefix tag requires a prefix length").
Definition no_criteria : Exception :=
  DesignImplementationError (Text "no search criteria specified for prefixes").
Definition bad_prefixes : Exception :=
  DesignImplementationError (Text "Prefixes should be a string (single prefix) or a list.").

(** The query that [attribute] builds from what is left of [value]. *)
Definition build_query (value : Dict) : Result Q :=
  match dict_get "prefix" value with
  | Some prefixes =>
      let value := dict_del "prefix" value in
      (prefixes <-
         match prefixes with
         | VStr s => Ok [VStr s]
         | VList xs => Ok xs
         | _ => Raise bad_prefixes
         end ;;
       prefix_q <- for_each prefix_filter prefixes ;;
       alternatives <- reduce_or prefix_q ;;
       Ok (QAnd (QKwargs value) alternatives))%py
  | None => Ok (QKwargs value)
  end.

Definition attribute (d : Database) (value : Value) : Result (string * string) :=
  match value with
  | VDict value =>
      let (length, value) := dict_pop_default "length" value in
      if is_None length then Raise no_length
      else
        match value with
        | [] => Raise no_criteria
        | _ :: _ =>
            (query <- build_query value ;;
             prefixes <- qs_filter (objects d Prefix) query ;;
             next <- _get_next d prefixes length ;;
             Ok ("prefix", next))%py
        end
  | _ => Raise not_a_dictionary
  end.

End Netaddr.

End NextPrefixExtension.

Module ChildPrefixExtension.

Definition attribute_tag : string := "child_prefix".

Section Jinja.

(** [design_builder.jinja2.network_offset], which is not part of
    these sources. *)
Variable network_offset : string -> string -> Result string.

(** [str(parent.instance.prefix)] for a previously created prefix. *)
Definition prefix_of (h : Heap) (l : nat) : Result string :=
  match h !! l with
  | Some mi =>
      match instance mi with
      | Some r =>
          match dict_get "prefix" (row_fields r) with
          | Some (VStr s) => Ok s
          | _ => Raise (AttributeError "prefix")
          end
      | None => Raise (AttributeError "prefix")
      end
  | None => Raise (AttributeError "instance")
  end.

Definition attribute (st : State) (value : Value) : Result (string * string) :=
  match value with
  | VDict value =>
      let (parent, value) := dict_pop_default "parent" value in
      (parent <-
         match parent with
         | VNone =>
             Raise (DesignImplementationError (Text "the child_prefix tag requires a parent"))
         | VModelInstance l => prefix_of (heap st) l
         | VStr s => Ok s
         | _ =>
             Raise (DesignImplementationError
                      (Text "parent prefix must be either a previously created object or a string."))
         end ;;
       let (offset, value) := dict_pop_default "offset" value in
       match offset with
       | VNone =>
           Raise (DesignImplementationError (Text "the child_prefix tag requires an offset"))
       | VStr offset =>
           (child <- network_offset parent offset ;;
            Ok ("prefix", child))
       | _ => Raise (DesignImplementationError (Text "offset must be string"))
       end)%py
  | _ =>
      Raise (DesignImplementationError
               (Text "the child_prefix tag requires a dictionary of arguments"))
  end.

End Jinja.

End ChildPrefixExtension.

(** ** Saving and deleting rows *)

Definition same_row (a b : Row) : bool :=
  model_eqb (row_model a) (row_model b) && Z.eqb (row_pk a) (row_pk b).

Definition find_row (d : Database) (m : ModelClass) (pk : Z) : option Row :=
  List.find (fun r => model_eqb (row_model r) m && Z.eqb (row_pk r) pk) (db_rows d).

Definition with_rows (d : Database) (rows : list Row) : Database :=
  mkDatabase rows (db_content_types d) (db_related d) (db_available d) (db_schema d).

(** The table after [r.save()]: the stored row with this key is
    replaced, a new row goes last. *)
Fixpoint save_rows (r : Row) (rows : list Row) : list Row :=
  match rows with
  | [] => [r]
  | x :: rest => if same_row x r then r :: rest else x :: save_rows r rest
  end.

Definition save (r : Row) : M unit :=
  fun st => (Ok tt, mkState (with_rows (db st) (save_rows r (db_rows (db st)))) (heap st)).

(** [obj.field = v] on an in-memory object. *)
Definition set_field (field : string) (v : Value) (r : Row) : Row :=
  mkRow (row_model r) (row_pk r) (dict_set field v (row_fields r)).

(** The foreign keys of the BGP models plugin that point at what
    [!bgp_peering] deletes: an endpoint goes with its peering, and the
    [peer] of the other endpoint is cleared; then those of the schema. *)
Definition on_delete_cascade (d : Database) : list (ModelClass * string) :=
  (mkModel "nautobot_bgp_models" "peerendpoint", "peering") :: cascades (db_schema d).

Definition on_delete_set_null (d : Database) : list (ModelClass * string) :=
  (mkModel "nautobot_bgp_models" "peerendpoint", "peer") :: nullifies (db_schema d).

(** Whether the field of [x] holds a reference to [target]. *)
Definition refers_to (field : string) (target x : Row) : bool :=
  match dict_get field (row_fields x) with
  | Some v => value_eqb v (row_ref target)
  | None => false
  end.

(** Whether [x] has one of the keys [keys] and refers through it to one
    of the rows [targets]. *)
Definition refers_through (keys : list (ModelClass * string)) (targets : list Row) (x : Row)
  : bool :=
  existsb (fun mf =>
             model_eqb (fst mf) (row_model x) &&
             existsb (fun target => refers_to (snd mf) target x) targets) keys.

(** Whether a row with the key of [x] has been collected. *)
Definition collected (gone : list Row) (x : Row) : bool :=
  existsb (same_row x) gone.

(** One round of Django's collector: the stored rows that refer to a
    collected row through a cascading key join the collection. *)
Definition collect_round (d : Database) (gone : list Row) : list Row :=
  (gone ++ List.filter (fun x => negb (collected gone x) &&
                                 refers_through (on_delete_cascade d) gone x)
                       (db_rows d))%list.

Fixpoint collect (d : Database) (rounds : nat) (gone : list Row) : list Row :=
  match rounds with
  | O => gone
  | S n => collect d n (collect_round d gone)
  end.

(** A row that stays: its keys with [SET_NULL] that point at a collected
    row are cleared. *)
Definition nullified (d : Database) (gone : list Row) (x : Row) : Row :=
  fold_right (fun mf y =>
                if model_eqb (fst mf) (row_model x) && refers_through [mf] gone x
                then set_field (snd mf) VNone y else y)
             x (on_delete_set_null d).

(** The table after [r.delete()]: [r] is removed together with the rows
    that the cascade reaches; every productive round collects a new
    key, so as many rounds as there are rows suffice. *)
Definition rows_after_delete (d : Database) (r : Row) : list Row :=
  let gone := collect d (List.length (db_rows d)) [r] in
  List.map (nullified d gone)
           (List.filter (fun x => negb (collected gone x)) (db_rows d)).

(** [r.delete()] *)
Definition delete (r : Row) : M unit :=
  fun st => (Ok tt, mkState (with_rows (db st) (rows_after_delete (db st) r)) (heap st)).

(** Reading a related object [obj.field]: the row it refers to, [None]
    for a null reference, [DoesNotExist] of the related model when the
    reference is unset or dangling. *)
Definition related (d : Database) (target : ModelClass) (r : Row) (field : string)
  : Result (option Row) :=
  match dict_get field (row_fields r) with
  | Some (VObj m pk) =>
      match find_row d m pk with
      | Some x => Ok (Some x)
      | None => Raise (ObjectDoesNotExist m)
      end
  | Some VNone => Ok None
  | _ => Raise (ObjectDoesNotExist target)
  end.

(** Modelled from the spec: [ModelInstance.connect(signal, handler)] of
    [design_builder.design], which registers a "lifecycle hook". *)
Definition connect (l : nat) (signal : Signal) (handler : Handler) : M unit :=
  update_instance l (fun mi => set_signals (signals mi ++ [(signal, handler)])%list mi).

Definition signal_eqb (a b : Signal) : bool :=
  match a, b with
  | PRE_SAVE, PRE_SAVE | POST_SAVE, POST_SAVE => true
  | _, _ => false
  end.

(** The handlers connected to [signal], in the order of connection. *)
Definition receivers (signal : Signal) (mi : ModelInstance) : list Handler :=
  List.map snd (List.filter (fun sh => signal_eqb (fst sh) signal) (signals mi)).

Module BGPPeeringExtension.

Definition attribute_tag : string := "bgp_peering".

Definition PeerEndpoint : ModelClass := mkModel "nautobot_bgp_models" "peerendpoint".
Definition Peering : ModelClass := mkModel "nautobot_bgp_models" "peering".

(** An endpoint of a peering as the handler reads it.  [endpoint_a] and
    [endpoint_z] are properties of the [Peering] model of the BGP models
    plugin; the peering row holds them as references.  The result is the
    referenced row, or [AttributeError] once the handler touches [None]. *)
Definition endpoint (d : Database) (peering : Row) (field : string) : Result Row :=
  (found <- related d PeerEndpoint peering field ;;
   match found with
   | Some r => Ok r
   | None => Raise (AttributeError "peer")
   end)%py.

Definition _post_save (instance_ : nat) : M unit :=
  (peering_instance <~ get_instance instance_ ;;
   match instance peering_instance with
   | None => mraise (AttributeError "endpoint_a")
   | Some peering =>
       endpoint_a <~ reads (fun st => endpoint (db st) peering "endpoint_a") ;;
       endpoint_z <~ reads (fun st => endpoint (db st) peering "endpoint_z") ;;
       let endpoint_a' := set_field "peer" (row_ref endpoint_z) endpoint_a in
       let endpoint_z' := set_field "peer" (row_ref endpoint_a) endpoint_z in
       _ <~ save endpoint_a' ;;
       save endpoint_z'
   end)%py.

Definition bad_value : Exception :=
  DesignImplementationError
    (Text "bgp peerings must be supplied a dictionary with `endpoint_a` and `endpoint_z`.").

(** [endpoint.instance.peering] *)
Definition peering_of (st : State) (l : nat) : Result (option Row) :=
  match heap st !! l with
  | Some mi =>
      match instance mi with
      | Some r => related (db st) Peering r "peering"
      | None => Raise (AttributeError "peering")
      end
  | None => Raise (AttributeError "instance")
  end.

Definition is_peering_missing (e : Exception) : bool :=
  match e with
  | ObjectDoesNotExist m => model_eqb m Peering
  | _ => false
  end.

(** The [try] block that reads both peerings; [Peering.DoesNotExist]
    leaves what was not assigned yet at [None]. *)
Definition existing_peerings (st : State) (endpoint_a endpoint_z : nat)
  : Result (option Row * option Row) :=
  match peering_of st endpoint_a with
  | Ok peering_a =>
      match peering_of st endpoint_z with
      | Ok peering_z => Ok (peering_a, peering_z)
      | Raise e => if is_peering_missing e then Ok (peering_a, None) else Raise e
      end
  | Raise e => if is_peering_missing e then Ok (None, None) else Raise e
  end.

Definition same_peering (a z : option Row) : bool :=
  match a, z with
  | None, None => true
  | Some x, Some y => same_row x y
  | _, _ => false
  end.

Definition delete_if_any (r : option Row) : M unit :=
  match r with
  | Some x => delete x
  | None => mret tt
  end.

Definition set_peering (model_instance : nat) (endpoint_ : nat) : M unit :=
  update_instance endpoint_
    (fun mi => set_attributes
                 (dict_set "peering" (VModelInstance model_instance) (attributes mi)) mi).

Definition attribute (self : Builder) (value : Value) (model_instance : nat) : M Value :=
  match value with
  | VDict value =>
      match dict_get "endpoint_a" value, dict_get "endpoint_z" value with
      | Some a, Some z =>
          (let retval := dict_del "endpoint_z" (dict_del "endpoint_a" value) in
           endpoint_a <~ ModelInstance_init self PeerEndpoint a ;;
           endpoint_z <~ ModelInstance_init self PeerEndpoint z ;;
           peerings <~ reads (fun st => existing_peerings st endpoint_a endpoint_z) ;;
           let (peering_a, peering_z) := (peerings : option Row * option Row) in
           retval <~
             (if same_peering peering_a peering_z then
                match peering_a with
                | Some p => mret (dict_set "!update:pk" (VInt (row_pk p)) retval)
                | None => mret retval
                end
              else
                _ <~ delete_if_any peering_a ;;
                _ <~ delete_if_any peering_z ;;
                mret retval) ;;
           let retval :=
             dict_set "endpoints"
                      (VList [VModelInstance endpoint_a; VModelInstance endpoint_z]) retval in
           _ <~ set_peering model_instance endpoint_a ;;
           _ <~ set_peering model_instance endpoint_z ;;
           _ <~ connect model_instance POST_SAVE BGPPeeringExtension_post_save ;;
           mret (VDict retval))%py
      | _, _ => mraise bad_value
      end
  | _ => mraise bad_value
  end.

End BGPPeeringExtension.

(** Modelled from the spec: what [ModelInstance.save] of
    [design_builder.design] does once the wrapped row is stored, namely
    sending the signal to the connected hooks with the model instance
    itself as [instance]. *)
Definition run_handler (h : Handler) (l : nat) : M unit :=
  match h with
  | BGPPeeringExtension_post_save => BGPPeeringExtension._post_save l
  end.

Fixpoint run_handlers (hs : list Handler) (l : nat) : M unit :=
  match hs with
  | [] => mret tt
  | h :: rest => (_ <~ run_handler h l ;; run_handlers rest l)%py
  end.

Definition send (signal : Signal) (l : nat) : M unit :=
  (mi <~ get_instance l ;; run_handlers (receivers signal mi) l)%py.

(** ** Extension dispatch *)

(** The [Extension] subclasses that [ext.py] defines, in source order. *)
Inductive ExtensionClass :=
| LookupExtension
| CableConnectionExtension
| NextPrefixExtension
| ChildPrefixExtension
| BGPPeeringExtension.

Definition attribute_tag (e : ExtensionClass) : string :=
  match e with
  | LookupExtension => LookupExtension.attribute_tag
  | CableConnectionExtension => CableConnectionExtension.attribute_tag
  | NextPrefixExtension => NextPrefixExtension.attribute_tag
  | ChildPrefixExtension => ChildPrefixExtension.attribute_tag
  | BGPPeeringExtension => BGPPeeringExtension.attribute_tag
  end.

Definition contrib_extensions : list ExtensionClass :=
  [LookupExtension; CableConnectionExtension; NextPrefixExtension;
   ChildPrefixExtension; BGPPeeringExtension].

(** The subclasses registered under a tag. *)
Definition extensions_for (tag : string) : list ExtensionClass :=
  List.filter (fun e => String.eqb (attribute_tag e) tag) contrib_extensions.

(** Modelled from the spec: "Extension subclasses registered by
    attribute_tag"; the dispatch itself is in [design_builder.design]. *)
Definition dispatch (tag : string) : option ExtensionClass :=
  List.find (fun e => String.eqb (attribute_tag e) tag) contrib_extensions.

Definition is_str_or_dict (v : Value) : bool :=
  match v with
  | VStr _ | VDict _ => true
  | _ => false
  end.

(** * nautobot_design_builder/signals.py *)

(** A primary key that no stored row uses. *)
Definition fresh_pk (rows : list Row) : Z :=
  1 + fold_right Z.max 0 (List.map row_pk rows).

(** [manager.get_or_create(defaults=defaults, kwargs)]: the matching row
    and [False], or a new row built from both dictionaries and [True]. *)
Definition get_or_create (m : ModelClass) (kwargs defaults : Dict) : M (Row * bool) :=
  fun st =>
    match qs_get (objects (db st) m) kwargs with
    | Ok r => (Ok (r, false), st)
    | Raise (ObjectDoesNotExist _) =>
        let r := mkRow m (fresh_pk (db_rows (db st))) (kwargs ++ defaults)%list in
        (Ok (r, true),
         mkState (with_rows (db st) (db_rows (db st) ++ [r])%list) (heap st))
    | Raise e => (Raise e, st)
    end.

(** The members of a many-to-many field. *)
Definition members (field : string) (r : Row) : list Value :=
  match dict_get field (row_fields r) with
  | Some (VList xs) => xs
  | _ => []
  end.

Definition is_member (field : string) (v : Value) (r : Row) : bool :=
  existsb (value_eqb v) (members field r).

Definition add_member (field : string) (v : Value) (r : Row) : Row :=
  if is_member field v r then r
  else set_field field (VList (members field r ++ [v])%list) r.

Definition add_where (r : Row) (field : string) (v : Value) (x : Row) : Row :=
  if same_row x r then add_member field v x else x.

(** [r.field.add(v)]: the relation is keyed by the primary key of [r]
    and written at once. *)
Definition m2m_add (r : Row) (field : string) (v : Value) : M unit :=
  fun st =>
    (Ok tt,
     mkState (with_rows (db st) (List.map (add_where r field v) (db_rows (db st))))
             (heap st)).

(** A [for] loop whose body changes the state. *)
Fixpoint for_in {A} (xs : list A) (body : A -> M unit) : M unit :=
  match xs with
  | [] => mret tt
  | x :: rest => (_ <~ body x ;; for_in rest body)%py
  end.

Module Signals.

Definition Design : ModelClass := mkModel "nautobot_design_builder" "design".
Definition DesignInstance : ModelClass := mkModel "nautobot_design_builder" "designinstance".

(** A Python class: its name and the names along its method resolution
    order, itself first. *)
Record PyClass := mkClass { class_name : string; class_mro : list string }.

Definition DesignJob : string := "DesignJob".

Definition issubclass (c : PyClass) (base : string) : bool :=
  existsb (String.eqb base) (class_mro c).

(** A [Job] row with what its [job_class] property returns. *)
Record Job := mkJob { job_row : Row; job_class : option PyClass }.

Definition COLOR_GREEN : string := "4caf50".
Definition COLOR_GREY : string := "9e9e9e".
Definition COLOR_ORANGE : string := "ff9800".
Definition COLOR_RED : string := "f44336".

Definition color_mapping : list (string * string) :=
  [ ("Active", COLOR_GREEN);
    ("Decommissioned", COLOR_GREY);
    ("Disabled", COLOR_GREY);
    ("Deployed", COLOR_GREEN);
    ("Pending", COLOR_ORANGE);
    ("Rolled back", COLOR_RED) ].

(** [color_mapping[status_name]] *)
Definition color_of (status_name : string) : Result string :=
  match List.find (fun kc => String.eqb status_name (fst kc)) color_mapping with
  | Some kc => Ok (snd kc)
  | None => Raise (KeyError status_name)
  end.

(** The body of the loop of [create_design_instance_statuses]. *)
Definition create_status (content_type : Value) (status_name : string) : M unit :=
  (color <~ reads (fun _ => color_of status_name) ;;
   created <~ get_or_create Status [("name", VStr status_name)] [("color", VStr color)] ;;
   m2m_add (fst created) "content_types" content_type)%py.

Section Choices.

(** The choice sets of the [choices] module, which is not part of these
    sources: iterating one yields its (value, label) pairs. *)
Variable DesignInstanceStatusChoices : list (string * string).
Variable DesignInstanceLiveStateChoices : list (string * string).

Definition status_names : list string :=
  List.map snd (DesignInstanceStatusChoices ++ DesignInstanceLiveStateChoices)%list.

Definition create_design_instance_statuses : M unit :=
  let content_type := VContentType DesignInstance in
  for_in status_names (create_status content_type).

End Choices.

Definition create_design_model (instance_ : Job) : M unit :=
  match job_class instance_ with
  | Some c =>
      if issubclass c DesignJob then
        (_ <~ get_or_create Design [("job", row_ref (job_row instance_))] [] ;;
         mret tt)%py
      else mret tt
  | None => mret tt
  end.

(** The condition of [create_design_model]. *)
Definition is_design_job (j : Job) : bool :=
  match job_class j with
  | Some c => issubclass c DesignJob
  | None => false
  end.

(** The [Design] rows linked to a job. *)
Definition designs_of (st : State) (j : Job) : list Row :=
  List.filter (matches [("job", row_ref (job_row j))]) (qs_rows (objects (db st) Design)).

(** The [Status] rows with a name. *)
Definition rows_named (rows : list Row) (name : string) : list Row :=
  List.filter (matches [("name", VStr name)])
              (List.filter (fun r => model_eqb (row_model r) Status) rows).

Definition statuses_named (st : State) (name : string) : list Row :=
  rows_named (db_rows (db st)) name.

(** The row that [get_or_create] builds for a missing status. *)
Definition new_status (pk : Z) (name color : string) : Row :=
  mkRow Status pk ([("name", VStr name)] ++ [("color", VStr color)])%list.

(** What [get_for_model(DesignInstance)] returns. *)
Definition design_instance_type : Value := VContentType DesignInstance.

Definition has_content_type (r : Row) : bool :=
  is_member "content_types" design_instance_type r.

Definition has_color (c : string) (r : Row) : Prop :=
  row_get r "color" = Some (VStr c).

(** The status [name] exists and is available to design instances. *)
Definition provided (rows : list Row) (name : string) : Prop :=
  exists r, In r (rows_named rows name) /\ has_content_type r = true.

(** Every status [name] has the colour [c]. *)
Definition coloured (rows : list Row) (name c : string) : Prop :=
  forall r, In r (rows_named rows name) -> has_color c r.

(** What a run of the loop body may do to the [Status] table. *)
Definition evolves (rows rows' : list Row) : Prop :=
  (forall name, provided rows name -> provided rows' name) /\
  (forall name c, color_of name = Ok c -> coloured rows name c -> coloured rows' name c) /\
  (forall name,
      (List.length (rows_named rows name) <= 1)%nat ->
      (List.length (rows_named rows' name) <= 1)%nat) /\
  (forall name, rows_named rows name <> [] -> rows_named rows' name <> []).

End Signals.

(** What the status is before [attribute] tests it for [None]. *)
Definition status_is_missing (st : State) (d : Dict) : Prop :=
  ((dict_get "status" d = None \/ dict_get "status" d = Some VNone) /\
   existsb (String.prefix "status__") (dict_keys d) = false) \/
  (exists l', dict_get "status" d = Some (VModelInstance l') /\
              instance_value (heap st) l' = VNone).

(** ** Measures used in the statements *)

(** The errors with which Django refuses a keyword argument. *)
Definition is_query_error (e : Exception) : bool :=
  match e with
  | FieldError _ | ValueError _ | TypeError _ | ValidationError _ => true
  | _ => false
  end.

(** How often a character occurs in a string. *)
Fixpoint count_char (c : ascii) (s : string) : nat :=
  match s with
  | EmptyString => 0%nat
  | String x s' => ((if Ascii.eqb x c then 1 else 0) + count_char c s')%nat
  end.

(** The query that [LookupExtension.attribute] builds from its
    arguments, when it builds one. *)
Definition lookup_query (args : list string) (value : Value) : option Dict :=
  match value, args with
  | VDict d, _ :: _ => Some d
  | VStr s, _ :: name :: _ => Some [(name, VStr s)]
  | _, _ => None
  end.

(** The prefixes that [!next_prefix] was given, as the loop sees them. *)
Definition given_prefixes (prefixes : Value) : list Value :=
  match prefixes with
  | VStr s => [VStr s]
  | VList xs => xs
  | _ => []
  end.

(** The filter that [!next_prefix] builds for one parsed prefix. *)
Definition network_kwargs (net : IPNetwork) : Dict :=
  [ ("prefix_length", VInt (prefixlen net));
    ("network", VStr (network net));
    ("broadcast", VStr (broadcast net)) ].

(** A statement that never ends in [DesignImplementationError]. *)
Definition no_design_error {A} (m : M A) : Prop :=
  forall st, is_design_error (fst (m st)) = false.

(** The hooks connected to the model instance at [l]. *)
Definition hooks_at (st : State) (l : nat) : list (Signal * Handler) :=
  match heap st !! l with
  | Some mi => signals mi
  | None => []
  end.

(** A value of [!bgp_peering] that passes its check. *)
Definition has_both_endpoints (value : Value) : bool :=
  match value with
  | VDict d => dict_has "endpoint_a" d && dict_has "endpoint_z" d
  | _ => false
  end.

(** A peer endpoint under construction that refers to the peering
    model instance at [l]. *)
Definition endpoint_of (l : nat) (mi : ModelInstance) : Prop :=
  model_class mi = BGPPeeringExtension.PeerEndpoint /\
  dict_get "peering" (attributes mi) = Some (VModelInstance l).

(** The statuses called [name] exist and all have the colour [c]. *)
Definition keeps_colour (rows : list Row) (name c : string) : Prop :=
  Signals.rows_named rows name <> [] /\
  forall r, In r (Signals.rows_named rows name) -> Signals.has_color c r.

(** Some stored row has the key of [r]. *)
Definition stored (rows : list Row) (r : Row) : bool :=
  existsb (fun x => same_row x r) rows.

(** * Sample data *)

Definition Interface : ModelClass := mkModel "dcim" "interface".

(** A schema whose models answer the given paths by the value that a
    row holds, refuse every other name, and declare no [Meta.ordering]
    and no keys of their own that react to a deletion. *)
Definition schema_with (paths : list (ModelClass * string)) : Schema :=
  mkSchema (fun m key v =>
              if existsb (fun mp => model_eqb (fst mp) m && String.eqb (snd mp) key) paths
              then Test (fun r => matches_kwarg r (key, v))
              else Refused NoSuchLookup)
           (fun _ _ _ => true) [] [].

Definition planned : Row := mkRow Status 1 [("name", VStr "Planned")].

Definition local_interface : Row :=
  mkRow Interface 10 [("name", VStr "GigabitEthernet1"); ("device__name", VStr "device2")].

Definition remote_interface : Row :=
  mkRow Interface 11 [("name", VStr "GigabitEthernet1"); ("device__name", VStr "device1")].

Definition sample_db : Database :=
  mkDatabase [planned; local_interface; remote_interface]
             [mkContentType "dcim" "interface" (Some Interface)]
             [] (fun _ => [])
             (schema_with [(Interface, "name"); (Interface, "device__name")]).

(** A builder whose new model instances wrap a fresh, unsaved row. *)
Definition sample_builder : Builder :=
  mkBuilder (fun d m attrs => Some (Some (mkRow m (fresh_pk (db_rows d)) attrs))).

Definition sample_state : State :=
  mkState sample_db
          [mkModelInstance Interface (Some local_interface) (row_fields local_interface) [] [] []].

(** The value of the [!connect_cable] tag in the docstring, with the
    device given by name. *)
Definition sample_cable_value : Dict :=
  [ ("status__name", VStr "Planned");
    ("device__name", VStr "device1");
    ("name", VStr "GigabitEthernet1") ].

(** A stored peering between two endpoints, wrapped by a model instance
    that has the hook connected. *)
Definition endpoint_1 : Row :=
  mkRow BGPPeeringExtension.PeerEndpoint 1 [("peering", VObj BGPPeeringExtension.Peering 5)].

Definition endpoint_2 : Row :=
  mkRow BGPPeeringExtension.PeerEndpoint 2 [("peering", VObj BGPPeeringExtension.Peering 5)].

Definition peering_5 : Row :=
  mkRow BGPPeeringExtension.Peering 5
        [ ("endpoint_a", VObj BGPPeeringExtension.PeerEndpoint 1);
          ("endpoint_z", VObj BGPPeeringExtension.PeerEndpoint 2) ].

Definition peering_state : State :=
  mkState (mkDatabase [endpoint_1; endpoint_2; peering_5] [] [] (fun _ => [])
                      (schema_with []))
          [mkModelInstance BGPPeeringExtension.Peering (Some peering_5) [] [] []
                           [(POST_SAVE, BGPPeeringExtension_post_save)]].

(** The value of a [!bgp_peering] tag with two endpoints to create. *)
Definition sample_peering_value : Value :=
  VDict [ ("endpoint_a", VDict [("source_ip", VStr "10.0.0.1")]);
          ("endpoint_z", VDict [("source_ip", VStr "10.0.0.2")]);
          ("status__name", VStr "Active") ].

(** The peering of the sample from the tag to the signal: the model
    instance before the tag is handled, with nothing stored; the state
    that [attribute] leaves; and that state once the builder has stored
    the endpoints and the peering. *)
Definition peering_unsaved : State :=
  mkState (mkDatabase [] [] [] (fun _ => []) (schema_with []))
          [mkModelInstance BGPPeeringExtension.Peering (Some peering_5) [] [] [] []].

Definition peering_built : State :=
  snd (BGPPeeringExtension.attribute sample_builder sample_peering_value 0 peering_unsaved).

Definition peering_saved : State :=
  snd (save peering_5 (snd (save endpoint_2 (snd (save endpoint_1 peering_built))))).

(** A job backed by a [DesignJob] subclass, one backed by a plain job
    class, and one whose class cannot be loaded. *)
Definition JobModel : ModelClass := mkModel "extras" "job".

Definition design_job : Signals.Job :=
  Signals.mkJob (mkRow JobModel 7 [("name", VStr "Core Site Design")])
                (Some (Signals.mkClass "CoreSiteDesign"
                                       ["CoreSiteDesign"; "DesignJob"; "Job"; "object"])).

Definition plain_job : Signals.Job :=
  Signals.mkJob (mkRow JobModel 8 [("name", VStr "Backup")])
                (Some (Signals.mkClass "Backup" ["Backup"; "Job"; "object"])).

Definition jobs_state : State :=
  mkState (mkDatabase [Signals.job_row design_job; Signals.job_row plain_job] [] []
                      (fun _ => []) (schema_with []))
          [].

(** The choice sets as the colour mapping expects them, and a database
    that already has one of the statuses. *)
Definition status_choices : list (string * string) :=
  [("Active", "Active"); ("Disabled", "Disabled"); ("Decommissioned", "Decommissioned")].

Definition live_state_choices : list (string * string) :=
  [("Deployed", "Deployed"); ("Pending", "Pending"); ("Rolled back", "Rolled back")].

Definition statuses_state : State :=
  mkState (mkDatabase [mkRow Status 1 [("name", VStr "Active"); ("color", VStr "ffffff")]]
                      [] [] (fun _ => []) (schema_with []))
          [].

(** Two parent prefixes: the first one is full down to /26 blocks, the
    second one has a free /24. *)
Definition parent_full : Row :=
  mkRow Prefix 20 [("status__name", VStr "Active"); ("prefix_length", VInt 23)].

Definition parent_free : Row :=
  mkRow Prefix 21 [("status__name", VStr "Active"); ("prefix_length", VInt 23)].

Definition prefixes_db : Database :=
  mkDatabase [parent_full; parent_free] [] []
             (fun pk =>
                if Z.eqb pk 20 then [mkNet "10.0.0.64" 26 "10.0.0.127"]
                else if Z.eqb pk 21 then
                       [mkNet "10.0.2.128" 25 "10.0.2.255"; mkNet "10.0.3.0" 24 "10.0.3.255"]
                     else [])
             (schema_with [(Prefix, "status__name")]).

(** Two stored prefixes with their networks, a parser that knows the
    first one, and that prefix written with a no-break space before it
    and a unit separator after it. *)
Definition network_0 : Row :=
  mkRow Prefix 30 [ ("status__name", VStr "Active"); ("prefix_length", VInt 23);
                    ("network", VStr "10.0.0.0"); ("broadcast", VStr "10.0.1.255") ].

Definition network_2 : Row :=
  mkRow Prefix 31 [ ("status__name", VStr "Active"); ("prefix_length", VInt 23);
                    ("network", VStr "10.0.2.0"); ("broadcast", VStr "10.0.3.255") ].

Definition networks_db : Database :=
  mkDatabase [network_2; network_0] [] [] (fun _ => [])
             (schema_with [(Prefix, "status__name")]).

Definition sample_parse (s : string) : option IPNetwork :=
  if String.eqb s "10.0.0.0/23" then Some (mkNet "10.0.0.0" 23 "10.0.1.255") else None.

Definition padded_prefix : string :=
  String (ascii_of_nat 194) (String (ascii_of_nat 160)
    ("10.0.0.0/23" ++ String (ascii_of_nat 31) EmptyString)).

(** A stored endpoint that belongs to the peering of the sample, and the
    builders that wrap it for [endpoint_a] or for [endpoint_z] and a
    fresh row for the other endpoint. *)
Definition wraps_first : Builder :=
  mkBuilder (fun d m attrs =>
               if dict_has "existing" attrs then Some (Some endpoint_1)
               else Some (Some (mkRow m 99 attrs))).

Definition asymmetric_value (first second : string) : Dict :=
  [ (first, VDict [("existing", VBool true)]);
    (second, VDict [("source_ip", VStr "10.0.0.2")]) ].

(** * Properties of the extensions *)

Lemma value_eqb_str (w : Value) (s : string) :
  value_eqb w (VStr s) = true <-> w = VStr s.
Proof.
  destruct w; simpl; try (split; [discriminate | discriminate]).
  rewrite String.eqb_eq. split; congruence.
Qed.

Lemma dict_get_set_eq (k : string) (v : Value) (d : Dict) :
  dict_get k (dict_set k v d) = Some v.
Proof.
  unfold dict_get.
  induction d as [|[k' v'] d IH]; cbn [dict_set List.find fst snd].
  - now rewrite String.eqb_refl.
  - destruct (String.eqb k k') eqn:E; cbn [List.find fst snd].
    + now rewrite String.eqb_refl.
    + rewrite E. exact IH.
Qed.

Lemma dict_get_set_ne (k k' : string) (v : Value) (d : Dict) :
  k <> k' -> dict_get k' (dict_set k v d) = dict_get k' d.
Proof.
  intros Hne. unfold dict_get.
  induction d as [|[k0 v0] d IH]; cbn [dict_set List.find fst snd].
  - destruct (String.eqb k' k) eqn:E; [|reflexivity].
    apply String.eqb_eq in E. congruence.
  - destruct (String.eqb k k0) eqn:E; cbn [List.find fst snd].
    + apply String.eqb_eq in E. subst k0.
      destruct (String.eqb k' k) eqn:E'; [|reflexivity].
      apply String.eqb_eq in E'. congruence.
    + destruct (String.eqb k' k0); [reflexivity | exact IH].
Qed.

Lemma model_eqb_refl (m : ModelClass) : model_eqb m m = true.
Proof. unfold model_eqb. now rewrite !String.eqb_refl. Qed.

Lemma model_eqb_eq (a b : ModelClass) : model_eqb a b = true <-> a = b.
Proof.
  unfold model_eqb. rewrite andb_true_iff, !String.eqb_eq.
  destruct a, b; simpl. split; [intros [-> ->]; reflexivity | intros [= -> ->]; auto].
Qed.

(** C1: each of the tags [lookup], [connect_cable], [next_prefix],
    [child_prefix] and [bgp_peering] is the [attribute_tag] of exactly
    one extension class of the contrib module, and dispatch on the tag
    finds that class. *)
Theorem contrib_tags_dispatch :
  Forall (fun te : string * ExtensionClass =>
            extensions_for (fst te) = [snd te] /\ dispatch (fst te) = Some (snd te))
         [ ("lookup", LookupExtension);
           ("connect_cable", CableConnectionExtension);
           ("next_prefix", NextPrefixExtension);
           ("child_prefix", ChildPrefixExtension);
           ("bgp_peering", BGPPeeringExtension) ].
Proof. repeat constructor. Qed.

Section LookupProperties.

Import LookupMixin.

Lemma for_each_error {A B} (f : A -> Result B) (good : Exception -> Prop) (xs : list A)
  (e : Exception) :
  (forall x e, f x = Raise e -> good e) ->
  for_each f xs = Raise e -> good e.
Proof.
  intros Hf. induction xs as [|x xs IH]; cbn [for_each]; [discriminate|].
  destruct (f x) as [y|e'] eqn:Hx; cbn [bind].
  - destruct (for_each f xs) as [ys|e'']; cbn [bind]; [discriminate|].
    intros [= ->]. now apply IH.
  - intros [= ->]. eapply Hf; eauto.
Qed.

Lemma qs_conditions_error (qs : QuerySet) (kwargs : Dict) (e : Exception) :
  qs_conditions qs kwargs = Raise e -> is_query_error e = true.
Proof.
  apply (for_each_error _ (fun e => is_query_error e = true)).
  intros kv e'. unfold build_filter.
  destruct (qs_condition qs (fst kv) (snd kv)) as [holds|why]; [discriminate|].
  intros [= <-]. destruct why; reflexivity.
Qed.

Lemma selected_error (qs : QuerySet) (kwargs : Dict) (e : Exception) :
  selected qs kwargs = Raise e -> is_query_error e = true.
Proof.
  unfold selected.
  destruct (qs_conditions qs kwargs) as [tests|e'] eqn:H; cbn [bind]; [discriminate|].
  intros [= <-]. eapply qs_conditions_error; eauto.
Qed.

Lemma lookup_by_get (st : State) (queryset : QuerySet) (query : Dict) :
  lookup st queryset query =
  match selected queryset (resolve_instances (heap st) query) with
  | Ok [] =>
      Raise (DesignImplementationError
               (NoMatching (qs_model queryset) (resolve_instances (heap st) query)))
  | Ok [r] => Ok r
  | Ok (_ :: _ :: _) =>
      Raise (DesignImplementationError
               (MultipleMatch (qs_model queryset) (resolve_instances (heap st) query)))
  | Raise e => Raise e
  end.
Proof.
  unfold lookup, qs_get.
  destruct (selected _ _) as [[|r [|r' rest]]|e] eqn:H; cbn [bind]; try reflexivity.
  apply selected_error in H. destruct e; try discriminate; reflexivity.
Qed.

(** C3, as the code has it: where Django accepts the keyword arguments
    of the query, [lookup] returns a row exactly when it is the only row
    of the queryset that the query selects, and raises
    [DesignImplementationError] when the query selects no row and when
    it selects several; where Django refuses a keyword argument,
    [lookup] ends in the error of Django, which is no
    [DesignImplementationError].  [LookupExtension.attribute] raises
    [DesignImplementationError] without an attribute argument, for a
    string without a query attribute name, and for a value that is
    neither a string nor a dictionary. *)
Theorem lookup_exactly_one :
  (forall st queryset query found,
      selected queryset (resolve_instances (heap st) query) = Ok found ->
      (forall r, lookup st queryset query = Ok r <-> found = [r]) /\
      (found = [] ->
       lookup st queryset query =
       Raise (DesignImplementationError
                (NoMatching (qs_model queryset) (resolve_instances (heap st) query)))) /\
      ((2 <= List.length found)%nat ->
       lookup st queryset query =
       Raise (DesignImplementationError
                (MultipleMatch (qs_model queryset) (resolve_instances (heap st) query))))) /\
  (forall st queryset query e,
      selected queryset (resolve_instances (heap st) query) = Raise e ->
      lookup st queryset query = Raise e /\
      is_query_error e = true /\
      is_design_error (lookup st queryset query) = false) /\
  (forall st value model_instance,
      is_design_error (LookupExtension.attribute st [] value model_instance) = true) /\
  (forall st attribute s model_instance,
      LookupExtension.attribute st [attribute] (VStr s) model_instance =
      Raise (DesignImplementationError (Text "No query attribute was given"))) /\
  (forall st args value model_instance,
      is_str_or_dict value = false ->
      is_design_error (LookupExtension.attribute st args value model_instance) = true).
Proof.
  split; [|split; [|split; [|split]]].
  - intros st queryset query found Hfound. rewrite lookup_by_get, Hfound.
    destruct found as [|r [|r' rest]]; simpl.
    + repeat split; intros; auto; try discriminate; try lia.
    + repeat split; intros; try congruence; try discriminate; try lia.
    + repeat split; intros; auto; try discriminate.
  - intros st queryset query e Hrefused. rewrite lookup_by_get, Hrefused.
    pose proof (selected_error _ _ _ Hrefused) as He.
    repeat split; [exact He|]. destruct e; try discriminate; reflexivity.
  - reflexivity.
  - reflexivity.
  - intros st [|attribute rest] value mi Hv; [reflexivity|].
    destruct value; simpl in Hv; try discriminate; reflexivity.
Qed.

(** C10: when no content type has the given natural key, the handler
    of [lookup_by_content_type] reads [model_class] before it was
    assigned; the call ends in [UnboundLocalError] and in no
    [DesignImplementationError]. *)
Theorem lookup_by_content_type_unbound (st : State) (app model : string) (query : Dict) :
  get_by_natural_key (db st) app model = Raise ContentTypeDoesNotExist ->
  local_model_class (snd (try_block (db st) app model)) = None /\
  lookup_by_content_type st app model query = Raise (UnboundLocalError "model_class") /\
  is_design_error (lookup_by_content_type st app model query) = false.
Proof.
  intros Hct. unfold lookup_by_content_type, try_block. rewrite Hct. simpl.
  repeat split.
Qed.

Lemma lookup_exactly_one_witness :
  lookup sample_state (objects sample_db Interface) [("device__name", VStr "device1")] =
    Ok remote_interface /\
  is_design_error
    (lookup sample_state (objects sample_db Interface) [("name", VStr "Ethernet9")]) = true /\
  is_design_error
    (lookup sample_state (objects sample_db Interface) [("name", VStr "GigabitEthernet1")]) = true /\
  lookup sample_state (objects sample_db Interface) [("colour", VStr "red")] =
    Raise (FieldError "colour") /\
  is_design_error
    (LookupExtension.attribute sample_state ["device"] (VInt 3)
       (mkModelInstance Interface None [] [] [] [])) = true.
Proof.
  destruct lookup_exactly_one as (Hlookup & Hrefused & _ & _ & Hvalue).
  split; [|split; [|split; [|split]]].
  - apply (proj1 (Hlookup sample_state (objects sample_db Interface)
                    [("device__name", VStr "device1")] [remote_interface] eq_refl)).
    reflexivity.
  - rewrite (proj1 (proj2 (Hlookup sample_state (objects sample_db Interface)
                             [("name", VStr "Ethernet9")] [] eq_refl)) eq_refl).
    reflexivity.
  - rewrite (proj2 (proj2 (Hlookup sample_state (objects sample_db Interface)
                             [("name", VStr "GigabitEthernet1")]
                             [local_interface; remote_interface] eq_refl))
               ltac:(simpl; lia)).
    reflexivity.
  - apply (Hrefused sample_state (objects sample_db Interface) [("colour", VStr "red")]).
    reflexivity.
  - apply Hvalue. reflexivity.
Defined.

(** C3 as stated fails: no interface matches a query on [colour], which
    is no field of the model, yet [lookup] ends in the [FieldError] of
    Django and in no [DesignImplementationError]. *)
Lemma lookup_refused_keyword :
  ~ (List.filter (matches [("colour", VStr "red")]) (qs_rows (objects sample_db Interface)) = [] ->
     is_design_error
       (lookup sample_state (objects sample_db Interface) [("colour", VStr "red")]) = true).
Proof.
  intros H. specialize (H eq_refl). vm_compute in H. discriminate H.
Qed.

Lemma lookup_by_content_type_unbound_witness :
  lookup_by_content_type sample_state "dcim" "frontport" [("name", VStr "eth0")] =
  Raise (UnboundLocalError "model_class").
Proof.
  apply (lookup_by_content_type_unbound sample_state "dcim" "frontport"
           [("name", VStr "eth0")]).
  reflexivity.
Defined.

End LookupProperties.

Section CableProperties.

Import CableConnectionExtension.

Lemma lookup_not_no_status (st : State) (queryset : QuerySet) (query : Dict) :
  LookupMixin.lookup st queryset query <> Raise no_status.
Proof.
  rewrite lookup_by_get.
  destruct (selected _ _) as [[|r [|r' rest]]|e] eqn:H; try discriminate.
  apply selected_error in H. intros [= ->]. discriminate H.
Qed.

Lemma defer_cable_not_no_status (self : Builder) (status : Value) (query : Dict)
  (l : nat) (st : State) :
  fst (defer_cable self status query l st) <> Raise no_status.
Proof.
  unfold defer_cable, mbind, get_instance, reads, update_instance, ModelInstance_init, mret.
  destruct (heap st !! l) as [mi|] eqn:Hl; simpl; [|discriminate].
  pose proof (lookup_not_no_status st (objects (db st) (model_class mi)) query) as Hlk.
  destruct (LookupMixin.lookup st _ query) as [remote|e]; simpl; [|congruence].
  destruct (load_instance self _ _ _); simpl; [|discriminate].
  repeat case_match; simplify_eq/=; discriminate.
Qed.

(** C4: with a status that resolves and a query that matches one remote
    termination, [attribute] returns [None], leaves the database as it
    is, appends "cable" to the deferred names of the endpoint and stores
    under [deferred_attributes["cable"]] a list with one new model
    instance of the [Cable] class whose [termination_a] is the endpoint
    model instance itself. *)
Theorem connect_cable_defers (self : Builder) (st : State) (value : Dict) (l : nat)
  (mi : ModelInstance) (status : Value) (query : Dict) (remote : Row)
  (cable_row : option Row) :
  resolve_status st value = Ok (status, query) ->
  is_None status = false ->
  heap st !! l = Some mi ->
  LookupMixin.lookup st (objects (db st) (model_class mi)) query = Ok remote ->
  load_instance self (db st) Cable (cable_attributes status l remote) = Some cable_row ->
  let new := List.length (heap st) in
  let cable :=
    mkModelInstance Cable cable_row (cable_attributes status l remote) [] [] [] in
  let endpoint_ :=
    set_deferred_attributes
      (dict_set "cable" (VList [VModelInstance new]) (deferred_attributes mi))
      (set_deferred (deferred mi ++ ["cable"])%list mi) in
  attribute self (VDict value) l st =
    (Ok VNone, mkState (db st) (<[l := endpoint_]> (heap st) ++ [cable])%list) /\
  model_class cable = Cable /\
  dict_get "termination_a" (attributes cable) = Some (VModelInstance l) /\
  deferred endpoint_ = (deferred mi ++ ["cable"])%list /\
  dict_get "cable" (deferred_attributes endpoint_) = Some (VList [VModelInstance new]).
Proof.
  intros Hstatus Hsome Hl Hlookup Hload new cable endpoint_.
  assert (Hlt : (l < List.length (heap st))%nat) by (eapply lookup_lt_Some; eauto).
  repeat split.
  - unfold attribute, mbind, reads. rewrite Hstatus, Hsome.
    unfold defer_cable, mbind, get_instance, reads, update_instance, ModelInstance_init, mret.
    rewrite Hl. simpl. rewrite Hlookup. simpl. rewrite Hload. simpl.
    rewrite lookup_app_l by (rewrite length_insert; exact Hlt).
    rewrite list_lookup_insert_eq by exact Hlt. simpl.
    rewrite insert_app_l by (rewrite length_insert; exact Hlt).
    rewrite list_insert_insert_eq, length_insert. reflexivity.
  - apply dict_get_set_eq.
Qed.

Lemma connect_cable_defers_witness :
  attribute sample_builder (VDict sample_cable_value) 0 sample_state =
  (Ok VNone,
   mkState sample_db
     [ mkModelInstance Interface (Some local_interface) (row_fields local_interface)
         ["cable"] [("cable", VList [VModelInstance 1])] [];
       mkModelInstance Cable
         (Some (mkRow Cable 12 (cable_attributes (row_ref planned) 0 remote_interface)))
         (cable_attributes (row_ref planned) 0 remote_interface) [] [] [] ]).
Proof.
  edestruct (connect_cable_defers sample_builder sample_state sample_cable_value 0%nat)
    as [Hrun _].
  - vm_compute. reflexivity.
  - reflexivity.
  - reflexivity.
  - vm_compute. reflexivity.
  - vm_compute. reflexivity.
  - rewrite Hrun. reflexivity.
Defined.

Lemma qs_get_not_no_status (queryset : QuerySet) (query : Dict) :
  qs_get queryset query <> Raise no_status.
Proof.
  unfold qs_get.
  destruct (selected _ _) as [[|r [|r' rest]]|e] eqn:H; cbn [bind]; try discriminate.
  apply selected_error in H. intros [= ->]. discriminate H.
Qed.

Lemma find_none_existsb {A} (p : A -> bool) (xs : list A) :
  List.find p xs = None <-> existsb p xs = false.
Proof.
  induction xs as [|x xs IH]; simpl; [tauto|].
  destruct (p x); simpl; [split; discriminate | exact IH].
Qed.

Lemma status_keys_without_status (d : Dict) :
  existsb (String.prefix "status__") (dict_keys (dict_del "status" d)) =
  existsb (String.prefix "status__") (dict_keys d).
Proof.
  unfold dict_keys, dict_del.
  induction d as [|[k v] d IH]; cbn [List.filter List.map existsb fst]; [reflexivity|].
  destruct (String.eqb "status" k) eqn:E; cbn [negb List.map existsb fst].
  - apply String.eqb_eq in E. subst k. rewrite IH. reflexivity.
  - rewrite IH. reflexivity.
Qed.

Lemma resolve_status_none (st : State) (d : Dict) :
  match resolve_status st d with
  | Ok (status, _) => is_None status = true <-> status_is_missing st d
  | Raise e => e <> no_status /\ ~ status_is_missing st d
  end.
Proof.
  unfold resolve_status, dict_pop_default, status_is_missing.
  destruct (dict_get "status" d) as [status|] eqn:Hget.
  - destruct status; cbn [is_None];
      try (split; [discriminate | intros [[[H|H] _]|(l' & H & _)]; discriminate]).
    + (* None *)
      destruct (List.find _ _) as [key|] eqn:Hfind.
      * assert (Hex : existsb (String.prefix "status__") (dict_keys d) = true).
        { rewrite <- status_keys_without_status.
          destruct (existsb _ _) eqn:E; [reflexivity|].
          apply find_none_existsb in E. congruence. }
        destruct (dict_get key _); cbn [bind];
          (destruct (qs_get _ _) as [found|e] eqn:Hq; cbn [bind is_None row_ref];
           [ split; [discriminate | intros [[_ H]|(l' & H & _)]; congruence]
           | split; [intros ->; eapply qs_get_not_no_status; eauto
                    | intros [[_ H]|(l' & H & _)]; congruence] ]).
      * apply find_none_existsb in Hfind. rewrite status_keys_without_status in Hfind.
        split; [intros _; left; auto | reflexivity].
    + (* a dictionary *)
      destruct (qs_get _ _) as [found|e] eqn:Hq; cbn [bind is_None row_ref].
      * split; [discriminate | intros [[[H|H] _]|(l' & H & _)]; discriminate].
      * split; [intros ->; eapply qs_get_not_no_status; eauto
               | intros [[[H|H] _]|(l' & H & _)]; discriminate].
    + (* a model instance *)
      split.
      * intros H. right. exists l. split; [reflexivity|].
        destruct (instance_value (heap st) l); simpl in H; congruence.
      * intros [[[H|H] _]|(l' & H & Hi)]; try discriminate.
        injection H as <-. rewrite Hi. reflexivity.
  - destruct (List.find _ _) as [key|] eqn:Hfind.
    + assert (Hex : existsb (String.prefix "status__") (dict_keys d) = true).
      { destruct (existsb _ _) eqn:E; [reflexivity|].
        apply find_none_existsb in E. congruence. }
      destruct (dict_get key _); cbn [bind];
        (destruct (qs_get _ _) as [found|e] eqn:Hq; cbn [bind is_None row_ref];
         [ split; [discriminate | intros [[_ H]|(l' & H & _)]; congruence]
         | split; [intros ->; eapply qs_get_not_no_status; eauto
                  | intros [[_ H]|(l' & H & _)]; congruence] ]).
    + apply find_none_existsb in Hfind.
      split; [intros _; left; auto | reflexivity].
Qed.

(** C5, as the code has it: [attribute] raises "No status given for
    cable connection" exactly when the status it tests is [None]: the
    value has no [status] entry or maps it to [None] and has no key that
    begins with [status__], or [status] is a model instance that wraps
    no row. *)
Theorem no_status_iff_missing (self : Builder) (st : State) (d : Dict) (l : nat) :
  fst (attribute self (VDict d) l st) = Raise no_status <-> status_is_missing st d.
Proof.
  pose proof (resolve_status_none st d) as Hres.
  unfold attribute, mbind, reads, mraise.
  destruct (resolve_status st d) as [[status query]|e].
  - destruct (is_None status) eqn:Hnone; cbn [fst].
    + split; [intros _; apply Hres; reflexivity | reflexivity].
    + split.
      * intros H. exfalso. eapply defer_cable_not_no_status; eauto.
      * intros H. apply Hres in H. discriminate.
  - cbn [fst]. destruct Hres as [Hne Hmiss]. split; [congruence | tauto].
Qed.

Lemma no_status_iff_missing_witness :
  fst (attribute sample_builder (VDict [("status", VNone); ("name", VStr "GigabitEthernet1")])
         0 sample_state) = Raise no_status.
Proof.
  apply no_status_iff_missing. left. split; [right|]; reflexivity.
Defined.

(** C5 as stated fails: a value whose [status] entry is [None] raises
    the error although it has a [status] key. *)
Lemma no_status_with_status_key :
  ~ (fst (attribute sample_builder
            (VDict [("status", VNone); ("name", VStr "GigabitEthernet1")]) 0 sample_state)
     = Raise no_status <->
     dict_has "status" [("status", VNone); ("name", VStr "GigabitEthernet1")] = false /\
     existsb (String.prefix "status__")
             (dict_keys [("status", VNone); ("name", VStr "GigabitEthernet1")]) = false).
Proof.
  intros [Hraise _].
  destruct (Hraise eq_refl) as [Hkey _]. discriminate Hkey.
Qed.

End CableProperties.

Section NextPrefixProperties.

Import NextPrefixExtension.

Variable parse_network : string -> option IPNetwork.
Variable parse_int : string -> option Z.

Lemma next_prefix_guards (d : Database) :
  (forall value,
      match value with VDict _ => True | _ => False end \/
      attribute parse_network parse_int d value = Raise not_a_dictionary) /\
  (forall value,
      dict_get "length" value = None ->
      attribute parse_network parse_int d (VDict value) = Raise no_length) /\
  (forall length,
      is_None length = false ->
      attribute parse_network parse_int d (VDict [("length", length)]) = Raise no_criteria).
Proof.
  repeat split.
  - intros value. destruct value; simpl; auto.
  - intros value Hget. unfold attribute, dict_pop_default. rewrite Hget. reflexivity.
  - intros length Hlen. unfold attribute, dict_pop_default, dict_get, dict_del.
    cbn [List.find fst snd List.filter]. rewrite String.eqb_refl. cbn [negb].
    cbn [snd]. rewrite Hlen. reflexivity.
Qed.

Lemma first_available_fits (d : Database) (length : Z) (prefixes : list Row) (a : IPNetwork) :
  first_available d length prefixes = Some a ->
  prefixlen a <= length /\
  exists before parent after,
    prefixes = (before ++ parent :: after)%list /\
    Forall (fun p => first_fit d length p = None) before /\
    first_fit d length parent = Some a.
Proof.
  induction prefixes as [|p rest IH]; simpl; [discriminate|].
  destruct (first_fit d length p) as [b|] eqn:Hfit.
  - intros [= ->]. split.
    + unfold first_fit in Hfit. apply List.find_some in Hfit. lia.
    + exists [], p, rest. repeat split; auto.
  - intros H. destruct (IH H) as [Hle (before & parent & after & -> & Hall & Hp)].
    split; [exact Hle|].
    exists (p :: before), parent, after. repeat split; auto.
Qed.

Lemma first_available_none (d : Database) (length : Z) (prefixes : list Row) :
  first_available d length prefixes = None <->
  Forall (fun p => Forall (fun a => length < prefixlen a) (db_available d (row_pk p))) prefixes.
Proof.
  induction prefixes as [|p rest IH]; simpl.
  - split; auto.
  - destruct (first_fit d length p) as [b|] eqn:Hfit.
    + split; [discriminate|]. intros Hall. exfalso.
      apply Forall_cons_iff in Hall. destruct Hall as [Hp _].
      unfold first_fit in Hfit. apply List.find_some in Hfit. destruct Hfit as [Hin Hle].
      rewrite List.Forall_forall in Hp. specialize (Hp b Hin). lia.
    + rewrite IH. split.
      * intros Hall. constructor; [|exact Hall].
        apply List.Forall_forall. intros a Hin.
        unfold first_fit in Hfit.
        pose proof (List.find_none _ _ Hfit a Hin) as Hno. simpl in Hno. lia.
      * intros Hall. apply Forall_cons_iff in Hall. tauto.
Qed.

(** What [_get_next] does once [length] is an integer: the first
    available block that is large enough, parents in queryset order, or
    the error when no parent has one. *)
Lemma get_next_first_available (d : Database) (prefixes : list Row) (length : Value) (n : Z) :
  int parse_int length = Ok n ->
  _get_next parse_int d prefixes length =
  match first_available d n prefixes with
  | Some a => Ok (network a ++ "/" ++ str_of_int n)
  | None => Raise (DesignImplementationError (NoAvailablePrefixes (List.map row_pk prefixes)))
  end.
Proof. intros Hint. unfold _get_next. rewrite Hint. reflexivity. Qed.

(** [attribute] on a dictionary that passes its checks: the result of
    [_get_next] on the parents that the query selects, once Django has
    accepted the query. *)
Lemma next_prefix_selects (d : Database) (value criteria : Dict) (length : Value) (query : Q) :
  dict_pop_default "length" value = (length, criteria) ->
  is_None length = false ->
  criteria <> [] ->
  build_query parse_network criteria = Ok query ->
  attribute parse_network parse_int d (VDict value) =
  (parents <- qs_filter (objects d Prefix) query ;;
   next <- _get_next parse_int d parents length ;;
   Ok ("prefix", next))%py.
Proof.
  intros Hpop Hlen Hcrit Hquery. unfold attribute. rewrite Hpop, Hlen.
  destruct criteria as [|kv rest]; [congruence|].
  rewrite Hquery. reflexivity.
Qed.

(** A [prefix] entry that is neither a string nor a list is refused. *)
Lemma build_query_bad_prefixes (criteria : Dict) (prefixes : Value) :
  dict_get "prefix" criteria = Some prefixes ->
  match prefixes with VStr _ | VList _ => False | _ => True end ->
  build_query parse_network criteria = Raise bad_prefixes.
Proof.
  intros Hget Hbad. unfold build_query. rewrite Hget.
  destruct prefixes; try contradiction; reflexivity.
Qed.

(** C6 fails on the code: an empty list of prefixes ends in the
    [TypeError] of [reduce], and a prefix string that netaddr rejects in
    [AddrFormatError]; neither is a [DesignImplementationError] nor a
    returned prefix. *)
Theorem next_prefix_unwrapped_errors (d : Database) :
  attribute parse_network parse_int d (VDict [("prefix", VList []); ("length", VInt 24)]) =
    Raise (TypeError "reduce() of empty sequence with no initial value") /\
  (forall s,
      parse_network (strip s) = None ->
      attribute parse_network parse_int d (VDict [("prefix", VStr s); ("length", VInt 24)]) =
        Raise (AddrFormatError (strip s))).
Proof.
  split; [reflexivity|].
  intros s Hparse. unfold attribute, build_query. simpl. rewrite Hparse. reflexivity.
Qed.

End NextPrefixProperties.

Lemma next_prefix_unwrapped_errors_witness :
  NextPrefixExtension.attribute (fun _ => None) (fun _ => None) sample_db
    (VDict [("prefix", VStr "10.0.0.0/33"); ("length", VInt 24)]) =
  Raise (AddrFormatError "10.0.0.0/33").
Proof.
  apply (next_prefix_unwrapped_errors (fun _ => None) (fun _ => None) sample_db).
  reflexivity.
Defined.

(** ** Running statements in sequence *)

Lemma mbind_ok {A B} (m : M A) (k : A -> M B) (st st' : State) (b : B) :
  mbind m k st = (Ok b, st') ->
  exists a st1, m st = (Ok a, st1) /\ k a st1 = (Ok b, st').
Proof.
  unfold mbind. destruct (m st) as [[a|e] st1]; [eauto | discriminate].
Qed.

Lemma update_instance_ok (l : nat) (f : ModelInstance -> ModelInstance) (st st' : State) :
  update_instance l f st = (Ok tt, st') ->
  exists mi, heap st !! l = Some mi /\ st' = mkState (db st) (<[l := f mi]> (heap st)).
Proof.
  unfold update_instance. destruct (heap st !! l) as [mi|] eqn:Hl; [|discriminate].
  intros [= <-]. eauto.
Qed.

Lemma same_row_iff (a b : Row) :
  same_row a b = true <-> row_model a = row_model b /\ row_pk a = row_pk b.
Proof.
  unfold same_row. rewrite andb_true_iff, model_eqb_eq, Z.eqb_eq. tauto.
Qed.

Lemma find_row_saved (d : Database) (rows : list Row) (r : Row) :
  find_row (with_rows d (save_rows r rows)) (row_model r) (row_pk r) = Some r.
Proof.
  unfold find_row, with_rows. cbn [db_rows].
  induction rows as [|x rows IH]; cbn [save_rows List.find].
  - rewrite model_eqb_refl, Z.eqb_refl. reflexivity.
  - destruct (same_row x r) eqn:E; cbn [List.find].
    + rewrite model_eqb_refl, Z.eqb_refl. reflexivity.
    + unfold same_row in E. rewrite E. exact IH.
Qed.

Lemma find_row_saved_other (d : Database) (rows : list Row) (r : Row)
  (m : ModelClass) (pk : Z) :
  model_eqb (row_model r) m && Z.eqb (row_pk r) pk = false ->
  find_row (with_rows d (save_rows r rows)) m pk = find_row (with_rows d rows) m pk.
Proof.
  intros Hne. unfold find_row, with_rows. cbn [db_rows].
  induction rows as [|x rows IH]; cbn [save_rows List.find].
  - rewrite Hne. reflexivity.
  - destruct (same_row x r) eqn:E; cbn [List.find].
    + rewrite Hne. apply same_row_iff in E. destruct E as [-> ->].
      rewrite Hne. reflexivity.
    + destruct (model_eqb (row_model x) m && Z.eqb (row_pk x) pk); [reflexivity | exact IH].
Qed.

Section PeeringProperties.

Import BGPPeeringExtension.

Lemma post_save_wires (st : State) (l : nat) (mi : ModelInstance) (peering a z : Row) :
  heap st !! l = Some mi ->
  instance mi = Some peering ->
  endpoint (db st) peering "endpoint_a" = Ok a ->
  endpoint (db st) peering "endpoint_z" = Ok z ->
  _post_save l st =
    (Ok tt,
     mkState (with_rows (db st)
                (save_rows (set_field "peer" (row_ref a) z)
                   (save_rows (set_field "peer" (row_ref z) a) (db_rows (db st)))))
             (heap st)).
Proof.
  intros Hl Hi Ha Hz.
  unfold _post_save, mbind, get_instance, reads, save. rewrite Hl, Hi, Ha, Hz.
  reflexivity.
Qed.

Lemma endpoint_found (d : Database) (peering : Row) (field : string) (r : Row) :
  endpoint d peering field = Ok r ->
  dict_get field (row_fields peering) = Some (row_ref r) /\
  find_row d (row_model r) (row_pk r) = Some r.
Proof.
  unfold endpoint, related.
  destruct (dict_get field (row_fields peering)) as [[]|]; try discriminate.
  destruct (find_row d m pk) as [x|] eqn:Hfind; [|discriminate].
  cbn [bind]. intros [= <-].
  pose proof Hfind as Hkey. unfold find_row in Hkey. apply List.find_some in Hkey.
  destruct Hkey as [_ Hkey]. apply andb_true_iff in Hkey. destruct Hkey as [Hm Hp].
  apply model_eqb_eq in Hm. apply Z.eqb_eq in Hp. subst m pk.
  split; [reflexivity | exact Hfind].
Qed.

Lemma endpoint_of_found (d : Database) (peering : Row) (field : string) (r x : Row) :
  dict_get field (row_fields peering) = Some (row_ref r) ->
  find_row d (row_model r) (row_pk r) = Some x ->
  endpoint d peering field = Ok x.
Proof. intros Hget Hfind. unfold endpoint, related. rewrite Hget. cbn. now rewrite Hfind. Qed.

Lemma dict_set_twice (k : string) (v : Value) (d : Dict) :
  dict_set k v (dict_set k v d) = dict_set k v d.
Proof.
  induction d as [|[k' v'] d IH]; cbn [dict_set].
  - now rewrite String.eqb_refl.
  - destruct (String.eqb k k') eqn:E; cbn [dict_set].
    + now rewrite String.eqb_refl.
    + rewrite E. now rewrite IH.
Qed.

Lemma set_field_twice (k : string) (v : Value) (r : Row) :
  set_field k v (set_field k v r) = set_field k v r.
Proof. unfold set_field. cbn [row_model row_pk row_fields]. now rewrite dict_set_twice. Qed.

(** Saving the row that is stored under its key changes nothing. *)
Lemma save_rows_found (d : Database) (rows : list Row) (r : Row) :
  find_row (with_rows d rows) (row_model r) (row_pk r) = Some r ->
  save_rows r rows = rows.
Proof.
  unfold find_row, with_rows. cbn [db_rows].
  induction rows as [|x rows IH]; cbn [List.find save_rows]; [discriminate|].
  fold (same_row x r). destruct (same_row x r).
  - now intros [= ->].
  - intros H. now rewrite IH.
Qed.

Lemma state_with_own_rows (st : State) :
  mkState (with_rows (db st) (db_rows (db st))) (heap st) = st.
Proof. destruct st as [[rows cts rel av schema] h]. reflexivity. Qed.

(** The hook changes nothing once the stored endpoints are each other's
    peer. *)
Lemma post_save_settled (st : State) (l : nat) (mi : ModelInstance) (peering a z : Row) :
  heap st !! l = Some mi ->
  instance mi = Some peering ->
  endpoint (db st) peering "endpoint_a" = Ok a ->
  endpoint (db st) peering "endpoint_z" = Ok z ->
  set_field "peer" (row_ref z) a = a ->
  set_field "peer" (row_ref a) z = z ->
  _post_save l st = (Ok tt, st).
Proof.
  intros Hl Hi Ha Hz Hsame_a Hsame_z.
  rewrite (post_save_wires st l mi peering a z Hl Hi Ha Hz), Hsame_a, Hsame_z.
  apply endpoint_found in Ha, Hz. destruct Ha as [_ Ha], Hz as [_ Hz].
  rewrite (save_rows_found (db st) (db_rows (db st)) a)
    by (destruct (db st); exact Ha).
  rewrite (save_rows_found (db st) (db_rows (db st)) z)
    by (destruct (db st); exact Hz).
  now rewrite state_with_own_rows.
Qed.

(** What the first run of the hook leaves is what every further run
    leaves. *)
Lemma post_save_twice (st : State) (l : nat) (mi : ModelInstance) (peering a z : Row) :
  heap st !! l = Some mi ->
  instance mi = Some peering ->
  endpoint (db st) peering "endpoint_a" = Ok a ->
  endpoint (db st) peering "endpoint_z" = Ok z ->
  let wired :=
    mkState (with_rows (db st)
               (save_rows (set_field "peer" (row_ref a) z)
                  (save_rows (set_field "peer" (row_ref z) a) (db_rows (db st)))))
            (heap st) in
  _post_save l wired = (Ok tt, wired).
Proof.
  intros Hl Hi Ha Hz wired.
  set (a' := set_field "peer" (row_ref z) a) in *.
  set (z' := set_field "peer" (row_ref a) z) in *.
  apply endpoint_found in Ha, Hz. destruct Ha as [Hget_a _], Hz as [Hget_z _].
  assert (Hfind_z : find_row (db wired) (row_model z) (row_pk z) = Some z')
    by apply (find_row_saved _ _ z').
  destruct (model_eqb (row_model z') (row_model a) && Z.eqb (row_pk z') (row_pk a)) eqn:E.
  - (* one row is both endpoints *)
    apply andb_true_iff in E. destruct E as [Em Ep].
    apply model_eqb_eq in Em. apply Z.eqb_eq in Ep.
    cbn [z' set_field row_model row_pk] in Em, Ep.
    assert (Href : row_ref z = row_ref a) by (unfold row_ref; congruence).
    assert (Hfind_a : find_row (db wired) (row_model a) (row_pk a) = Some z')
      by (rewrite <- Em, <- Ep; exact Hfind_z).
    apply (post_save_settled wired l mi peering z' z'); auto.
    + eapply endpoint_of_found; eauto.
    + eapply endpoint_of_found; eauto.
    + change (row_ref z') with (row_ref z). rewrite Href. apply set_field_twice.
    + change (row_ref z') with (row_ref z). rewrite Href. apply set_field_twice.
  - assert (Hfind_a : find_row (db wired) (row_model a) (row_pk a) = Some a').
    { unfold wired. cbn [db].
      rewrite (find_row_saved_other _ _ z' _ _ E). apply (find_row_saved _ _ a'). }
    apply (post_save_settled wired l mi peering a' z'); auto.
    + eapply endpoint_of_found; eauto.
    + eapply endpoint_of_found; eauto.
    + apply set_field_twice.
    + apply set_field_twice.
Qed.

(** Sending the signal to one or more connected hooks. *)
Lemma run_post_save_hooks (hs : list Handler) (st : State) (l : nat) (mi : ModelInstance)
  (peering a z : Row) :
  heap st !! l = Some mi ->
  instance mi = Some peering ->
  endpoint (db st) peering "endpoint_a" = Ok a ->
  endpoint (db st) peering "endpoint_z" = Ok z ->
  hs <> [] ->
  run_handlers hs l st =
    (Ok tt,
     mkState (with_rows (db st)
                (save_rows (set_field "peer" (row_ref a) z)
                   (save_rows (set_field "peer" (row_ref z) a) (db_rows (db st)))))
             (heap st)).
Proof.
  intros Hl Hi Ha Hz Hsome.
  destruct hs as [|[] hs]; [congruence|]. clear Hsome.
  cbn [run_handlers run_handler]. unfold mbind.
  rewrite (post_save_wires st l mi peering a z Hl Hi Ha Hz).
  pose proof (post_save_twice st l mi peering a z Hl Hi Ha Hz) as Hagain.
  cbv zeta in Hagain.
  induction hs as [|[] hs IH]; cbn [run_handlers run_handler]; [reflexivity|].
  unfold mbind. rewrite Hagain. exact IH.
Qed.

Lemma hooks_at_init (creator : Builder) (m : ModelClass) (attrs : Value) (st st' : State)
  (x l : nat) :
  ModelInstance_init creator m attrs st = (Ok x, st') -> hooks_at st' l = hooks_at st l.
Proof.
  unfold ModelInstance_init. destruct attrs; try discriminate.
  destruct (load_instance creator (db st) m d) as [row|]; [|discriminate].
  intros [= _ <-]. unfold hooks_at. cbn [heap].
  destruct (heap st !! l) as [mi|] eqn:Hl.
  - now rewrite (lookup_app_l_Some _ _ _ _ Hl).
  - apply lookup_ge_None in Hl.
    rewrite lookup_app_r by exact Hl.
    destruct (l - List.length (heap st))%nat as [|k]; [reflexivity|].
    destruct k; reflexivity.
Qed.

Lemma hooks_at_update (j l : nat) (f : ModelInstance -> ModelInstance) (st st' : State) :
  update_instance j f st = (Ok tt, st') ->
  (forall mi, signals (f mi) = signals mi) ->
  hooks_at st' l = hooks_at st l.
Proof.
  intros Hup Hf. apply update_instance_ok in Hup. destruct Hup as (mi & Hj & ->).
  unfold hooks_at. cbn [heap].
  destruct (Nat.eq_dec j l) as [->|Hne].
  - rewrite list_lookup_insert_eq by (eapply lookup_lt_Some; eauto).
    now rewrite Hj, Hf.
  - now rewrite list_lookup_insert_ne by exact Hne.
Qed.

Lemma hooks_at_connect (l : nat) (signal : Signal) (handler : Handler) (st st' : State) :
  connect l signal handler st = (Ok tt, st') ->
  hooks_at st' l = (hooks_at st l ++ [(signal, handler)])%list.
Proof.
  intros Hup. apply update_instance_ok in Hup. destruct Hup as (mi & Hl & ->).
  unfold hooks_at. cbn [heap].
  rewrite list_lookup_insert_eq by (eapply lookup_lt_Some; eauto).
  now rewrite Hl.
Qed.

(** A successful [attribute] appends [_post_save] to the hooks of the
    peering model instance and leaves the others as they are. *)
Lemma attribute_connects (self : Builder) (value retval : Value) (l : nat) (st st' : State) :
  attribute self value l st = (Ok retval, st') ->
  hooks_at st' l = (hooks_at st l ++ [(POST_SAVE, BGPPeeringExtension_post_save)])%list.
Proof.
  intros Hrun. unfold attribute in Hrun.
  destruct value as [| | | | |d| | |]; try discriminate.
  destruct (dict_get "endpoint_a" d); [|discriminate].
  destruct (dict_get "endpoint_z" d); [|discriminate].
  apply mbind_ok in Hrun. destruct Hrun as (xa & s1 & Ha & Hrun).
  apply (hooks_at_init _ _ _ _ _ _ l) in Ha.
  apply mbind_ok in Hrun. destruct Hrun as (xz & s2 & Hz & Hrun).
  apply (hooks_at_init _ _ _ _ _ _ l) in Hz.
  apply mbind_ok in Hrun. destruct Hrun as ([peering_a peering_z] & s3 & Hread & Hrun).
  unfold reads in Hread. injection Hread as _ <-.
  apply mbind_ok in Hrun. destruct Hrun as (retval1 & s4 & Hsettle & Hrun).
  assert (H4 : heap s4 = heap s2).
  { destruct (same_peering peering_a peering_z).
    - destruct peering_a; unfold mret in Hsettle; now injection Hsettle as _ <-.
    - unfold mbind, mret, delete_if_any, delete in Hsettle.
      destruct peering_a, peering_z; cbn [heap] in Hsettle;
        now injection Hsettle as _ <-. }
  apply mbind_ok in Hrun. destruct Hrun as ([] & s5 & Hset_a & Hrun).
  apply (hooks_at_update _ l) in Hset_a; [|reflexivity].
  apply mbind_ok in Hrun. destruct Hrun as ([] & s6 & Hset_z & Hrun).
  apply (hooks_at_update _ l) in Hset_z; [|reflexivity].
  apply mbind_ok in Hrun. destruct Hrun as ([] & s7 & Hconnect & Hrun).
  unfold mret in Hrun. injection Hrun as _ <-.
  apply hooks_at_connect in Hconnect.
  rewrite Hconnect, Hset_z, Hset_a.
  replace (hooks_at s4 l) with (hooks_at s2 l) by (unfold hooks_at; now rewrite H4).
  now rewrite Hz, Ha.
Qed.

(** C7: a successful [attribute] connects [_post_save] as a POST_SAVE
    hook of the peering model instance, after the hooks that were there.
    When the signal is later sent for that model instance, its hooks
    being those that [attribute] left, and the two endpoints of the
    peering are stored, the hook saves both of them: the stored
    [endpoint_a] then has [endpoint_z] as its peer and the stored
    [endpoint_z] has [endpoint_a], and no model instance changes. *)
Theorem bgp_peering_wired_after_save (self : Builder) (value retval : Value) (l : nat)
  (st built saved : State) (mi : ModelInstance) (peering a z : Row) :
  attribute self value l st = (Ok retval, built) ->
  heap saved !! l = Some mi ->
  signals mi = hooks_at built l ->
  instance mi = Some peering ->
  endpoint (db saved) peering "endpoint_a" = Ok a ->
  endpoint (db saved) peering "endpoint_z" = Ok z ->
  let a' := set_field "peer" (row_ref z) a in
  let z' := set_field "peer" (row_ref a) z in
  hooks_at built l = (hooks_at st l ++ [(POST_SAVE, BGPPeeringExtension_post_save)])%list /\
  exists wired,
    send POST_SAVE l saved = (Ok tt, wired) /\
    heap wired = heap saved /\
    db_rows (db wired) = save_rows z' (save_rows a' (db_rows (db saved))) /\
    (exists stored_a,
        find_row (db wired) (row_model a) (row_pk a) = Some stored_a /\
        dict_get "peer" (row_fields stored_a) = Some (row_ref z)) /\
    find_row (db wired) (row_model z) (row_pk z) = Some z' /\
    dict_get "peer" (row_fields z') = Some (row_ref a).
Proof.
  intros Hrun Hl Hhooks Hi Ha Hz a' z'.
  pose proof (attribute_connects _ _ _ _ _ _ Hrun) as Hconnected.
  split; [exact Hconnected|].
  eexists. split; [|split; [|split; [|split; [|split]]]].
  - unfold send, mbind, get_instance, reads. rewrite Hl.
    apply (run_post_save_hooks _ saved l mi peering a z Hl Hi Ha Hz).
    unfold receivers. rewrite Hhooks, Hconnected, List.filter_app, List.map_app.
    cbn [List.filter List.map fst snd signal_eqb].
    intros Hnil. apply List.app_eq_nil in Hnil. destruct Hnil as [_ Hnil]. discriminate.
  - reflexivity.
  - reflexivity.
  - cbn [db]. fold a' z'.
    destruct (model_eqb (row_model z') (row_model a) && Z.eqb (row_pk z') (row_pk a)) eqn:E.
    + exists z'. apply andb_true_iff in E. destruct E as [Em Ep].
      apply model_eqb_eq in Em. apply Z.eqb_eq in Ep.
      split.
      * rewrite <- Em, <- Ep. apply find_row_saved.
      * unfold z'. cbn [set_field row_fields]. rewrite dict_get_set_eq.
        unfold z' in Em, Ep. cbn [set_field row_model row_pk] in Em, Ep.
        unfold row_ref. rewrite Em, Ep. reflexivity.
    + exists a'. split.
      * rewrite (find_row_saved_other _ _ z' _ _ E). apply (find_row_saved _ _ a').
      * unfold a'. cbn [set_field row_fields]. apply dict_get_set_eq.
  - cbn [db]. fold a' z'. apply (find_row_saved _ _ z').
  - unfold z'. cbn [set_field row_fields]. apply dict_get_set_eq.
Qed.

Lemma bgp_peering_wired_after_save_witness :
  hooks_at peering_built 0 = [(POST_SAVE, BGPPeeringExtension_post_save)] /\
  exists wired,
    send POST_SAVE 0 peering_saved = (Ok tt, wired) /\
    find_row (db wired) PeerEndpoint 1 =
      Some (mkRow PeerEndpoint 1 [("peering", VObj Peering 5); ("peer", VObj PeerEndpoint 2)]) /\
    find_row (db wired) PeerEndpoint 2 =
      Some (mkRow PeerEndpoint 2 [("peering", VObj Peering 5); ("peer", VObj PeerEndpoint 1)]).
Proof.
  assert (Hrun : exists retval,
             attribute sample_builder sample_peering_value 0 peering_unsaved =
             (Ok retval, peering_built))
    by (eexists; vm_compute; reflexivity).
  destruct Hrun as [retval Hrun].
  assert (Hsaved : exists mi,
             heap peering_saved !! 0%nat = Some mi /\
             signals mi = hooks_at peering_built 0 /\
             instance mi = Some peering_5)
    by (eexists; vm_compute; repeat split; reflexivity).
  destruct Hsaved as (mi & Hl & Hhooks_kept & Hi).
  destruct (bgp_peering_wired_after_save sample_builder sample_peering_value retval 0%nat
              peering_unsaved peering_built peering_saved mi peering_5 endpoint_1 endpoint_2
              Hrun Hl Hhooks_kept Hi eq_refl eq_refl)
    as (Hhooks & wired & Hsend & _ & Hrows & _ & Hz & _).
  - split; [exact Hhooks|].
    exists wired. split; [exact Hsend|].
    split; [|exact Hz].
    unfold find_row. rewrite Hrows. reflexivity.
Defined.

End PeeringProperties.

(** * Properties of the signal handlers *)

Lemma value_eqb_row_ref (r : Row) : value_eqb (row_ref r) (row_ref r) = true.
Proof. unfold row_ref. simpl. now rewrite model_eqb_refl, Z.eqb_refl. Qed.

(** A keyword argument that the sources spell out selects the rows
    that hold its value. *)
Lemma selected_declared (d : Database) (m : ModelClass) (key : string) (v : Value) :
  declared_lookup m key v = true ->
  selected (objects d m) [(key, v)] =
  Ok (List.filter (matches [(key, v)]) (qs_rows (objects d m))).
Proof.
  intros Hdeclared.
  unfold selected, qs_conditions, sorted_items. cbn [fold_right insert_item for_each].
  unfold build_filter. cbn [objects qs_condition fst snd]. unfold condition.
  rewrite Hdeclared. reflexivity.
Qed.

Lemma get_or_create_cases (m : ModelClass) (key : string) (v : Value) (defaults : Dict)
  (st : State) :
  declared_lookup m key v = true ->
  get_or_create m [(key, v)] defaults st =
  match List.filter (matches [(key, v)]) (qs_rows (objects (db st) m)) with
  | [] =>
      let r := mkRow m (fresh_pk (db_rows (db st))) ([(key, v)] ++ defaults)%list in
      (Ok (r, true), mkState (with_rows (db st) (db_rows (db st) ++ [r])%list) (heap st))
  | [x] => (Ok (x, false), st)
  | _ :: _ :: _ => (Raise (MultipleObjectsReturned m), st)
  end.
Proof.
  intros Hdeclared. unfold get_or_create, qs_get.
  rewrite (selected_declared _ _ _ _ Hdeclared). cbn [bind].
  destruct (List.filter _ _) as [|x [|y rest]]; reflexivity.
Qed.

(** The rows of a model that match, after one more row was stored. *)
Lemma matching_after_insert (d : Database) (m : ModelClass) (kwargs : Dict) (r : Row) :
  List.filter (matches kwargs)
              (qs_rows (objects (with_rows d (db_rows d ++ [r])%list) m)) =
  (List.filter (matches kwargs) (qs_rows (objects d m)) ++
   (if model_eqb (row_model r) m && matches kwargs r then [r] else []))%list.
Proof.
  unfold objects, with_rows. cbn [qs_rows db_rows].
  rewrite !List.filter_app. f_equal. cbn [List.filter].
  destruct (model_eqb (row_model r) m); cbn [andb List.filter]; [|reflexivity].
  destruct (matches kwargs r); reflexivity.
Qed.

Section DesignModelProperties.

Import Signals.

Lemma design_matches_job (j : Job) (pk : Z) :
  matches [("job", row_ref (job_row j))]
          (mkRow Design pk ([("job", row_ref (job_row j))] ++ [])%list) = true.
Proof.
  unfold matches, matches_kwarg, row_get, dict_get.
  cbn. now rewrite model_eqb_refl, Z.eqb_refl.
Qed.

(** C8: for a job whose class is a [DesignJob] subclass the handler
    leaves at least one [Design] linked to the job, creating exactly one
    when there was none and nothing otherwise; for any other job it
    changes nothing; and running it again after itself changes nothing,
    so no second [Design] appears. *)
Theorem create_design_model_once (st : State) (j : Job) :
  let st' := snd (create_design_model j st) in
  (is_design_job j = true ->
   designs_of st' j <> [] /\
   (designs_of st j = [] ->
    exists design,
      db_rows (db st') = (db_rows (db st) ++ [design])%list /\
      designs_of st' j = [design]) /\
   (designs_of st j <> [] -> st' = st)) /\
  (is_design_job j = false -> st' = st) /\
  snd (create_design_model j st') = st'.
Proof.
  unfold create_design_model, is_design_job.
  destruct (job_class j) as [c|]; cbn zeta.
  2: { repeat split; intros; try discriminate; reflexivity. }
  destruct (issubclass c DesignJob); cbn zeta.
  2: { repeat split; intros; try discriminate; reflexivity. }
  unfold mbind, mret. rewrite get_or_create_cases by reflexivity.
  fold (designs_of st j).
  destruct (designs_of st j) as [|x [|y rest]] eqn:Hdesigns; cbn [snd fst].
  - (* none yet: one is created *)
    set (design := mkRow Design (fresh_pk (db_rows (db st)))
                         ([("job", row_ref (job_row j))] ++ [])%list).
    assert (Hafter :
              designs_of (mkState (with_rows (db st) (db_rows (db st) ++ [design])%list)
                                  (heap st)) j = [design]).
    { unfold designs_of. cbn [db]. rewrite matching_after_insert.
      fold (designs_of st j). rewrite Hdesigns.
      unfold design at 1 2. cbn [row_model]. rewrite model_eqb_refl.
      rewrite design_matches_job. reflexivity. }
    split; [|split].
    + intros _. split; [|split].
      * rewrite Hafter. discriminate.
      * intros _. exists design. split; [reflexivity | exact Hafter].
      * intros H. congruence.
    + discriminate.
    + rewrite get_or_create_cases by reflexivity.
      fold (designs_of (mkState (with_rows (db st) (db_rows (db st) ++ [design])%list)
                                (heap st)) j).
      rewrite Hafter. reflexivity.
  - (* one already *)
    split; [|split].
    + intros _. rewrite Hdesigns.
      split; [|split]; [discriminate | discriminate | reflexivity].
    + discriminate.
    + rewrite get_or_create_cases by reflexivity. fold (designs_of st j). rewrite Hdesigns. reflexivity.
  - split; [|split].
    + intros _. rewrite Hdesigns.
      split; [|split]; [discriminate | discriminate | reflexivity].
    + discriminate.
    + rewrite get_or_create_cases by reflexivity. fold (designs_of st j). rewrite Hdesigns. reflexivity.
Qed.

Lemma create_design_model_once_witness :
  designs_of jobs_state design_job = [] /\
  List.length (designs_of (snd (create_design_model design_job jobs_state)) design_job) = 1%nat /\
  snd (create_design_model plain_job jobs_state) = jobs_state /\
  snd (create_design_model design_job (snd (create_design_model design_job jobs_state))) =
    snd (create_design_model design_job jobs_state).
Proof.
  destruct (create_design_model_once jobs_state design_job) as (Hjob & _ & Hagain).
  destruct (Hjob eq_refl) as (_ & Hnew & _).
  destruct (Hnew eq_refl) as (design & _ & Hone).
  destruct (create_design_model_once jobs_state plain_job) as (_ & Hplain & _).
  split; [reflexivity|].
  split; [rewrite Hone; reflexivity|].
  split; [exact (Hplain eq_refl) | exact Hagain].
Defined.

End DesignModelProperties.

Section StatusProperties.

Import Signals.

Lemma row_get_name (r : Row) : row_get r "name" = dict_get "name" (row_fields r).
Proof. reflexivity. Qed.

Lemma row_get_color (r : Row) : row_get r "color" = dict_get "color" (row_fields r).
Proof. reflexivity. Qed.

Lemma add_where_model (r : Row) (field : string) (v : Value) (x : Row) :
  row_model (add_where r field v x) = row_model x.
Proof.
  unfold add_where, add_member.
  destruct (same_row x r); [|reflexivity].
  destruct (is_member field v x); reflexivity.
Qed.

Lemma add_where_fields (r : Row) (field : string) (v : Value) (x : Row) (k : string) :
  field <> k ->
  dict_get k (row_fields (add_where r field v x)) = dict_get k (row_fields x).
Proof.
  intros Hne. unfold add_where, add_member.
  destruct (same_row x r); [|reflexivity].
  destruct (is_member field v x); [reflexivity|].
  cbn [set_field row_fields]. now apply dict_get_set_ne.
Qed.

Lemma add_where_named (r : Row) (v : Value) (x : Row) (name : string) :
  matches [("name", VStr name)] (add_where r "content_types" v x) =
  matches [("name", VStr name)] x.
Proof.
  unfold matches, matches_kwarg. cbn [forallb fst snd].
  rewrite !row_get_name, add_where_fields by discriminate. reflexivity.
Qed.

Lemma add_where_color (r : Row) (v : Value) (x : Row) (c : string) :
  has_color c x -> has_color c (add_where r "content_types" v x).
Proof.
  unfold has_color. rewrite !row_get_color, add_where_fields by discriminate. auto.
Qed.

Lemma add_member_content_type (x : Row) :
  has_content_type (add_member "content_types" design_instance_type x) = true.
Proof.
  unfold has_content_type, add_member.
  destruct (is_member _ _ x) eqn:E; [exact E|].
  unfold is_member, members. cbn [set_field row_fields].
  rewrite dict_get_set_eq, existsb_app. cbn [existsb].
  replace (value_eqb design_instance_type design_instance_type) with true by reflexivity.
  now rewrite orb_true_r.
Qed.

Lemma add_where_content_type (r x : Row) :
  has_content_type x = true ->
  has_content_type (add_where r "content_types" design_instance_type x) = true.
Proof.
  intros H. unfold add_where, add_member. fold (has_content_type x). rewrite H.
  destruct (same_row x r); exact H.
Qed.

Lemma same_row_refl (r : Row) : same_row r r = true.
Proof. apply same_row_iff. auto. Qed.

Lemma add_where_self (r : Row) :
  has_content_type (add_where r "content_types" design_instance_type r) = true.
Proof. unfold add_where. rewrite same_row_refl. apply add_member_content_type. Qed.

Lemma filter_map_same {A} (p : A -> bool) (f : A -> A) (xs : list A) :
  (forall x, p (f x) = p x) ->
  List.filter p (List.map f xs) = List.map f (List.filter p xs).
Proof.
  intros Hp. induction xs as [|x xs IH]; cbn [List.map List.filter]; [reflexivity|].
  rewrite Hp. destruct (p x); cbn [List.map]; now rewrite IH.
Qed.

Lemma rows_named_map (r : Row) (v : Value) (rows : list Row) (name : string) :
  rows_named (List.map (add_where r "content_types" v) rows) name =
  List.map (add_where r "content_types" v) (rows_named rows name).
Proof.
  unfold rows_named.
  rewrite filter_map_same by (intros x; now rewrite add_where_model).
  apply filter_map_same. intros x. apply add_where_named.
Qed.

Lemma rows_named_app (rows1 rows2 : list Row) (name : string) :
  rows_named (rows1 ++ rows2)%list name =
  (rows_named rows1 name ++ rows_named rows2 name)%list.
Proof. unfold rows_named. now rewrite !List.filter_app. Qed.

Lemma rows_named_new (pk : Z) (name color other : string) :
  rows_named [new_status pk name color] other =
  if String.eqb name other then [new_status pk name color] else [].
Proof.
  unfold rows_named, new_status. cbn [List.filter row_model].
  replace (model_eqb Status Status) with true by reflexivity.
  cbn [List.filter]. unfold matches, matches_kwarg. cbn [forallb fst snd].
  rewrite row_get_name. cbn [row_fields app].
  replace (dict_get "name" [("name", VStr name); ("color", VStr color)])
    with (Some (VStr name)) by reflexivity.
  cbn [value_eqb]. destruct (String.eqb name other); reflexivity.
Qed.

Lemma evolves_refl (rows : list Row) : evolves rows rows.
Proof. unfold evolves. auto. Qed.

Lemma evolves_trans (rows1 rows2 rows3 : list Row) :
  evolves rows1 rows2 -> evolves rows2 rows3 -> evolves rows1 rows3.
Proof.
  intros (P1 & C1 & N1 & E1) (P2 & C2 & N2 & E2).
  repeat split; eauto.
Qed.

(** Adding the content type to the rows with the key of [r], after
    possibly storing the new status [name]. *)
Lemma evolves_add (rows extra : list Row) (r : Row) (pk : Z) (name color : string) :
  color_of name = Ok color ->
  extra = [] \/ (extra = [new_status pk name color] /\ rows_named rows name = []) ->
  evolves rows
          (List.map (add_where r "content_types" design_instance_type) (rows ++ extra)%list).
Proof.
  intros Hcolor Hextra.
  set (touch := add_where r "content_types" design_instance_type).
  assert (Hnamed : forall other,
             rows_named (List.map touch (rows ++ extra)%list) other =
             List.map touch (rows_named rows other ++ rows_named extra other)%list).
  { intros other. unfold touch. now rewrite rows_named_map, rows_named_app. }
  repeat split.
  - intros other (x & Hin & Hct). exists (touch x). split.
    + rewrite Hnamed. apply List.in_map. apply List.in_or_app. now left.
    + now apply add_where_content_type.
  - intros other c Hc Hall y Hy. rewrite Hnamed in Hy.
    apply List.in_map_iff in Hy. destruct Hy as (x & <- & Hx).
    apply add_where_color. apply List.in_app_or in Hx. destruct Hx as [Hx|Hx].
    + now apply Hall.
    + destruct Hextra as [->|[-> _]]; [destruct Hx|].
      rewrite rows_named_new in Hx.
      destruct (String.eqb name other) eqn:E; [|destruct Hx].
      apply String.eqb_eq in E. subst other.
      destruct Hx as [<-|[]].
      assert (c = color) by congruence. subst c. reflexivity.
  - intros other Hle. rewrite Hnamed, List.length_map, List.length_app.
    destruct Hextra as [->|[-> Hnone]]; [simpl; lia|].
    rewrite rows_named_new.
    destruct (String.eqb name other) eqn:E; [|simpl; lia].
    apply String.eqb_eq in E. subst other. rewrite Hnone. simpl. lia.
  - intros other Hne. rewrite Hnamed.
    destruct (rows_named rows other) as [|x xs]; [congruence | discriminate].
Qed.

Lemma create_status_step (name color : string) (st : State) :
  color_of name = Ok color ->
  (List.length (statuses_named st name) <= 1)%nat ->
  exists rows',
    create_status design_instance_type name st =
      (Ok tt, mkState (with_rows (db st) rows') (heap st)) /\
    evolves (db_rows (db st)) rows' /\
    provided rows' name /\
    (statuses_named st name <> [] ->
     List.length rows' = List.length (db_rows (db st))).
Proof.
  intros Hcolor Hle.
  unfold create_status, mbind, reads. rewrite Hcolor, get_or_create_cases by reflexivity.
  change (List.filter (matches [("name", VStr name)]) (qs_rows (objects (db st) Status)))
    with (statuses_named st name).
  destruct (statuses_named st name) as [|x [|y rest]] eqn:Hnamed; [| |simpl in Hle; lia].
  - (* absent: created, then linked *)
    cbn zeta. cbn [fst]. unfold m2m_add. cbn [db heap with_rows db_rows].
    fold (new_status (fresh_pk (db_rows (db st))) name color).
    set (r := new_status (fresh_pk (db_rows (db st))) name color).
    eexists. split; [reflexivity|]. split; [|split].
    + eapply evolves_add; [exact Hcolor|]. right. split; [reflexivity | exact Hnamed].
    + exists (add_where r "content_types" design_instance_type r). split.
      * rewrite rows_named_map, rows_named_app. apply List.in_map.
        apply List.in_or_app. right. unfold r. rewrite rows_named_new, String.eqb_refl.
        now left.
      * apply add_where_self.
    + congruence.
  - (* present: linked *)
    cbn [fst]. unfold m2m_add.
    eexists. split; [reflexivity|]. split; [|split].
    + rewrite <- (List.app_nil_r (db_rows (db st))) at 2.
      eapply (evolves_add _ _ _ 0); [exact Hcolor|]. now left.
    + exists (add_where x "content_types" design_instance_type x). split.
      * rewrite rows_named_map. apply List.in_map.
        unfold statuses_named in Hnamed. rewrite Hnamed. now left.
      * apply add_where_self.
    + intros _. apply List.length_map.
Qed.

(** Reading the colour mapping: the names are distinct, so a name has
    the colour that the mapping lists with it. *)
Lemma color_of_mapping (name c : string) :
  color_of name = Ok c <-> In (name, c) color_mapping.
Proof.
  unfold color_of, color_mapping. cbn [List.find fst snd]. split.
  - intros H.
    repeat match type of H with
           | context [String.eqb name ?k] =>
               destruct (String.eqb_spec name k) as [->|_];
               [injection H as <-; cbn [In]; tauto|]
           end.
    discriminate.
  - intros H. cbn [In] in H.
    repeat (destruct H as [H|H]; [injection H as <- <-; reflexivity|]).
    destruct H.
Qed.

Lemma color_of_key (name : string) :
  In name (List.map fst color_mapping) -> exists c, color_of name = Ok c.
Proof.
  intros H. apply List.in_map_iff in H. destruct H as ([k c] & <- & Hin).
  exists c. now apply color_of_mapping.
Qed.

Lemma create_statuses_loop (todo : list string) :
  forall st,
    Forall (fun name => exists c, color_of name = Ok c) todo ->
    Forall (fun name => (List.length (statuses_named st name) <= 1)%nat) todo ->
    exists rows',
      for_in todo (create_status design_instance_type) st =
        (Ok tt, mkState (with_rows (db st) rows') (heap st)) /\
      evolves (db_rows (db st)) rows' /\
      Forall (provided rows') todo /\
      (Forall (fun name => statuses_named st name <> []) todo ->
       List.length rows' = List.length (db_rows (db st))).
Proof.
  induction todo as [|name todo IH]; intros st Hcolors Hcounts.
  - exists (db_rows (db st)). cbn [for_in]. unfold mret.
    rewrite state_with_own_rows. repeat split; auto using evolves_refl.
  - apply Forall_cons_iff in Hcolors. destruct Hcolors as [[c Hc] Hcolors].
    apply Forall_cons_iff in Hcounts. destruct Hcounts as [Hcount Hcounts].
    destruct (create_status_step name c st Hc Hcount) as (rows1 & Hstep & Hev1 & Hp1 & Hlen1).
    set (st1 := mkState (with_rows (db st) rows1) (heap st)).
    destruct (IH st1 Hcolors) as (rows2 & Hloop & Hev2 & Hp2 & Hlen2).
    { eapply List.Forall_impl; [|exact Hcounts].
      intros other Hother. destruct Hev1 as (_ & _ & Hn & _). apply Hn, Hother. }
    exists rows2. split; [|split; [|split]].
    + cbn [for_in]. unfold mbind. rewrite Hstep. fold st1. rewrite Hloop. reflexivity.
    + eapply evolves_trans; eauto.
    + constructor; [|exact Hp2]. destruct Hev2 as (Hp & _). apply Hp, Hp1.
    + intros Hall. apply Forall_cons_iff in Hall. destruct Hall as [Hhere Hall].
      rewrite Hlen2.
      * unfold st1. cbn [db with_rows db_rows]. now apply Hlen1.
      * eapply List.Forall_impl; [|exact Hall].
        intros other Hother. destruct Hev1 as (_ & _ & _ & He). apply He, Hother.
Qed.

Variable DesignInstanceStatusChoices : list (string * string).
Variable DesignInstanceLiveStateChoices : list (string * string).

(** C9: when every listed name is a key of the colour mapping and
    status names are unique, the handler ends normally; afterwards every
    listed name has a [Status] whose content types include that of
    [DesignInstance], with the colour that the mapping gives the name if
    the name was absent before; and a second run ends normally with as
    many rows as the first one left. *)
Theorem statuses_bootstrapped (st : State) :
  let names := status_names DesignInstanceStatusChoices DesignInstanceLiveStateChoices in
  let handler :=
    create_design_instance_statuses DesignInstanceStatusChoices
                                    DesignInstanceLiveStateChoices in
  Forall (fun name => In name (List.map fst color_mapping)) names ->
  Forall (fun name => (List.length (statuses_named st name) <= 1)%nat) names ->
  exists st',
    handler st = (Ok tt, st') /\
    Forall (fun name =>
              exists r,
                In r (statuses_named st' name) /\
                has_content_type r = true /\
                (statuses_named st name = [] ->
                 exists c, In (name, c) color_mapping /\ has_color c r)) names /\
    exists st'',
      handler st' = (Ok tt, st'') /\
      List.length (db_rows (db st'')) = List.length (db_rows (db st')).
Proof.
  intros names handler Hkeys Hcounts.
  assert (Hcolors : Forall (fun name => exists c, color_of name = Ok c) names).
  { eapply List.Forall_impl; [|exact Hkeys]. intros name. apply color_of_key. }
  destruct (create_statuses_loop names st Hcolors Hcounts)
    as (rows1 & Hrun & Hev & Hprovided & _).
  set (st1 := mkState (with_rows (db st) rows1) (heap st)).
  exists st1. split; [exact Hrun|]. split.
  - apply List.Forall_forall. intros name Hin.
    rewrite List.Forall_forall in Hprovided, Hcolors.
    destruct (Hprovided name Hin) as (r & Hr & Hct).
    exists r. split; [exact Hr|]. split; [exact Hct|].
    intros Habsent. destruct (Hcolors name Hin) as [c Hc].
    exists c. split; [apply color_of_mapping; exact Hc|].
    destruct Hev as (_ & Hcol & _).
    apply (Hcol name c Hc); [|exact Hr].
    intros x Hx. unfold statuses_named in Habsent. rewrite Habsent in Hx. destruct Hx.
  - destruct (create_statuses_loop names st1 Hcolors) as (rows2 & Hrun2 & _ & _ & Hlen).
    { eapply List.Forall_impl; [|exact Hcounts].
      intros other Hother. destruct Hev as (_ & _ & Hn & _). apply Hn, Hother. }
    eexists. split; [exact Hrun2|].
    cbn [db with_rows db_rows]. apply Hlen.
    eapply List.Forall_impl; [|exact Hprovided].
    intros other (r & Hr & _). unfold statuses_named, st1. cbn [db with_rows db_rows].
    intros Hnil. rewrite Hnil in Hr. destruct Hr.
Qed.

End StatusProperties.

Lemma statuses_bootstrapped_witness :
  exists st',
    Signals.create_design_instance_statuses status_choices live_state_choices statuses_state =
      (Ok tt, st') /\
    List.length (db_rows (db st')) = 6%nat /\
    (exists r,
        In r (Signals.statuses_named st' "Pending") /\
        Signals.has_content_type r = true /\
        Signals.has_color Signals.COLOR_ORANGE r) /\
    exists st'',
      Signals.create_design_instance_statuses status_choices live_state_choices st' = (Ok tt, st'') /\
      List.length (db_rows (db st'')) = 6%nat.
Proof.
  destruct (statuses_bootstrapped status_choices live_state_choices statuses_state)
    as (st' & Hrun & Hall & st'' & Hagain & Hlen).
  - repeat (constructor; [cbn; tauto|]). constructor.
  - repeat (constructor; [vm_compute; lia|]). constructor.
  - assert (Hsix : List.length (db_rows (db st')) = 6%nat).
    { revert Hrun. vm_compute. intros [= <-]. reflexivity. }
    exists st'. split; [exact Hrun|]. split; [exact Hsix|]. split.
    + rewrite List.Forall_forall in Hall.
      destruct (Hall "Pending") as (r & Hr & Hct & Hcolour).
      { cbn. tauto. }
      exists r. split; [exact Hr|]. split; [exact Hct|].
      destruct (Hcolour eq_refl) as (c & Hc & Hhas).
      apply color_of_mapping in Hc. vm_compute in Hc.
      injection Hc as <-. exact Hhas.
    + exists st''. split; [exact Hagain|]. rewrite Hlen. exact Hsix.
Defined.

(** * Further properties of the extensions *)

Lemma dict_del_absent (k : string) (d : Dict) :
  dict_get k d = None -> dict_del k d = d.
Proof.
  unfold dict_get, dict_del.
  induction d as [|[k' v] d IH]; cbn [List.find List.filter fst snd]; [reflexivity|].
  destruct (String.eqb k k'); cbn [negb]; [discriminate|].
  intros H. now rewrite IH.
Qed.

Lemma dict_pop_default_rest (k : string) (d : Dict) :
  snd (dict_pop_default k d) = dict_del k d.
Proof.
  unfold dict_pop_default.
  destruct (dict_get k d) eqn:E; cbn [snd]; [reflexivity|].
  symmetry. now apply dict_del_absent.
Qed.

Lemma dict_pop_default_value (k : string) (d : Dict) :
  fst (dict_pop_default k d) =
  match dict_get k d with Some v => v | None => VNone end.
Proof. unfold dict_pop_default. destruct (dict_get k d); reflexivity. Qed.

Lemma split_on_length (sep : ascii) (s : string) :
  List.length (split_on sep s) = S (count_char sep s).
Proof.
  induction s as [|c s IH]; cbn [split_on count_char]; [reflexivity|].
  destruct (Ascii.eqb c sep); cbn [List.length].
  - now rewrite IH.
  - destruct (split_on sep s) as [|w ws]; cbn [List.length] in *; [discriminate|].
    exact IH.
Qed.

Lemma split_on_two (sep : ascii) (s x y : string) :
  split_on sep s = [x; y] -> s = (x ++ String sep y)%string.
Proof.
  revert x y. induction s as [|c s IH]; intros x y; cbn [split_on]; [discriminate|].
  destruct (Ascii.eqb c sep) eqn:E.
  - apply Ascii.eqb_eq in E. subst c. intros [= <- Hrest].
    pose proof (split_on_length sep s) as Hlen. rewrite Hrest in Hlen.
    cbn [List.length] in Hlen. injection Hlen as Hzero.
    clear IH. cbn [String.append]. f_equal.
    revert y Hrest Hzero. induction s as [|c s IHs]; intros y; cbn [split_on count_char].
    + now intros [= <-].
    + destruct (Ascii.eqb c sep); [discriminate|]. cbn [Nat.add].
      destruct (split_on sep s) as [|w ws] eqn:Hs; [intros [= <-] |].
      * pose proof (split_on_length sep s) as H. rewrite Hs in H. discriminate.
      * intros [= <- ->] Hzero. f_equal. now apply IHs.
  - destruct (split_on sep s) as [|w ws] eqn:Hs; [discriminate|].
    intros [= <- ->]. cbn [String.append]. f_equal. now apply IH.
Qed.

Lemma lookup_sound (st : State) (queryset : QuerySet) (query : Dict) (r : Row) :
  LookupMixin.lookup st queryset query = Ok r ->
  selected queryset (LookupMixin.resolve_instances (heap st) query) = Ok [r] /\
  In r (qs_rows queryset).
Proof.
  rewrite lookup_by_get.
  destruct (selected _ _) as [[|x [|y rest]]|e] eqn:Hf; try discriminate.
  intros [= ->]. split; [reflexivity|].
  unfold selected in Hf.
  destruct (qs_conditions _ _) as [tests|e]; cbn [bind] in Hf; [|discriminate].
  injection Hf as Hf.
  assert (Hin : In r (List.filter (passes tests) (qs_rows queryset)))
    by (rewrite Hf; now left).
  apply List.filter_In in Hin. tauto.
Qed.

Lemma lookup_design_errors (st : State) (queryset : QuerySet) (query : Dict) :
  match LookupMixin.lookup st queryset query with
  | Raise (DesignImplementationError (NoMatching _ _))
  | Raise (DesignImplementationError (MultipleMatch _ _)) => True
  | Raise (DesignImplementationError _) => False
  | _ => True
  end.
Proof.
  rewrite lookup_by_get.
  destruct (selected _ _) as [[|x [|y rest]]|e] eqn:Hf; try exact I.
  apply selected_error in Hf. destruct e; try discriminate; exact I.
Qed.

Section MoreLookupProperties.

Import LookupMixin.

(** The only [DesignImplementationError]s of [lookup_by_content_type]
    are the two of [lookup]: on no path does it raise the "Could not
    find model class" error of its handler, and a content type whose
    model is no longer installed ends in [AttributeError]. *)
Theorem lookup_by_content_type_errors (st : State) (app model : string) (query : Dict) :
  match lookup_by_content_type st app model query with
  | Raise (DesignImplementationError (NoModelClassFor _))
  | Raise (DesignImplementationError (Text _))
  | Raise (DesignImplementationError (NoAvailablePrefixes _)) => False
  | _ => True
  end /\
  (forall ct,
      get_by_natural_key (db st) app model = Ok ct ->
      ct_model_class ct = None ->
      lookup_by_content_type st app model query = Raise (AttributeError "objects")).
Proof.
  split.
  - unfold lookup_by_content_type, try_block.
    destruct (get_by_natural_key (db st) app model) as [ct|e] eqn:Hct.
    + destruct (ct_model_class ct) as [m|]; [|exact I].
      pose proof (lookup_design_errors st (objects (db st) m) query) as H.
      destruct (lookup st (objects (db st) m) query) as [r|e]; [exact I|].
      destruct e as [msg| | | | | | | | | | | |]; try exact I.
      destruct msg; try exact I; contradiction.
    + unfold get_by_natural_key in Hct.
      destruct (List.find _ _); [discriminate|]. injection Hct as <-. exact I.
  - intros ct Hct Hnone. unfold lookup_by_content_type, try_block.
    rewrite Hct, Hnone. reflexivity.
Qed.

Lemma lookup_by_content_type_errors_witness :
  lookup_by_content_type
    (mkState (mkDatabase [] [mkContentType "dcim" "rackgroup" None] [] (fun _ => [])
                         (schema_with [])) [])
    "dcim" "rackgroup" [("name", VStr "R1")] =
  Raise (AttributeError "objects").
Proof.
  eapply (proj2 (lookup_by_content_type_errors _ "dcim" "rackgroup" _)); reflexivity.
Defined.

(** A [content-type] that does not have exactly one dot cannot be
    unpacked into an app label and a model name: the call ends in
    [ValueError], not in [DesignImplementationError]. *)
Theorem lookup_content_type_one_dot (st : State) (attribute : string) (rest : list string)
  (d : Dict) (s : string) (model_instance : ModelInstance) :
  dict_get "content-type" d = Some (VStr s) ->
  count_char "." s <> 1%nat ->
  LookupExtension.attribute st (attribute :: rest) (VDict d) model_instance =
  Raise (ValueError "unpack").
Proof.
  intros Hget Hdots. unfold LookupExtension.attribute. cbn [bind].
  unfold dict_pop_default. rewrite Hget.
  pose proof (split_on_length "." s) as Hlen.
  destruct (split_on "." s) as [|x [|y [|z more]]]; cbn [List.length] in Hlen;
    try reflexivity.
  injection Hlen as Hlen. congruence.
Qed.

Lemma lookup_content_type_one_dot_witness :
  LookupExtension.attribute sample_state ["termination_a"]
    (VDict [("content-type", VStr "dcim.interface.extra"); ("name", VStr "GigabitEthernet1")])
    (mkModelInstance Cable None [] [] [] []) =
  Raise (ValueError "unpack").
Proof.
  apply (lookup_content_type_one_dot sample_state "termination_a" []
           _ "dcim.interface.extra").
  - reflexivity.
  - vm_compute. lia.
Defined.

(** What a successful [!lookup] returns: the name is the first tag
    argument, and the object is a stored row, the only one of its model
    that the query without [content-type] selects; the model is that of
    a registered content type, the one spelled by [content-type], or the
    one of the model that the attribute relates to. *)
Theorem lookup_attribute_sound (st : State) (args : list string) (value : Value)
  (model_instance : ModelInstance) (name : string) (r : Row) :
  LookupExtension.attribute st args value model_instance = Ok (name, r) ->
  exists query ct,
    lookup_query args value = Some query /\
    List.head args = Some name /\
    In r (db_rows (db st)) /\
    selected (objects (db st) (row_model r))
             (resolve_instances (heap st) (dict_del "content-type" query)) = Ok [r] /\
    In ct (db_content_types (db st)) /\
    ct_model_class ct = Some (row_model r) /\
    match dict_get "content-type" query with
    | Some (VStr s) => s = (ct_app_label ct ++ "." ++ ct_model ct)%string
    | _ =>
        exists m,
          LookupExtension.related_model (db st) (model_class model_instance) name = Ok m /\
          app_label m = ct_app_label ct /\ model_name m = ct_model ct
    end.
Proof.
  unfold LookupExtension.attribute.
  destruct args as [|attribute rest]; [discriminate|].
  assert (Hquery : forall query,
             lookup_query (attribute :: rest) value = Some query ->
             (let (content_type, query) := dict_pop_default "content-type" query in
              key <-
                match content_type with
                | VNone =>
                    m <- LookupExtension.related_model (db st) (model_class model_instance)
                           attribute ;;
                    Ok (app_label m, model_name m)
                | VStr s =>
                    match split_on "." s with
                    | [a; m] => Ok (a, m)
                    | _ => Raise (ValueError "unpack")
                    end
                | _ => Raise (AttributeError "split")
                end ;;
              found <- lookup_by_content_type st (fst key) (snd key) query ;;
              Ok (attribute, found))%py = Ok (name, r) ->
             exists ct,
               List.head (attribute :: rest) = Some name /\
               In r (db_rows (db st)) /\
               selected (objects (db st) (row_model r))
                        (resolve_instances (heap st) (dict_del "content-type" query)) = Ok [r] /\
               In ct (db_content_types (db st)) /\
               ct_model_class ct = Some (row_model r) /\
               match dict_get "content-type" query with
               | Some (VStr s) => s = (ct_app_label ct ++ "." ++ ct_model ct)%string
               | _ =>
                   exists m,
                     LookupExtension.related_model (db st) (model_class model_instance) name
                       = Ok m /\
                     app_label m = ct_app_label ct /\ model_name m = ct_model ct
               end).
  { intros query _.
    pose proof (dict_pop_default_rest "content-type" query) as Hrest.
    pose proof (dict_pop_default_value "content-type" query) as Hvalue.
    destruct (dict_pop_default "content-type" query) as [content_type remaining].
    cbn [fst snd] in Hrest, Hvalue. subst remaining.
    assert (Hfound : forall app model,
               (found <- lookup_by_content_type st app model (dict_del "content-type" query) ;;
                Ok (attribute, found))%py = Ok (name, r) ->
               attribute = name /\
               exists ct,
                 In r (db_rows (db st)) /\
                 selected (objects (db st) (row_model r))
                          (resolve_instances (heap st) (dict_del "content-type" query)) = Ok [r] /\
                 In ct (db_content_types (db st)) /\
                 ct_model_class ct = Some (row_model r) /\
                 app = ct_app_label ct /\ model = ct_model ct).
    { intros app model. unfold lookup_by_content_type, try_block, get_by_natural_key.
      destruct (List.find _ (db_content_types (db st))) as [ct|] eqn:Hfind; [|discriminate].
      apply List.find_some in Hfind. destruct Hfind as [Hin Hkey].
      apply andb_true_iff in Hkey. destruct Hkey as [Ha Hm].
      apply String.eqb_eq in Ha, Hm.
      destruct (ct_model_class ct) as [m|] eqn:Hclass; [|discriminate].
      destruct (lookup st (objects (db st) m) _) as [found|e] eqn:Hlookup; [|discriminate].
      cbn [bind]. intros [= -> ->]. split; [reflexivity|].
      apply lookup_sound in Hlookup. destruct Hlookup as [Hmatch Hrow].
      unfold objects in Hrow. cbn [qs_rows] in Hrow.
      apply List.filter_In in Hrow. destruct Hrow as [Hrow Hmodel].
      apply model_eqb_eq in Hmodel. subst m.
      exists ct. repeat split; auto. }
    destruct (dict_get "content-type" query) as [given|] eqn:Hget; subst content_type.
    - destruct given; try discriminate.
      + (* an explicit None *)
        destruct (LookupExtension.related_model _ _ _) as [m|e] eqn:Hrel; [|discriminate].
        cbn [bind fst snd]. intros H. apply Hfound in H.
        destruct H as (-> & ct & Hrow & Hmatch & Hin & Hclass & Ha & Hm).
        exists ct. repeat split; auto. exists m. auto.
      + (* app_label.model *)
        destruct (split_on "." s) as [|x [|y [|z more]]] eqn:Hsplit; try discriminate.
        cbn [bind fst snd]. intros H. apply Hfound in H.
        destruct H as (-> & ct & Hrow & Hmatch & Hin & Hclass & Ha & Hm).
        exists ct. repeat split; auto.
        apply split_on_two in Hsplit. subst. reflexivity.
    - destruct (LookupExtension.related_model _ _ _) as [m|e] eqn:Hrel; [|discriminate].
      cbn [bind fst snd]. intros H. apply Hfound in H.
      destruct H as (-> & ct & Hrow & Hmatch & Hin & Hclass & Ha & Hm).
      exists ct. repeat split; auto. exists m. auto. }
  destruct value; try discriminate.
  - (* a string and the name of the query attribute *)
    destruct rest as [|field rest']; [discriminate|].
    cbn [bind]. intros H.
    destruct (Hquery [(field, VStr s)] eq_refl H) as (ct & Hrest).
    exists [(field, VStr s)], ct. split; [reflexivity | exact Hrest].
  - cbn [bind]. intros H.
    destruct (Hquery d eq_refl H) as (ct & Hrest).
    exists d, ct. split; [reflexivity | exact Hrest].
Qed.

Lemma lookup_attribute_sound_witness :
  LookupExtension.attribute sample_state ["termination_b"]
    (VDict [("content-type", VStr "dcim.interface"); ("device__name", VStr "device1")])
    (mkModelInstance Cable None [] [] [] []) = Ok ("termination_b", remote_interface) /\
  In remote_interface (db_rows (db sample_state)) /\
  selected (objects sample_db Interface) [("device__name", VStr "device1")] =
    Ok [remote_interface].
Proof.
  assert (Hrun : LookupExtension.attribute sample_state ["termination_b"]
            (VDict [("content-type", VStr "dcim.interface"); ("device__name", VStr "device1")])
            (mkModelInstance Cable None [] [] [] []) = Ok ("termination_b", remote_interface))
    by reflexivity.
  split; [exact Hrun|].
  destruct (lookup_attribute_sound _ _ _ _ _ _ Hrun) as (query & ct & Hq & _ & Hin & Hsel & _).
  split; [exact Hin|].
  injection Hq as <-. exact Hsel.
Defined.

End MoreLookupProperties.

Lemma in_dict_del (k : string) (d : Dict) (kv : string * Value) :
  In kv (dict_del k d) <-> In kv d /\ fst kv <> k.
Proof.
  unfold dict_del. rewrite List.filter_In, negb_true_iff.
  split; intros [Hin Hk]; split; auto.
  - intros E. rewrite E, String.eqb_refl in Hk. discriminate.
  - destruct (String.eqb k (fst kv)) eqn:E; [|reflexivity].
    apply String.eqb_eq in E. congruence.
Qed.

Lemma find_without_status (d : Dict) :
  List.find (String.prefix "status__") (dict_keys (dict_del "status" d)) =
  List.find (String.prefix "status__") (dict_keys d).
Proof.
  unfold dict_keys, dict_del.
  induction d as [|[k v] d IH]; cbn [List.filter List.map List.find fst]; [reflexivity|].
  destruct (String.eqb "status" k) eqn:E; cbn [negb List.map List.find fst].
  - apply String.eqb_eq in E. subst k. exact IH.
  - now rewrite IH.
Qed.

Section MoreCableProperties.

Import CableConnectionExtension.

(** Which entries of the value reach the lookup of the remote
    termination: never [status]; every entry that is not about the
    status; and of the [status__] entries all but the first one, which
    is used up only when no [status] is given. *)
Theorem status_entries_consumed (st : State) (d : Dict) (status : Value) (query : Dict) :
  resolve_status st d = Ok (status, query) ->
  (forall kv, In kv query -> In kv d /\ fst kv <> "status") /\
  (forall kv,
      In kv d -> fst kv <> "status" ->
      In kv query \/
      ((dict_get "status" d = None \/ dict_get "status" d = Some VNone) /\
       List.find (String.prefix "status__") (dict_keys d) = Some (fst kv))).
Proof.
  unfold resolve_status.
  pose proof (dict_pop_default_rest "status" d) as Hrest.
  pose proof (dict_pop_default_value "status" d) as Hvalue.
  destruct (dict_pop_default "status" d) as [given remaining].
  cbn [fst snd] in Hrest, Hvalue. subst remaining.
  assert (Hplain : forall kv, In kv (dict_del "status" d) <-> In kv d /\ fst kv <> "status")
    by (intros kv; apply in_dict_del).
  assert (Hkeep : query = dict_del "status" d ->
                  (forall kv, In kv query -> In kv d /\ fst kv <> "status") /\
                  (forall kv, In kv d -> fst kv <> "status" ->
                     In kv query \/
                     ((dict_get "status" d = None \/ dict_get "status" d = Some VNone) /\
                      List.find (String.prefix "status__") (dict_keys d) = Some (fst kv)))).
  { intros ->. split; intros kv; [apply Hplain|]. intros Hin Hk. left. now apply Hplain. }
  destruct given eqn:Hgiven;
    try (intros [= _ <-]; now apply Hkeep).
  - (* no status: the first [status__] key, if any *)
    rewrite find_without_status.
    destruct (List.find _ (dict_keys d)) as [key|] eqn:Hfind;
      [|intros [= _ <-]; now apply Hkeep].
    pose proof (dict_pop_default_rest key (dict_del "status" d)) as Hrest2.
    destruct (dict_pop_default key (dict_del "status" d)) as [v remaining].
    cbn [snd] in Hrest2. subst remaining.
    destruct (qs_get _ _) as [found|e]; cbn [bind]; [|discriminate].
    intros [= _ <-]. split.
    + intros kv Hin. apply in_dict_del in Hin. destruct Hin as [Hin _]. now apply Hplain.
    + intros kv Hin Hk.
      destruct (String.eqb (fst kv) key) eqn:E.
      * right. apply String.eqb_eq in E. subst key. split; [|reflexivity].
        destruct (dict_get "status" d) as [w|]; [right | left]; congruence.
      * left. apply in_dict_del. split; [now apply Hplain|].
        intros E'. rewrite E', String.eqb_refl in E. discriminate.
  - (* a dictionary *)
    destruct (qs_get _ _) as [found|e]; cbn [bind]; [|discriminate].
    intros [= _ <-]. now apply Hkeep.
Qed.

Lemma status_entries_consumed_witness :
  In ("name", VStr "GigabitEthernet1") sample_cable_value /\
  fst ("name", VStr "GigabitEthernet1") <> "status".
Proof.
  apply (proj1 (status_entries_consumed sample_state sample_cable_value (row_ref planned)
                  [("device__name", VStr "device1"); ("name", VStr "GigabitEthernet1")]
                  ltac:(vm_compute; reflexivity))).
  right. now left.
Defined.

(** A [!connect_cable] that fails before it defers the cable has
    changed nothing, neither the database nor any model instance: when
    the status cannot be looked up, when no status is given, and when
    the lookup of the remote termination fails, which it does with
    [DesignImplementationError] if no termination or more than one
    matches. *)
Theorem connect_cable_error_keeps_state (self : Builder) (d : Dict) (l : nat) (st : State) :
  (forall e,
      resolve_status st d = Raise e ->
      attribute self (VDict d) l st = (Raise e, st)) /\
  (forall status query,
      resolve_status st d = Ok (status, query) ->
      is_None status = true ->
      attribute self (VDict d) l st = (Raise no_status, st)) /\
  (forall status query mi e,
      resolve_status st d = Ok (status, query) ->
      is_None status = false ->
      heap st !! l = Some mi ->
      LookupMixin.lookup st (objects (db st) (model_class mi)) query = Raise e ->
      attribute self (VDict d) l st = (Raise e, st)).
Proof.
  unfold attribute, mbind, reads, mraise.
  split; [|split].
  - intros e ->. reflexivity.
  - intros status query -> ->. reflexivity.
  - intros status query mi e -> -> Hl Hlookup.
    unfold defer_cable, mbind, get_instance, reads.
    rewrite Hl. cbn [fst snd]. rewrite Hlookup. reflexivity.
Qed.

Lemma connect_cable_error_keeps_state_witness :
  attribute sample_builder
    (VDict [("status__name", VStr "Planned"); ("name", VStr "Ethernet9")]) 0 sample_state =
  (Raise (DesignImplementationError (NoMatching Interface [("name", VStr "Ethernet9")])),
   sample_state).
Proof.
  apply (proj2 (proj2 (connect_cable_error_keeps_state sample_builder
                         [("status__name", VStr "Planned"); ("name", VStr "Ethernet9")]
                         0%nat sample_state))
           (row_ref planned) [("name", VStr "Ethernet9")]
           (mkModelInstance Interface (Some local_interface) (row_fields local_interface)
                            [] [] [])).
  - vm_compute. reflexivity.
  - reflexivity.
  - reflexivity.
  - vm_compute. reflexivity.
Defined.

End MoreCableProperties.

Lemma find_split {A} (p : A -> bool) (xs : list A) (a : A) :
  List.find p xs = Some a ->
  exists skipped rest,
    xs = (skipped ++ a :: rest)%list /\ p a = true /\
    Forall (fun x => p x = false) skipped.
Proof.
  induction xs as [|x xs IH]; cbn [List.find]; [discriminate|].
  destruct (p x) eqn:Hp.
  - intros [= ->]. exists [], xs. auto.
  - intros H. destruct (IH H) as (skipped & rest & -> & Ha & Hall).
    exists (x :: skipped), rest. auto.
Qed.

Lemma in_insert_row (leb : Row -> Row -> bool) (r x : Row) (rows : list Row) :
  In x (insert_row leb r rows) <-> x = r \/ In x rows.
Proof.
  induction rows as [|y rows IH]; cbn [insert_row].
  - simpl. intuition.
  - destruct (leb r y); simpl; [intuition|]. rewrite IH. simpl. intuition.
Qed.

(** Ordering a queryset neither drops nor adds a row. *)
Lemma in_order_by (leb : Row -> Row -> bool) (x : Row) (rows : list Row) :
  In x (order_by leb rows) <-> In x rows.
Proof.
  unfold order_by. induction rows as [|y rows IH]; cbn [fold_right]; [tauto|].
  rewrite in_insert_row, IH. simpl. intuition.
Qed.

(** The keyword arguments built from a parsed network are those that
    the sources spell out. *)
Lemma network_kwargs_test (d : Database) (net : IPNetwork) :
  exists test,
    q_test (objects d Prefix) (QKwargs (network_kwargs net)) = Ok test /\
    forall r, test r = matches (network_kwargs net) r.
Proof.
  eexists. split.
  - cbn [q_test]. unfold qs_conditions.
    change (sorted_items (network_kwargs net))
      with [ ("broadcast", VStr (broadcast net)); ("network", VStr (network net));
             ("prefix_length", VInt (prefixlen net)) ].
    reflexivity.
  - intros r. unfold passes, matches, network_kwargs. cbn [forallb fst snd].
    destruct (matches_kwarg r ("prefix_length", _)), (matches_kwarg r ("network", _)),
      (matches_kwarg r ("broadcast", _)); reflexivity.
Qed.

Lemma alternatives_test (d : Database) (nets : list IPNetwork) :
  forall q0 t0,
    q_test (objects d Prefix) q0 = Ok t0 ->
    exists t,
      q_test (objects d Prefix)
             (fold_left QOr (List.map (fun net => QKwargs (network_kwargs net)) nets) q0)
        = Ok t /\
      forall r, t r = t0 r || existsb (fun net => matches (network_kwargs net) r) nets.
Proof.
  induction nets as [|net nets IH]; intros q0 t0 H0; cbn [List.map fold_left existsb].
  - exists t0. split; [exact H0|]. intros r. now rewrite orb_false_r.
  - destruct (network_kwargs_test d net) as (t1 & H1 & Ht1).
    destruct (IH (QOr q0 (QKwargs (network_kwargs net))) (fun r => t0 r || t1 r))
      as (t & Ht & Hspec).
    { change (q_test (objects d Prefix) (QOr q0 (QKwargs (network_kwargs net))))
        with (test_a <- q_test (objects d Prefix) q0 ;;
              test_b <- q_test (objects d Prefix) (QKwargs (network_kwargs net)) ;;
              Ok (fun r => test_a r || test_b r))%py.
      rewrite H0, H1. reflexivity. }
    exists t. split; [exact Ht|].
    intros r. rewrite Hspec, Ht1. now rewrite orb_assoc.
Qed.

Lemma dict_del_set_same (k : string) (v : Value) (d : Dict) :
  dict_del k (dict_set k v d) = dict_del k d.
Proof.
  unfold dict_del.
  induction d as [|[k' v'] d IH]; cbn [dict_set List.filter fst].
  - now rewrite String.eqb_refl.
  - destruct (String.eqb k k') eqn:E; cbn [List.filter fst].
    + now rewrite String.eqb_refl.
    + rewrite E. cbn [negb]. now rewrite IH.
Qed.

Lemma dict_del_set_other (k k' : string) (v : Value) (d : Dict) :
  k <> k' -> dict_del k' (dict_set k v d) = dict_set k v (dict_del k' d).
Proof.
  intros Hne.
  assert (Hkk : String.eqb k' k = false).
  { destruct (String.eqb k' k) eqn:E; [|reflexivity].
    apply String.eqb_eq in E. congruence. }
  unfold dict_del.
  induction d as [|[k0 v0] d IH]; cbn [dict_set List.filter fst].
  - rewrite Hkk. reflexivity.
  - destruct (String.eqb k k0) eqn:E; cbn [List.filter fst].
    + apply String.eqb_eq in E. subst k0. rewrite Hkk. cbn [negb dict_set].
      now rewrite String.eqb_refl.
    + destruct (String.eqb k' k0); cbn [negb dict_set]; [exact IH|].
      rewrite E. now rewrite IH.
Qed.

Lemma dict_set_not_empty (k : string) (v : Value) (d : Dict) : dict_set k v d <> [].
Proof.
  destruct d as [|[k' v'] d]; cbn [dict_set]; [discriminate|].
  destruct (String.eqb k k'); discriminate.
Qed.

Section MoreNextPrefixProperties.

Import NextPrefixExtension.

Variable parse_network : string -> option IPNetwork.
Variable parse_int : string -> option Z.

Lemma prefix_filters_parsed (xs : list Value) (qs : list Q) :
  for_each (prefix_filter parse_network) xs = Ok qs ->
  exists nets,
    qs = List.map (fun net => QKwargs (network_kwargs net)) nets /\
    Forall2 (fun x net => exists s, x = VStr s /\ parse_network (strip s) = Some net)
            xs nets.
Proof.
  revert qs. induction xs as [|x xs IH]; intros qs; cbn [for_each].
  - intros [= <-]. exists []. split; [reflexivity | constructor].
  - destruct (prefix_filter parse_network x) as [q|e] eqn:Hq; cbn [bind]; [|discriminate].
    destruct (for_each _ xs) as [qs'|e]; cbn [bind]; [|discriminate].
    intros [= <-]. destruct (IH qs' eq_refl) as (nets & -> & Hall).
    unfold prefix_filter in Hq. destruct x; try discriminate.
    destruct (parse_network (strip s)) as [net|] eqn:Hnet; [|discriminate].
    injection Hq as <-. exists (net :: nets). split; [reflexivity|].
    constructor; [|exact Hall]. exists s. auto.
Qed.

Lemma parsed_alternatives (xs : list Value) (nets : list IPNetwork) (r : Row) :
  Forall2 (fun x net => exists s, x = VStr s /\ parse_network (strip s) = Some net) xs nets ->
  existsb (fun net => matches (network_kwargs net) r) nets = true <->
  exists s net,
    In (VStr s) xs /\ parse_network (strip s) = Some net /\
    matches (network_kwargs net) r = true.
Proof.
  induction 1 as [|x net xs nets (s & -> & Hs) Hrest IH]; cbn [existsb].
  - split; [discriminate | intros (s & net & [] & _)].
  - rewrite orb_true_iff, IH. split.
    + intros [Hm|(s' & net' & Hin & Hnet & Hm)].
      * exists s, net. repeat split; auto. now left.
      * exists s', net'. repeat split; auto. now right.
    + intros (s' & net' & [[= <-]|Hin] & Hnet & Hm).
      * left. congruence.
      * right. exists s', net'. auto.
Qed.

(** With a [prefix] entry, the parents that [!next_prefix] searches are
    exactly the prefixes that the remaining criteria select and that
    agree in prefix length, network and broadcast address with one of
    the given prefixes, each stripped of the white space around it. *)
Theorem next_prefix_parents_match (d : Database) (criteria : Dict) (prefixes : Value)
  (q : Q) (parents : list Row) :
  dict_get "prefix" criteria = Some prefixes ->
  build_query parse_network criteria = Ok q ->
  qs_filter (objects d Prefix) q = Ok parents ->
  exists others,
    selected (objects d Prefix) (dict_del "prefix" criteria) = Ok others /\
    forall r,
      In r parents <->
      In r others /\
      exists s net,
        In (VStr s) (given_prefixes prefixes) /\
        parse_network (strip s) = Some net /\
        matches (network_kwargs net) r = true.
Proof.
  intros Hget. unfold build_query. rewrite Hget.
  assert (Hgiven : forall xs,
             given_prefixes prefixes = xs ->
             (prefix_q <- for_each (prefix_filter parse_network) xs ;;
              alternatives <- reduce_or prefix_q ;;
              Ok (QAnd (QKwargs (dict_del "prefix" criteria)) alternatives))%py = Ok q ->
             qs_filter (objects d Prefix) q = Ok parents ->
             exists others,
               selected (objects d Prefix) (dict_del "prefix" criteria) = Ok others /\
               forall r,
                 In r parents <->
                 In r others /\
                 exists s net,
                   In (VStr s) (given_prefixes prefixes) /\
                   parse_network (strip s) = Some net /\
                   matches (network_kwargs net) r = true).
  { intros xs Hxs. rewrite Hxs.
    destruct (for_each _ xs) as [qs|e] eqn:Hqs; cbn [bind]; [|discriminate].
    apply prefix_filters_parsed in Hqs. destruct Hqs as (nets & -> & Hparsed).
    destruct nets as [|net0 nets]; cbn [List.map reduce_or bind]; [discriminate|].
    intros [= <-].
    destruct (network_kwargs_test d net0) as (t0 & H0 & Ht0).
    destruct (alternatives_test d nets _ _ H0) as (talt & Halt & Hspec).
    unfold qs_filter, selected.
    change (q_test (objects d Prefix)
                   (QAnd (QKwargs (dict_del "prefix" criteria))
                         (fold_left QOr
                            (List.map (fun net => QKwargs (network_kwargs net)) nets)
                            (QKwargs (network_kwargs net0)))))
      with (test_a <- (tests <- qs_conditions (objects d Prefix) (dict_del "prefix" criteria) ;;
                       Ok (passes tests)) ;;
            test_b <- q_test (objects d Prefix)
                             (fold_left QOr
                                (List.map (fun net => QKwargs (network_kwargs net)) nets)
                                (QKwargs (network_kwargs net0))) ;;
            Ok (fun r => test_a r && test_b r))%py.
    destruct (qs_conditions (objects d Prefix) (dict_del "prefix" criteria)) as [tests|e];
      cbn [bind]; [|discriminate].
    rewrite Halt. cbn [bind]. intros [= <-].
    eexists. split; [reflexivity|].
    intros r. unfold objects. cbn [qs_rows qs_order].
    rewrite in_order_by, !List.filter_In, andb_true_iff.
    rewrite Hspec, Ht0.
    change (matches (network_kwargs net0) r ||
            existsb (fun net => matches (network_kwargs net) r) nets)
      with (existsb (fun net => matches (network_kwargs net) r) (net0 :: nets)).
    rewrite (parsed_alternatives xs (net0 :: nets) r Hparsed). tauto. }
  destruct prefixes; try discriminate; cbn [bind]; intros H; eapply Hgiven; eauto.
Qed.

(** A single prefix given as a string is treated like a list that holds
    only that string. *)
Theorem next_prefix_string_is_singleton (d : Database) (value : Dict) (s : string) :
  attribute parse_network parse_int d (VDict (dict_set "prefix" (VStr s) value)) =
  attribute parse_network parse_int d (VDict (dict_set "prefix" (VList [VStr s]) value)).
Proof.
  unfold attribute, dict_pop_default.
  rewrite !dict_get_set_ne by discriminate.
  destruct (dict_get "length" value) as [length|]; [|reflexivity].
  rewrite !dict_del_set_other by discriminate.
  destruct (is_None length); [reflexivity|].
  pose proof (dict_set_not_empty "prefix" (VStr s) (dict_del "length" value)) as H1.
  pose proof (dict_set_not_empty "prefix" (VList [VStr s]) (dict_del "length" value)) as H2.
  destruct (dict_set "prefix" (VStr s) _) as [|kv1 rest1] eqn:E1; [congruence|].
  destruct (dict_set "prefix" (VList [VStr s]) _) as [|kv2 rest2] eqn:E2; [congruence|].
  rewrite <- E1, <- E2.
  unfold build_query. rewrite !dict_get_set_eq, !dict_del_set_same. reflexivity.
Qed.

(** The outcome of [!next_prefix] once its arguments pass the checks,
    Django accepts the query and [length] converts to the integer [n]:
    the first parent, in the order of the queryset, that has an
    available block of prefix length at most [n] gives the result, and
    within that parent the first such block; its network address is
    returned with [n] as the new length.  Without such a block the
    error lists the parents, every available block of which is then
    smaller than requested.  A query that Django refuses ends in the
    error of Django. *)
Theorem next_prefix_first_fit (d : Database) (value criteria : Dict) (length : Value)
  (q : Q) (n : Z) :
  dict_pop_default "length" value = (length, criteria) ->
  criteria <> [] ->
  build_query parse_network criteria = Ok q ->
  int parse_int length = Ok n ->
  match qs_filter (objects d Prefix) q with
  | Ok parents =>
      match attribute parse_network parse_int d (VDict value) with
      | Ok (name, next) =>
          name = "prefix" /\
          exists before parent after skipped a rest,
            parents = (before ++ parent :: after)%list /\
            Forall (fun p => Forall (fun b => n < prefixlen b) (db_available d (row_pk p)))
                   before /\
            db_available d (row_pk parent) = (skipped ++ a :: rest)%list /\
            Forall (fun b => n < prefixlen b) skipped /\
            prefixlen a <= n /\
            next = (network a ++ "/" ++ str_of_int n)%string
      | Raise e =>
          e = DesignImplementationError (NoAvailablePrefixes (List.map row_pk parents)) /\
          Forall (fun p => Forall (fun b => n < prefixlen b) (db_available d (row_pk p)))
                 parents
      end
  | Raise e => attribute parse_network parse_int d (VDict value) = Raise e
  end.
Proof.
  intros Hpop Hcriteria Hquery Hint.
  assert (Hlen : is_None length = false) by (destruct length; try reflexivity; discriminate).
  unfold attribute. rewrite Hpop, Hlen.
  destruct criteria as [|kv more]; [congruence|].
  rewrite Hquery. cbn [bind].
  destruct (qs_filter (objects d Prefix) q) as [parents|e]; cbn [bind]; [|reflexivity].
  unfold _get_next. rewrite Hint. cbn [bind].
  destruct (first_available d n parents) as [a|] eqn:Hfirst; cbn [bind].
  - split; [reflexivity|].
    clear - Hfirst. induction parents as [|p ps IH]; cbn [first_available] in Hfirst;
      [discriminate|].
    destruct (first_fit d n p) as [b|] eqn:Hfit.
    + injection Hfirst as ->. unfold first_fit in Hfit.
      apply find_split in Hfit. destruct Hfit as (skipped & rest & Havail & Hle & Hskip).
      exists [], p, ps, skipped, a, rest. repeat split; auto.
      * eapply List.Forall_impl; [|exact Hskip]. intros b Hb. cbn beta in Hb. lia.
      * lia.
    + destruct (IH Hfirst)
        as (before & parent & after & skipped & a' & rest & -> & Hbefore & Havail & Hskip & Hle & Hs).
      exists (p :: before), parent, after, skipped, a', rest. repeat split; auto.
      constructor; [|exact Hbefore].
      apply List.Forall_forall. intros b Hb. unfold first_fit in Hfit.
      pose proof (List.find_none _ _ Hfit b Hb) as Hno. cbn beta in Hno. lia.
  - split; [reflexivity|].
    clear - Hfirst. induction parents as [|p ps IH]; [constructor|].
    cbn [first_available] in Hfirst.
    destruct (first_fit d n p) as [b|] eqn:Hfit; [discriminate|].
    constructor; [|now apply IH].
    apply List.Forall_forall. intros b Hb. unfold first_fit in Hfit.
    pose proof (List.find_none _ _ Hfit b Hb) as Hno. cbn beta in Hno. lia.
Qed.

End MoreNextPrefixProperties.

Lemma next_prefix_parents_match_witness :
  qs_filter (objects networks_db Prefix)
            (QAnd (QKwargs [("status__name", VStr "Active")])
                  (QKwargs (network_kwargs (mkNet "10.0.0.0" 23 "10.0.1.255")))) =
    Ok [network_0] /\
  strip padded_prefix = "10.0.0.0/23" /\
  exists s net,
    In (VStr s) [VStr padded_prefix] /\
    sample_parse (strip s) = Some net /\
    matches (network_kwargs net) network_0 = true.
Proof.
  destruct (next_prefix_parents_match sample_parse networks_db
              [("status__name", VStr "Active"); ("prefix", VStr padded_prefix)]
              (VStr padded_prefix)
              (QAnd (QKwargs [("status__name", VStr "Active")])
                    (QKwargs (network_kwargs (mkNet "10.0.0.0" 23 "10.0.1.255"))))
              [network_0])
    as (others & _ & Hiff).
  - reflexivity.
  - reflexivity.
  - reflexivity.
  - split; [reflexivity|]. split; [reflexivity|].
    apply (proj1 (Hiff network_0)). now left.
Defined.

Lemma next_prefix_first_fit_witness :
  NextPrefixExtension.attribute (fun _ => None) (fun _ => None) prefixes_db
    (VDict [("status__name", VStr "Active"); ("length", VInt 24)]) =
    Ok ("prefix", "10.0.3.0/24") /\
  exists before parent after skipped a rest,
    qs_filter (objects prefixes_db Prefix) (QKwargs [("status__name", VStr "Active")]) =
      Ok (before ++ parent :: after)%list /\
    Forall (fun p => Forall (fun b => 24 < prefixlen b) (db_available prefixes_db (row_pk p)))
           before /\
    db_available prefixes_db (row_pk parent) = (skipped ++ a :: rest)%list /\
    Forall (fun b => 24 < prefixlen b) skipped /\
    prefixlen a <= 24 /\
    "10.0.3.0/24" = (network a ++ "/" ++ str_of_int 24)%string.
Proof.
  assert (Hrun : NextPrefixExtension.attribute (fun _ => None) (fun _ => None) prefixes_db
                   (VDict [("status__name", VStr "Active"); ("length", VInt 24)]) =
                 Ok ("prefix", "10.0.3.0/24")) by reflexivity.
  split; [exact Hrun|].
  pose proof (next_prefix_first_fit (fun _ => None) (fun _ => None) prefixes_db
                [("status__name", VStr "Active"); ("length", VInt 24)]
                [("status__name", VStr "Active")] (VInt 24)
                (QKwargs [("status__name", VStr "Active")]) 24
                eq_refl ltac:(discriminate) eq_refl eq_refl) as H.
  destruct (qs_filter (objects prefixes_db Prefix) (QKwargs [("status__name", VStr "Active")]))
    as [parents|e] eqn:Hparents; [|discriminate Hparents].
  rewrite Hrun in H. destruct H as (_ & before & parent & after & skipped & a & rest & H).
  exists before, parent, after, skipped, a, rest.
  destruct H as (-> & H). split; [reflexivity | exact H].
Defined.

Lemma dict_get_del_same (k : string) (d : Dict) : dict_get k (dict_del k d) = None.
Proof.
  unfold dict_get, dict_del.
  induction d as [|[k' v] d IH]; cbn [List.filter List.find fst]; [reflexivity|].
  destruct (String.eqb k k') eqn:E; cbn [negb List.find fst]; [exact IH|].
  rewrite E. exact IH.
Qed.

Lemma dict_get_del_other (k k' : string) (d : Dict) :
  k <> k' -> dict_get k (dict_del k' d) = dict_get k d.
Proof.
  intros Hne. unfold dict_get, dict_del.
  induction d as [|[k0 v] d IH]; cbn [List.filter List.find fst]; [reflexivity|].
  destruct (String.eqb k' k0) eqn:E; cbn [negb List.find fst].
  - apply String.eqb_eq in E. subst k0.
    destruct (String.eqb k k') eqn:E'; [|exact IH].
    apply String.eqb_eq in E'. congruence.
  - destruct (String.eqb k k0); [reflexivity | exact IH].
Qed.

Section MoreLookupMixinProperties.

Import LookupMixin.



End MoreLookupMixinProperties.

Section ChildPrefixProperties.

Import ChildPrefixExtension.

Variable network_offset : string -> string -> Result string.

(** [!child_prefix] returns exactly when its value is a dictionary
    whose [parent] is a string or a model instance that wraps a prefix,
    whose [offset] is a string, and [network_offset] accepts the two;
    the result is then what [network_offset] computes, under the name
    "prefix". *)
Theorem child_prefix_returns (st : State) (value : Value) (name child : string) :
  attribute network_offset st value = Ok (name, child) <->
  name = "prefix" /\
  exists d parent offset,
    value = VDict d /\
    (dict_get "parent" d = Some (VStr parent) \/
     exists l, dict_get "parent" d = Some (VModelInstance l) /\
               prefix_of (heap st) l = Ok parent) /\
    dict_get "offset" d = Some (VStr offset) /\
    network_offset parent offset = Ok child.
Proof.
  unfold attribute. split.
  - destruct value; try discriminate.
    pose proof (dict_pop_default_rest "parent" d) as Hrest.
    pose proof (dict_pop_default_value "parent" d) as Hvalue.
    destruct (dict_pop_default "parent" d) as [given remaining].
    cbn [fst snd] in Hrest, Hvalue. subst remaining.
    assert (Htail : forall parent,
               (let (offset, _) := dict_pop_default "offset" (dict_del "parent" d) in
                match offset with
                | VNone =>
                    Raise (DesignImplementationError
                             (Text "the child_prefix tag requires an offset"))
                | VStr offset =>
                    (child <- network_offset parent offset ;; Ok ("prefix", child))%py
                | _ => Raise (DesignImplementationError (Text "offset must be string"))
                end) = Ok (name, child) ->
               name = "prefix" /\
               exists offset,
                 dict_get "offset" d = Some (VStr offset) /\
                 network_offset parent offset = Ok child).
    { intros parent.
      pose proof (dict_pop_default_value "offset" (dict_del "parent" d)) as Hoff.
      destruct (dict_pop_default "offset" (dict_del "parent" d)) as [offset rest].
      cbn [fst] in Hoff. rewrite dict_get_del_other in Hoff by discriminate.
      destruct offset; try discriminate.
      destruct (network_offset parent s) as [c|e] eqn:Hnet; cbn [bind]; [|discriminate].
      intros [= <- <-]. split; [reflexivity|]. exists s. split; [|exact Hnet].
      destruct (dict_get "offset" d); congruence. }
    destruct (dict_get "parent" d) as [p|] eqn:Hparent; subst given; [|discriminate].
    destruct p; try discriminate; cbn [bind].
    + intros H. destruct (Htail s H) as (-> & offset & Hoff & Hnet).
      split; [reflexivity|]. exists d, s, offset. auto.
    + destruct (prefix_of (heap st) l) as [parent|e] eqn:Hprefix; cbn [bind]; [|discriminate].
      intros H. destruct (Htail parent H) as (-> & offset & Hoff & Hnet).
      split; [reflexivity|]. exists d, parent, offset. repeat split; eauto.
  - intros (-> & d & parent & offset & -> & Hparent & Hoffset & Hnet).
    unfold dict_pop_default at 1.
    assert (Htail : (let (offset0, _) := dict_pop_default "offset" (dict_del "parent" d) in
                     match offset0 with
                     | VNone =>
                         Raise (DesignImplementationError
                                  (Text "the child_prefix tag requires an offset"))
                     | VStr offset0 =>
                         (child <- network_offset parent offset0 ;; Ok ("prefix", child))%py
                     | _ => Raise (DesignImplementationError (Text "offset must be string"))
                     end) = Ok ("prefix", child)).
    { unfold dict_pop_default. rewrite dict_get_del_other by discriminate.
      rewrite Hoffset, Hnet. reflexivity. }
    destruct Hparent as [Hparent|(l & Hparent & Hprefix)]; rewrite Hparent; cbn [bind].
    + exact Htail.
    + rewrite Hprefix. cbn [bind]. exact Htail.
Qed.

End ChildPrefixProperties.

(** ** Statements in sequence, continued *)

Lemma mbind_no_design_error {A B} (m : M A) (k : A -> M B) :
  no_design_error m -> (forall a, no_design_error (k a)) -> no_design_error (mbind m k).
Proof.
  intros Hm Hk st. unfold mbind. specialize (Hm st).
  destruct (m st) as [[a|e] st1]; cbn [fst] in *; [apply Hk | exact Hm].
Qed.

Lemma dict_has_get (k : string) (d : Dict) :
  dict_has k d = true <-> exists v, dict_get k d = Some v.
Proof.
  unfold dict_has, dict_get.
  induction d as [|[k' v'] d IH]; cbn [existsb List.find fst snd].
  - split; [discriminate | intros [v H]; discriminate].
  - destruct (String.eqb k k'); cbn [orb]; [split; eauto | exact IH].
Qed.

Lemma init_ok (creator : Builder) (m : ModelClass) (attrs : Value) (st st' : State) (x : nat) :
  ModelInstance_init creator m attrs st = (Ok x, st') ->
  exists d row,
    attrs = VDict d /\
    load_instance creator (db st) m d = Some row /\
    x = List.length (heap st) /\
    st' = mkState (db st) (heap st ++ [mkModelInstance m row d [] [] []])%list.
Proof.
  unfold ModelInstance_init. destruct attrs; try discriminate.
  destruct (load_instance creator (db st) m d) as [row|] eqn:Hload; [|discriminate].
  intros [= <- <-]. exists d, row. auto.
Qed.

Lemma update_no_design_error (l : nat) (f : ModelInstance -> ModelInstance) :
  no_design_error (update_instance l f).
Proof. intros st. unfold update_instance. destruct (heap st !! l); reflexivity. Qed.

Lemma update_keeps (P : ModelInstance -> Prop) (l : nat) (f : ModelInstance -> ModelInstance)
  (st st' : State) (j : nat) (x : ModelInstance) :
  update_instance l f st = (Ok tt, st') ->
  (forall y, P y -> P (f y)) ->
  heap st !! j = Some x -> P x ->
  exists x', heap st' !! j = Some x' /\ P x'.
Proof.
  intros Hup Hf Hj Hx. apply update_instance_ok in Hup. destruct Hup as (mi & Hl & ->).
  cbn [heap]. destruct (Nat.eq_dec l j) as [->|Hne].
  - rewrite list_lookup_insert_eq by (eapply lookup_lt_Some; eauto).
    exists (f mi). split; [reflexivity|]. apply Hf. congruence.
  - rewrite list_lookup_insert_ne by exact Hne. eauto.
Qed.

Lemma update_same_db (l : nat) (f : ModelInstance -> ModelInstance) (st : State) :
  db (snd (update_instance l f st)) = db st.
Proof. unfold update_instance. destruct (heap st !! l); reflexivity. Qed.

Lemma init_same_db (creator : Builder) (m : ModelClass) (attrs : Value) (st : State) :
  db (snd (ModelInstance_init creator m attrs st)) = db st.
Proof.
  unfold ModelInstance_init. destruct attrs; try reflexivity.
  destruct (load_instance creator (db st) m d); reflexivity.
Qed.

Lemma same_row_trans (a b c : Row) :
  same_row a b = true -> same_row b c = true -> same_row a c = true.
Proof. rewrite !same_row_iff. intros [-> ->] [-> ->]. auto. Qed.

Lemma same_row_sym (a b : Row) : same_row a b = true -> same_row b a = true.
Proof. rewrite !same_row_iff. intros [-> ->]. auto. Qed.

Section MorePeeringProperties.

Import BGPPeeringExtension.

Lemma existing_peerings_no_design_error (endpoint_a endpoint_z : nat) :
  no_design_error (reads (fun st => existing_peerings st endpoint_a endpoint_z)).
Proof.
  intros st. unfold reads, existing_peerings, peering_of, related. cbn [fst].
  repeat case_match; simplify_eq/=; try reflexivity.
Qed.

Lemma delete_if_any_no_design_error (r : option Row) : no_design_error (delete_if_any r).
Proof. intros st. destruct r; reflexivity. Qed.

(** [!bgp_peering] raises its [DesignImplementationError], and has then
    changed nothing, when its value is not a dictionary with both
    [endpoint_a] and [endpoint_z]; once the model instances of both
    endpoints are constructed it no longer ends in
    [DesignImplementationError]. *)
Theorem bgp_peering_design_error (self : Builder) (value : Value) (l : nat) (st : State) :
  (has_both_endpoints value = false ->
   attribute self value l st = (Raise bad_value, st)) /\
  (forall d a z endpoint_a endpoint_z st1 st2,
      value = VDict d ->
      dict_get "endpoint_a" d = Some a ->
      dict_get "endpoint_z" d = Some z ->
      ModelInstance_init self PeerEndpoint a st = (Ok endpoint_a, st1) ->
      ModelInstance_init self PeerEndpoint z st1 = (Ok endpoint_z, st2) ->
      is_design_error (fst (attribute self value l st)) = false).
Proof.
  split.
  - unfold has_both_endpoints, attribute. destruct value; try reflexivity.
    intros H. apply andb_false_iff in H.
    destruct (dict_get "endpoint_a" d) as [a|] eqn:Ha;
      destruct (dict_get "endpoint_z" d) as [z|] eqn:Hz; try reflexivity.
    destruct H as [H|H]; exfalso;
      [ assert (dict_has "endpoint_a" d = true) by (apply dict_has_get; eauto)
      | assert (dict_has "endpoint_z" d = true) by (apply dict_has_get; eauto) ];
      congruence.
  - intros d a z endpoint_a endpoint_z st1 st2 -> Ha Hz Hinit_a Hinit_z.
    unfold attribute. rewrite Ha, Hz.
    unfold mbind at 1. rewrite Hinit_a. unfold mbind at 1. rewrite Hinit_z.
    revert st2 Hinit_z.
    assert (Hrest : no_design_error
      (peerings <~ reads (fun st => existing_peerings st endpoint_a endpoint_z) ;;
       let (peering_a, peering_z) := (peerings : option Row * option Row) in
       retval <~
         (if same_peering peering_a peering_z then
            match peering_a with
            | Some p =>
                mret (dict_set "!update:pk" (VInt (row_pk p))
                               (dict_del "endpoint_z" (dict_del "endpoint_a" d)))
            | None => mret (dict_del "endpoint_z" (dict_del "endpoint_a" d))
            end
          else
            _ <~ delete_if_any peering_a ;;
            _ <~ delete_if_any peering_z ;;
            mret (dict_del "endpoint_z" (dict_del "endpoint_a" d))) ;;
       let retval :=
         dict_set "endpoints"
                  (VList [VModelInstance endpoint_a; VModelInstance endpoint_z]) retval in
       _ <~ set_peering l endpoint_a ;;
       _ <~ set_peering l endpoint_z ;;
       _ <~ connect l POST_SAVE BGPPeeringExtension_post_save ;;
       mret (VDict retval))%py).
    { apply mbind_no_design_error; [apply existing_peerings_no_design_error|].
      intros [peering_a peering_z].
      apply mbind_no_design_error.
      + destruct (same_peering peering_a peering_z).
        * destruct peering_a; intros s; reflexivity.
        * apply mbind_no_design_error; [apply delete_if_any_no_design_error | intros _].
          apply mbind_no_design_error; [apply delete_if_any_no_design_error | intros _].
          intros s. reflexivity.
      + intros retval.
        apply mbind_no_design_error; [apply update_no_design_error | intros _].
        apply mbind_no_design_error; [apply update_no_design_error | intros _].
        apply mbind_no_design_error; [apply update_no_design_error | intros _].
        intros s. reflexivity. }
    intros st2 _. apply Hrest.
Qed.

Lemma bgp_peering_design_error_witness :
  attribute sample_builder (VDict [("endpoint_a", VDict [])]) 0 sample_state =
    (Raise bad_value, sample_state) /\
  is_design_error (fst (attribute sample_builder sample_peering_value 0 sample_state)) = false.
Proof.
  split.
  - apply (proj1 (bgp_peering_design_error sample_builder _ 0%nat sample_state)).
    reflexivity.
  - eapply (proj2 (bgp_peering_design_error sample_builder sample_peering_value 0%nat
                     sample_state)); reflexivity.
Defined.

Lemma settle_peerings_ok (peering_a peering_z : option Row) (retval retval' : Dict)
  (st st' : State) :
  (if same_peering peering_a peering_z then
     match peering_a with
     | Some p => mret (dict_set "!update:pk" (VInt (row_pk p)) retval)
     | None => mret retval
     end
   else
     (_ <~ delete_if_any peering_a ;;
      _ <~ delete_if_any peering_z ;;
      mret retval)%py) st = (Ok retval', st') ->
  heap st' = heap st /\
  (retval' = retval \/ exists pk, retval' = dict_set "!update:pk" (VInt pk) retval).
Proof.
  destruct (same_peering peering_a peering_z).
  - destruct peering_a as [p|]; unfold mret; intros [= <- <-]; eauto.
  - unfold mbind, mret, delete_if_any, delete.
    destruct peering_a, peering_z; cbn [heap]; intros [= <- <-]; auto.
Qed.

(** What a successful [!bgp_peering] hands back: the value without
    [endpoint_a] and [endpoint_z], with an [endpoints] list of two new
    model instances of the [PeerEndpoint] class, each of which has the
    peering model instance itself as its [peering] attribute. *)
Theorem bgp_peering_returns_endpoints (self : Builder) (d : Dict) (l : nat)
  (st st' : State) (ret : Value) :
  attribute self (VDict d) l st = (Ok ret, st') ->
  let n := List.length (heap st) in
  exists retval endpoint_a endpoint_z,
    ret = VDict retval /\
    dict_get "endpoints" retval = Some (VList [VModelInstance n; VModelInstance (S n)]) /\
    dict_get "endpoint_a" retval = None /\
    dict_get "endpoint_z" retval = None /\
    (forall k,
        k <> "endpoint_a" -> k <> "endpoint_z" -> k <> "endpoints" -> k <> "!update:pk" ->
        dict_get k retval = dict_get k d) /\
    List.length (heap st') = S (S n) /\
    heap st' !! n = Some endpoint_a /\ endpoint_of l endpoint_a /\
    heap st' !! S n = Some endpoint_z /\ endpoint_of l endpoint_z.
Proof.
  intros Hrun n. unfold attribute in Hrun.
  destruct (dict_get "endpoint_a" d) as [a|]; [|discriminate].
  destruct (dict_get "endpoint_z" d) as [z|]; [|discriminate].
  apply mbind_ok in Hrun. destruct Hrun as (xa & s1 & Ha & Hrun).
  apply init_ok in Ha. destruct Ha as (da & rowa & -> & _ & -> & ->).
  apply mbind_ok in Hrun. destruct Hrun as (xz & s2 & Hz & Hrun).
  apply init_ok in Hz. destruct Hz as (dz & rowz & -> & _ & -> & ->).
  cbn [db heap] in Hrun.
  apply mbind_ok in Hrun. destruct Hrun as ([peering_a peering_z] & s3 & Hread & Hrun).
  unfold reads in Hread. injection Hread as _ <-.
  apply mbind_ok in Hrun. destruct Hrun as (retval1 & s4 & Hsettle & Hrun).
  apply settle_peerings_ok in Hsettle. destruct Hsettle as [Hheap4 Hretval].
  cbn [heap] in Hheap4.
  apply mbind_ok in Hrun. destruct Hrun as ([] & s5 & Hset_a & Hrun).
  apply mbind_ok in Hrun. destruct Hrun as ([] & s6 & Hset_z & Hrun).
  apply mbind_ok in Hrun. destruct Hrun as ([] & s7 & Hconnect & Hrun).
  unfold mret in Hrun. injection Hrun as <- <-.
  fold n in Hset_a, Hset_z, Hheap4 |- *.
  assert (Hlen1 : List.length (heap st ++ [mkModelInstance PeerEndpoint rowa da [] [] []])%list
                  = S n) by (rewrite List.length_app; cbn; unfold n; lia).
  rewrite Hlen1 in *.
  set (A := mkModelInstance PeerEndpoint rowa da [] [] []) in *.
  set (Z := mkModelInstance PeerEndpoint rowz dz [] [] []) in *.
  assert (HA : heap s4 !! n = Some A).
  { rewrite Hheap4, <- List.app_assoc. now apply list_lookup_middle. }
  assert (HZ : heap s4 !! S n = Some Z).
  { rewrite Hheap4. apply list_lookup_middle. now rewrite Hlen1. }
  assert (Hlen4 : List.length (heap s4) = S (S n)).
  { rewrite Hheap4, !List.length_app. cbn. unfold n. lia. }
  (* the two endpoints get their [peering] *)
  unfold set_peering in Hset_a, Hset_z.
  pose proof Hset_a as Hup_a. apply update_instance_ok in Hup_a.
  destruct Hup_a as (mia & Hmia & Hs5).
  assert (mia = A) by congruence. subst mia.
  assert (HA5 : exists x, heap s5 !! n = Some x /\ endpoint_of l x).
  { rewrite Hs5. cbn [heap].
    rewrite list_lookup_insert_eq by (rewrite Hlen4; lia).
    eexists. split; [reflexivity|]. split; [reflexivity|].
    cbn [set_attributes attributes]. apply dict_get_set_eq. }
  assert (HZ5 : heap s5 !! S n = Some Z).
  { rewrite Hs5. cbn [heap]. rewrite list_lookup_insert_ne by lia. exact HZ. }
  assert (Hlen5 : List.length (heap s5) = S (S n)).
  { rewrite Hs5. cbn [heap]. now rewrite length_insert. }
  assert (Hkeep : forall y,
             endpoint_of l y ->
             endpoint_of l (set_attributes
                              (dict_set "peering" (VModelInstance l) (attributes y)) y)).
  { intros y [Hm _]. split; [exact Hm|]. cbn [set_attributes attributes].
    apply dict_get_set_eq. }
  destruct HA5 as (a5 & Ha5 & Pa5).
  destruct (update_keeps (endpoint_of l) _ _ _ _ n a5 Hset_z Hkeep Ha5 Pa5)
    as (a6 & Ha6 & Pa6).
  pose proof Hset_z as Hup_z. apply update_instance_ok in Hup_z.
  destruct Hup_z as (miz & Hmiz & Hs6).
  assert (miz = Z) by congruence. subst miz.
  assert (HZ6 : exists x, heap s6 !! S n = Some x /\ endpoint_of l x).
  { rewrite Hs6. cbn [heap].
    rewrite list_lookup_insert_eq by (rewrite Hlen5; lia).
    eexists. split; [reflexivity|]. split; [reflexivity|].
    cbn [set_attributes attributes]. apply dict_get_set_eq. }
  destruct HZ6 as (z6 & Hz6 & Pz6).
  assert (Hlen6 : List.length (heap s6) = S (S n)).
  { rewrite Hs6. cbn [heap]. now rewrite length_insert. }
  (* the hook is connected *)
  unfold connect in Hconnect.
  assert (Hsig : forall y,
             endpoint_of l y ->
             endpoint_of l (set_signals
                              (signals y ++ [(POST_SAVE, BGPPeeringExtension_post_save)])%list
                              y)).
  { intros y Hy. exact Hy. }
  destruct (update_keeps (endpoint_of l) _ _ _ _ n a6 Hconnect Hsig Ha6 Pa6)
    as (a7 & Ha7 & Pa7).
  destruct (update_keeps (endpoint_of l) _ _ _ _ (S n) z6 Hconnect Hsig Hz6 Pz6)
    as (z7 & Hz7 & Pz7).
  apply update_instance_ok in Hconnect. destruct Hconnect as (mi & _ & Hs7).
  assert (Hbase : dict_get "endpoint_a" (dict_del "endpoint_z" (dict_del "endpoint_a" d)) = None
                  /\ dict_get "endpoint_z" (dict_del "endpoint_z" (dict_del "endpoint_a" d)) = None
                  /\ forall k, k <> "endpoint_a" -> k <> "endpoint_z" ->
                       dict_get k (dict_del "endpoint_z" (dict_del "endpoint_a" d)) =
                       dict_get k d).
  { split; [|split].
    - rewrite dict_get_del_other by discriminate. apply dict_get_del_same.
    - apply dict_get_del_same.
    - intros k Hka Hkz. now rewrite !dict_get_del_other by congruence. }
  destruct Hbase as (Hba & Hbz & Hbk).
  eexists _, a7, z7. split; [reflexivity|].
  split; [apply dict_get_set_eq|].
  split; [|split; [|split; [|split]]].
  - rewrite dict_get_set_ne by discriminate.
    destruct Hretval as [->|[pk ->]]; [exact Hba|].
    now rewrite dict_get_set_ne by discriminate.
  - rewrite dict_get_set_ne by discriminate.
    destruct Hretval as [->|[pk ->]]; [exact Hbz|].
    now rewrite dict_get_set_ne by discriminate.
  - intros k Hka Hkz Hke Hkp.
    rewrite dict_get_set_ne by congruence.
    destruct Hretval as [->|[pk ->]]; [now apply Hbk|].
    rewrite dict_get_set_ne by congruence. now apply Hbk.
  - rewrite Hs7. cbn [heap]. now rewrite length_insert.
  - auto.
Qed.

Lemma bgp_peering_returns_endpoints_witness :
  exists retval endpoint_a endpoint_z,
    fst (attribute sample_builder sample_peering_value 0 sample_state) = Ok (VDict retval) /\
    dict_get "endpoints" retval = Some (VList [VModelInstance 1; VModelInstance 2]) /\
    heap (snd (attribute sample_builder sample_peering_value 0 sample_state)) !! 1%nat =
      Some endpoint_a /\
    endpoint_of 0 endpoint_a /\
    heap (snd (attribute sample_builder sample_peering_value 0 sample_state)) !! 2%nat =
      Some endpoint_z /\
    endpoint_of 0 endpoint_z.
Proof.
  destruct (attribute sample_builder sample_peering_value 0 sample_state)
    as [ret st'] eqn:Hrun.
  assert (Hok : exists v, ret = Ok v).
  { revert Hrun. vm_compute. intros [= <- _]. eauto. }
  destruct Hok as [v ->].
  destruct (bgp_peering_returns_endpoints sample_builder _ 0%nat sample_state st' v Hrun)
    as (retval & ea & ez & -> & Hends & _ & _ & _ & _ & Ha & Pa & Hz & Pz).
  exists retval, ea, ez. cbn [fst snd]. auto 10.
Defined.

Lemma collected_same (gone : list Row) (x y : Row) :
  same_row x y = true -> collected gone x = collected gone y.
Proof.
  intros H. apply same_row_iff in H. destruct H as [Hm Hp].
  unfold collected, same_row. now rewrite Hm, Hp.
Qed.

Lemma collect_round_grows (d : Database) (gone : list Row) (x : Row) :
  collected gone x = true -> collected (collect_round d gone) x = true.
Proof.
  intros H. unfold collect_round, collected in *. rewrite existsb_app, H. reflexivity.
Qed.

Lemma collect_grows (d : Database) (rounds : nat) :
  forall gone x, collected gone x = true -> collected (collect d rounds gone) x = true.
Proof.
  induction rounds as [|n IH]; intros gone x H; cbn [collect]; [exact H|].
  apply IH, collect_round_grows, H.
Qed.

Lemma collect_round_reaches (d : Database) (gone : list Row) (x : Row) :
  In x (db_rows d) ->
  refers_through (on_delete_cascade d) gone x = true ->
  collected (collect_round d gone) x = true.
Proof.
  intros Hin Hrefers.
  destruct (collected gone x) eqn:Hgone; [now apply collect_round_grows|].
  unfold collect_round, collected. rewrite existsb_app. apply orb_true_iff. right.
  apply List.existsb_exists. exists x. split; [|apply same_row_refl].
  apply List.filter_In. split; [exact Hin|].
  fold (collected gone x). rewrite Hgone, Hrefers. reflexivity.
Qed.

Lemma nullified_key (d : Database) (gone : list Row) (x : Row) :
  same_row (nullified d gone x) x = true.
Proof.
  unfold nullified.
  induction (on_delete_set_null d) as [|mf keys IH]; cbn [fold_right].
  - apply same_row_refl.
  - destruct (model_eqb (fst mf) (row_model x) && refers_through [mf] gone x); [|exact IH].
    exact IH.
Qed.

(** A row that the collector has reached is no longer stored. *)
Lemma collected_not_stored (d : Database) (r x : Row) :
  collected (collect d (List.length (db_rows d)) [r]) x = true ->
  stored (rows_after_delete d r) x = false.
Proof.
  intros Hgone. unfold stored, rows_after_delete. cbv zeta.
  destruct (existsb _ _) eqn:E; [|reflexivity]. exfalso.
  apply List.existsb_exists in E. destruct E as (y & Hy & Hsame).
  apply List.in_map_iff in Hy. destruct Hy as (x0 & <- & Hx0).
  apply List.filter_In in Hx0. destruct Hx0 as [_ Hkept].
  apply negb_true_iff in Hkept.
  assert (Hkey : same_row x0 x = true).
  { eapply same_row_trans; [|exact Hsame].
    apply same_row_sym, nullified_key. }
  rewrite (collected_same _ _ _ Hkey) in Hkept. congruence.
Qed.

(** The two endpoints are not treated alike.  When the row behind
    [endpoint_a] has no peering, no row is deleted, whatever the row
    behind [endpoint_z] belongs to; when the row behind [endpoint_a] has
    a peering and the one behind [endpoint_z] has none, that peering is
    deleted, and with it the stored endpoints that belong to it. *)
Theorem bgp_peering_first_endpoint_decides (self : Builder) (d da dz : Dict) (l : nat)
  (st : State) (row_a row_z : Row) :
  dict_get "endpoint_a" d = Some (VDict da) ->
  dict_get "endpoint_z" d = Some (VDict dz) ->
  load_instance self (db st) PeerEndpoint da = Some (Some row_a) ->
  load_instance self (db st) PeerEndpoint dz = Some (Some row_z) ->
  (related (db st) Peering row_a "peering" = Raise (ObjectDoesNotExist Peering) ->
   db (snd (attribute self (VDict d) l st)) = db st) /\
  (forall p,
      related (db st) Peering row_a "peering" = Ok (Some p) ->
      related (db st) Peering row_z "peering" = Raise (ObjectDoesNotExist Peering) ->
      let rows := db_rows (db (snd (attribute self (VDict d) l st))) in
      rows = rows_after_delete (db st) p /\
      stored rows p = false /\
      forall x,
        In x (db_rows (db st)) ->
        row_model x = PeerEndpoint ->
        dict_get "peering" (row_fields x) = Some (row_ref p) ->
        stored rows x = false).
Proof.
  intros Ha Hz Hla Hlz.
  set (A := mkModelInstance PeerEndpoint (Some row_a) da [] [] []).
  set (Z := mkModelInstance PeerEndpoint (Some row_z) dz [] [] []).
  set (st2 := mkState (db st) ((heap st ++ [A]) ++ [Z])%list).
  assert (Hlen1 : List.length (heap st ++ [A])%list = S (List.length (heap st)))
    by (rewrite List.length_app; cbn; lia).
  assert (HA : heap st2 !! List.length (heap st) = Some A).
  { unfold st2. cbn [heap]. rewrite <- List.app_assoc. now apply list_lookup_middle. }
  assert (HZ : heap st2 !! S (List.length (heap st)) = Some Z).
  { unfold st2. cbn [heap]. apply list_lookup_middle. now rewrite Hlen1. }
  assert (Hstart : forall (k : nat -> nat -> M Value),
             (endpoint_a <~ ModelInstance_init self PeerEndpoint (VDict da) ;;
              endpoint_z <~ ModelInstance_init self PeerEndpoint (VDict dz) ;;
              k endpoint_a endpoint_z)%py st =
             k (List.length (heap st)) (S (List.length (heap st))) st2).
  { intros k. unfold mbind, ModelInstance_init. rewrite Hla. cbn [db heap].
    rewrite Hlz. fold A. fold Z. rewrite Hlen1. reflexivity. }
  assert (Htail : forall retval s,
             db (snd ((_ <~ set_peering l (List.length (heap st)) ;;
                       _ <~ set_peering l (S (List.length (heap st))) ;;
                       _ <~ connect l POST_SAVE BGPPeeringExtension_post_save ;;
                       mret (VDict retval))%py s)) = db s).
  { intros retval s. unfold mbind, set_peering, connect, update_instance, mret.
    repeat (case_match; simplify_eq/=); reflexivity. }
  split.
  - intros Hnone. unfold attribute. rewrite Ha, Hz.
    rewrite Hstart. unfold mbind at 1. unfold reads.
    unfold existing_peerings, peering_of. rewrite HA. cbn [instance A].
    change (db st2) with (db st). rewrite Hnone. cbn [is_peering_missing].
    replace (model_eqb Peering Peering) with true by reflexivity.
    cbn [same_peering]. unfold mbind at 1. unfold mret at 1.
    rewrite Htail. reflexivity.
  - intros p Hsome Hnone rows.
    assert (Hrows_after : rows = rows_after_delete (db st) p).
    { unfold rows, attribute. rewrite Ha, Hz.
      rewrite Hstart. unfold mbind at 1. unfold reads.
      unfold existing_peerings, peering_of. rewrite HA, HZ. cbn [instance A Z].
      change (db st2) with (db st). rewrite Hsome, Hnone. cbn [is_peering_missing].
      replace (model_eqb Peering Peering) with true by reflexivity.
      cbn [same_peering]. unfold mbind at 1. unfold mbind at 1.
      cbn [delete_if_any]. unfold delete at 1. unfold mbind at 1. unfold mret at 1.
      unfold mret at 1. rewrite Htail. reflexivity. }
    rewrite Hrows_after. clear rows Hrows_after.
    split; [reflexivity|]. split.
    + apply collected_not_stored, collect_grows.
      unfold collected. cbn [existsb]. now rewrite same_row_refl.
    + intros x Hin Hmodel Hpeering. apply collected_not_stored.
      destruct (db_rows (db st)) as [|x0 rows0] eqn:Hrows; [destruct Hin|].
      cbn [List.length collect]. apply collect_grows, collect_round_reaches.
      * rewrite Hrows. exact Hin.
      * unfold refers_through, on_delete_cascade. cbn [existsb fst snd].
        rewrite Hmodel. unfold refers_to. rewrite Hpeering, value_eqb_row_ref.
        reflexivity.
Qed.

Lemma bgp_peering_first_endpoint_decides_witness :
  db (snd (attribute wraps_first (VDict (asymmetric_value "endpoint_z" "endpoint_a")) 0
             peering_state)) = db peering_state /\
  db_rows (db (snd (attribute wraps_first (VDict (asymmetric_value "endpoint_a" "endpoint_z"))
                      0 peering_state))) = [].
Proof.
  split.
  - apply (bgp_peering_first_endpoint_decides wraps_first
             (asymmetric_value "endpoint_z" "endpoint_a")
             [("source_ip", VStr "10.0.0.2")] [("existing", VBool true)] 0%nat peering_state
             (mkRow PeerEndpoint 99 [("source_ip", VStr "10.0.0.2")]) endpoint_1);
      reflexivity.
  - rewrite (proj1 (proj2 (bgp_peering_first_endpoint_decides wraps_first
                             (asymmetric_value "endpoint_a" "endpoint_z")
                             [("existing", VBool true)] [("source_ip", VStr "10.0.0.2")] 0%nat
                             peering_state endpoint_1
                             (mkRow PeerEndpoint 99 [("source_ip", VStr "10.0.0.2")])
                             eq_refl eq_refl eq_refl eq_refl) peering_5 eq_refl eq_refl)).
    reflexivity.
Defined.

End MorePeeringProperties.

Lemma save_rows_length (r : Row) (rows : list Row) :
  stored rows r = true -> List.length (save_rows r rows) = List.length rows.
Proof.
  unfold stored. induction rows as [|x rows IH]; cbn [existsb save_rows]; [discriminate|].
  destruct (same_row x r); cbn [orb List.length]; [reflexivity|].
  intros H. now rewrite IH.
Qed.

Lemma save_rows_stored (r r' : Row) (rows : list Row) :
  stored rows r = true -> stored (save_rows r' rows) r = true.
Proof.
  unfold stored. induction rows as [|x rows IH]; cbn [existsb save_rows]; [discriminate|].
  destruct (same_row x r') eqn:E'; cbn [existsb].
  - destruct (same_row x r) eqn:E; cbn [orb].
    + intros _. apply orb_true_iff. left.
      eapply same_row_trans; [apply same_row_sym; exact E' | exact E].
    + intros H. rewrite H. apply orb_true_r.
  - destruct (same_row x r); cbn [orb]; [reflexivity | exact IH].
Qed.

Lemma find_row_stored (d : Database) (m : ModelClass) (pk : Z) (r : Row) :
  find_row d m pk = Some r -> stored (db_rows d) r = true.
Proof.
  unfold find_row, stored. intros H. apply List.find_some in H. destruct H as [Hin _].
  apply List.existsb_exists. exists r. split; [exact Hin | apply same_row_refl].
Qed.

Section MorePostSaveProperties.

Import BGPPeeringExtension.

Lemma endpoint_stored (d : Database) (peering : Row) (field : string) (r : Row) :
  endpoint d peering field = Ok r -> stored (db_rows d) r = true.
Proof.
  unfold endpoint, related.
  destruct (dict_get field (row_fields peering)) as [[]|]; try discriminate.
  destruct (find_row d m pk) as [x|] eqn:Hfind; [|discriminate].
  cbn [bind]. intros [= <-]. eapply find_row_stored; eauto.
Qed.

(** The hook touches the two endpoints and nothing else: no model
    instance changes, no row is added or removed, and every row with
    another key is what it was. *)
Theorem post_save_touches_endpoints_only (st : State) (l : nat) (mi : ModelInstance)
  (peering a z : Row) :
  heap st !! l = Some mi ->
  instance mi = Some peering ->
  endpoint (db st) peering "endpoint_a" = Ok a ->
  endpoint (db st) peering "endpoint_z" = Ok z ->
  let st' := snd (_post_save l st) in
  heap st' = heap st /\
  List.length (db_rows (db st')) = List.length (db_rows (db st)) /\
  forall m pk,
    model_eqb (row_model a) m && Z.eqb (row_pk a) pk = false ->
    model_eqb (row_model z) m && Z.eqb (row_pk z) pk = false ->
    find_row (db st') m pk = find_row (db st) m pk.
Proof.
  intros Hl Hi Ha Hz st'. unfold st'.
  rewrite (post_save_wires st l mi peering a z Hl Hi Ha Hz). cbn [snd heap db].
  split; [reflexivity|]. split.
  - unfold with_rows. cbn [db_rows].
    rewrite save_rows_length.
    + apply save_rows_length. apply endpoint_stored in Ha. exact Ha.
    + apply save_rows_stored. apply endpoint_stored in Hz. exact Hz.
  - intros m pk Hna Hnz.
    rewrite find_row_saved_other by exact Hnz.
    rewrite find_row_saved_other by exact Hna.
    destruct (db st); reflexivity.
Qed.

Lemma post_save_touches_endpoints_only_witness :
  heap (snd (_post_save 0 peering_state)) = heap peering_state /\
  find_row (db (snd (_post_save 0 peering_state))) Peering 5 = Some peering_5.
Proof.
  destruct (post_save_touches_endpoints_only peering_state 0%nat _ peering_5
              endpoint_1 endpoint_2 eq_refl eq_refl eq_refl eq_refl)
    as (Hheap & _ & Hother).
  split; [exact Hheap|].
  rewrite Hother by reflexivity. reflexivity.
Defined.

(** A hook that fails has saved nothing: with a model instance that
    wraps no row, or a peering that lacks an endpoint, the state is left
    as it was. *)
Theorem post_save_failure_saves_nothing (st : State) (l : nat) (e : Exception) :
  fst (_post_save l st) = Raise e -> snd (_post_save l st) = st.
Proof.
  unfold _post_save, mbind, get_instance, reads, save, mraise.
  destruct (heap st !! l) as [mi|]; cbn [fst snd]; [|reflexivity].
  destruct (instance mi) as [peering|]; cbn [fst snd]; [|reflexivity].
  destruct (endpoint (db st) peering "endpoint_a"); cbn [fst snd]; [|reflexivity].
  destruct (endpoint (db st) peering "endpoint_z"); cbn [fst snd]; [|reflexivity].
  discriminate.
Qed.

Lemma post_save_failure_saves_nothing_witness :
  snd (_post_save 0
         (mkState (mkDatabase [endpoint_1; mkRow Peering 5 [("endpoint_a", VObj PeerEndpoint 1);
                                                            ("endpoint_z", VNone)]]
                              [] [] (fun _ => []) (schema_with []))
                  [mkModelInstance Peering
                     (Some (mkRow Peering 5 [("endpoint_a", VObj PeerEndpoint 1);
                                             ("endpoint_z", VNone)]))
                     [] [] [] []])) =
  mkState (mkDatabase [endpoint_1; mkRow Peering 5 [("endpoint_a", VObj PeerEndpoint 1);
                                                     ("endpoint_z", VNone)]]
                      [] [] (fun _ => []) (schema_with []))
          [mkModelInstance Peering
             (Some (mkRow Peering 5 [("endpoint_a", VObj PeerEndpoint 1);
                                     ("endpoint_z", VNone)]))
             [] [] [] []].
Proof.
  apply (post_save_failure_saves_nothing _ 0%nat (AttributeError "peer")).
  reflexivity.
Defined.

End MorePostSaveProperties.

Lemma for_in_app {A} (xs ys : list A) (body : A -> M unit) (st : State) :
  for_in (xs ++ ys)%list body st =
  match for_in xs body st with
  | (Ok _, st') => for_in ys body st'
  | (Raise e, st') => (Raise e, st')
  end.
Proof.
  revert st. induction xs as [|x xs IH]; intros st; cbn [for_in app].
  - reflexivity.
  - unfold mbind. destruct (body x st) as [[[]|e] st1]; [apply IH | reflexivity].
Qed.

Section MoreStatusProperties.

Import Signals.

Lemma create_status_rows (name color : string) (st : State) :
  color_of name = Ok color ->
  (List.length (statuses_named st name) <= 1)%nat ->
  exists r extra,
    create_status design_instance_type name st =
      (Ok tt,
       mkState (with_rows (db st)
                  (List.map (add_where r "content_types" design_instance_type)
                            (db_rows (db st) ++ extra)%list))
               (heap st)) /\
    (extra = [] \/
     exists pk, extra = [new_status pk name color] /\ statuses_named st name = []).
Proof.
  intros Hcolor Hle.
  unfold create_status, mbind, reads. rewrite Hcolor, get_or_create_cases by reflexivity.
  change (List.filter (matches [("name", VStr name)]) (qs_rows (objects (db st) Status)))
    with (statuses_named st name).
  destruct (statuses_named st name) as [|x [|y rest]] eqn:Hnamed; [| |simpl in Hle; lia].
  - cbn zeta. cbn [fst]. unfold m2m_add. cbn [db heap with_rows db_rows].
    eexists _, _. split; [reflexivity|]. right. eexists. split; reflexivity.
  - cbn [fst]. unfold m2m_add.
    exists x, []. rewrite List.app_nil_r. split; [reflexivity | now left].
Qed.

Lemma keeps_colour_step (rows extra : list Row) (r : Row) (name color other c : string) :
  extra = [] \/ (exists pk, extra = [new_status pk name color] /\ rows_named rows name = []) ->
  keeps_colour rows other c ->
  keeps_colour (List.map (add_where r "content_types" design_instance_type)
                         (rows ++ extra)%list) other c.
Proof.
  intros Hextra [Hsome Hall]. unfold keeps_colour.
  rewrite rows_named_map, rows_named_app.
  assert (Hnone : rows_named extra other = []).
  { destruct Hextra as [->|(pk & -> & Hfree)]; [reflexivity|].
    rewrite rows_named_new. destruct (String.eqb name other) eqn:E; [|reflexivity].
    apply String.eqb_eq in E. subst other. congruence. }
  rewrite Hnone, List.app_nil_r. split.
  - destruct (rows_named rows other); [congruence | discriminate].
  - intros y Hy. apply List.in_map_iff in Hy. destruct Hy as (x & <- & Hx).
    apply add_where_color. now apply Hall.
Qed.

Lemma create_statuses_keep_colour (other c : string) (todo : list string) :
  forall st,
    Forall (fun name => exists color, color_of name = Ok color) todo ->
    Forall (fun name => (List.length (statuses_named st name) <= 1)%nat) todo ->
    keeps_colour (db_rows (db st)) other c ->
    keeps_colour
      (db_rows (db (snd (for_in todo (create_status design_instance_type) st)))) other c.
Proof.
  induction todo as [|name todo IH]; intros st Hcolors Hcounts Hkeep; [exact Hkeep|].
  apply Forall_cons_iff in Hcolors. destruct Hcolors as [[color Hc] Hcolors].
  apply Forall_cons_iff in Hcounts. destruct Hcounts as [Hcount Hcounts].
  destruct (create_status_rows name color st Hc Hcount) as (r & extra & Hrun & Hextra).
  destruct (create_status_step name color st Hc Hcount) as (rows1 & Hstep & Hev & _).
  rewrite Hrun in Hstep. injection Hstep as Hrows.
  cbn [for_in]. unfold mbind. rewrite Hrun.
  apply IH; [exact Hcolors | |].
  - eapply List.Forall_impl; [|exact Hcounts].
    intros n Hn. unfold statuses_named. cbn [db with_rows db_rows].
    rewrite Hrows. destruct Hev as (_ & _ & Hcnt & _). apply Hcnt, Hn.
  - cbn [db with_rows db_rows]. eapply keeps_colour_step; eauto.
Qed.

Variable DesignInstanceStatusChoices : list (string * string).
Variable DesignInstanceLiveStateChoices : list (string * string).

(** The handler never recolours: a status that exists when the handler
    starts has the same colour when it ends, whether or not its name is
    one of the listed ones. *)
Theorem statuses_keep_colour (st : State) (other c : string) :
  let names := status_names DesignInstanceStatusChoices DesignInstanceLiveStateChoices in
  let handler :=
    create_design_instance_statuses DesignInstanceStatusChoices
                                    DesignInstanceLiveStateChoices in
  Forall (fun name => exists color, color_of name = Ok color) names ->
  Forall (fun name => (List.length (statuses_named st name) <= 1)%nat) names ->
  statuses_named st other <> [] ->
  (forall r, In r (statuses_named st other) -> has_color c r) ->
  statuses_named (snd (handler st)) other <> [] /\
  forall r, In r (statuses_named (snd (handler st)) other) -> has_color c r.
Proof.
  intros names handler Hcolors Hcounts Hsome Hall.
  apply (create_statuses_keep_colour other c names st Hcolors Hcounts).
  split; assumption.
Qed.

(** A listed name without a colour in the mapping stops the handler
    with [KeyError], whether or not that status exists; the names listed
    before it have been provided by then. *)
Theorem statuses_missing_colour (st : State) (before after : list string) (name : string) :
  status_names DesignInstanceStatusChoices DesignInstanceLiveStateChoices =
    (before ++ name :: after)%list ->
  Forall (fun n => exists color, color_of n = Ok color) before ->
  Forall (fun n => (List.length (statuses_named st n) <= 1)%nat) before ->
  color_of name = Raise (KeyError name) ->
  exists st',
    create_design_instance_statuses DesignInstanceStatusChoices
                                    DesignInstanceLiveStateChoices st =
      (Raise (KeyError name), st') /\
    Forall (provided (db_rows (db st'))) before.
Proof.
  intros Hnames Hcolors Hcounts Hmissing.
  destruct (create_statuses_loop before st Hcolors Hcounts) as (rows' & Hrun & _ & Hdone & _).
  exists (mkState (with_rows (db st) rows') (heap st)). split; [|exact Hdone].
  unfold create_design_instance_statuses. cbv zeta.
  change (VContentType DesignInstance) with design_instance_type.
  rewrite Hnames, for_in_app, Hrun.
  cbn [for_in]. unfold mbind at 1. unfold create_status at 1. unfold mbind at 1.
  unfold reads. rewrite Hmissing. reflexivity.
Qed.

End MoreStatusProperties.

Lemma statuses_keep_colour_witness :
  Signals.statuses_named
    (snd (Signals.create_design_instance_statuses status_choices live_state_choices
            statuses_state)) "Active" <> [] /\
  Forall (Signals.has_color "ffffff")
         (Signals.statuses_named
            (snd (Signals.create_design_instance_statuses status_choices live_state_choices
                    statuses_state)) "Active").
Proof.
  destruct (statuses_keep_colour status_choices live_state_choices statuses_state
              "Active" "ffffff") as [Hsome Hall].
  - repeat (constructor; [eexists; reflexivity|]). constructor.
  - repeat (constructor; [vm_compute; lia|]). constructor.
  - discriminate.
  - intros r [<-|[]]. reflexivity.
  - split; [exact Hsome|]. apply List.Forall_forall. exact Hall.
Defined.

Lemma statuses_missing_colour_witness :
  exists st',
    Signals.create_design_instance_statuses
      [("Active", "Active"); ("Archived", "Archived")] live_state_choices statuses_state =
      (Raise (KeyError "Archived"), st') /\
    Forall (Signals.provided (db_rows (db st'))) ["Active"].
Proof.
  apply (statuses_missing_colour [("Active", "Active"); ("Archived", "Archived")]
           live_state_choices statuses_state ["Active"]
           ["Deployed"; "Pending"; "Rolled back"] "Archived").
  - reflexivity.
  - repeat (constructor; [eexists; reflexivity|]). constructor.
  - repeat (constructor; [vm_compute; lia|]). constructor.
  - reflexivity.
Defined.

Lemma child_prefix_returns_witness :
  ChildPrefixExtension.attribute
    (fun parent offset => Ok (parent ++ "+" ++ offset)%string) sample_state
    (VDict [("parent", VStr "10.0.0.0/24"); ("offset", VStr "0.0.0.128/25")]) =
  Ok ("prefix", "10.0.0.0/24+0.0.0.128/25").
Proof.
  apply child_prefix_returns. split; [reflexivity|].
  exists [("parent", VStr "10.0.0.0/24"); ("offset", VStr "0.0.0.128/25")],
         "10.0.0.0/24", "0.0.0.128/25".
  repeat split. now left.
Defined.
